(** * The OpenBSD RunCom service controller of AdGuard Home

    A shallow embedding of [internal/home/service_openbsd.go]: the
    rc.d script generator, the editor of [/etc/rc.conf.local] and the
    lifecycle operations of [openbsdRunComService], followed by the
    properties established about them.

    Go strings are byte sequences, embedded as [string] (a list of 8-bit
    [ascii]).  Go's [error] values are embedded as [option error], [None]
    being [nil].  The functions of the Go standard library that the source
    calls are embedded next to it, each in a module named after its
    package. *)

From Stdlib Require Import ZArith Ascii String List Bool Lia.
From stdpp Require Import base option gmap strings.
Import ListNotations.

Local Open Scope string_scope.

(** ** Bytes and byte strings *)

Definition byte_of (n : nat) : ascii := ascii_of_nat n.

Fixpoint bytes (l : list nat) : string :=
  match l with
  | [] => EmptyString
  | n :: l' => String (byte_of n) (bytes l')
  end.

(** The characters that have no literal form in a Rocq string. *)
Definition nl : string := bytes [10].
Definition dq : string := bytes [34].

Fixpoint str_drop (n : nat) (s : string) : string :=
  match n, s with
  | O, _ => s
  | S _, EmptyString => EmptyString
  | S n', String _ s' => str_drop n' s'
  end.

Fixpoint str_take (n : nat) (s : string) : string :=
  match n, s with
  | O, _ => EmptyString
  | S _, EmptyString => EmptyString
  | S n', String c s' => String c (str_take n' s')
  end.

Fixpoint str_rev_onto (s acc : string) : string :=
  match s with
  | EmptyString => acc
  | String c s' => str_rev_onto s' (String c acc)
  end.

Definition str_rev (s : string) : string := str_rev_onto s EmptyString.

Fixpoint str_repeat (c : ascii) (n : nat) : string :=
  match n with
  | O => EmptyString
  | S n' => String c (str_repeat c n')
  end.

Fixpoint str_concat (l : list string) : string :=
  match l with
  | [] => EmptyString
  | s :: l' => s +:+ str_concat l'
  end.

(** ** Package [strings] *)

Module Strings.

(** [asciiSpace] of the Go library: tab, line feed, vertical tab, form
    feed, carriage return and space. *)
Definition asciiSpace (c : ascii) : bool :=
  match nat_of_ascii c with
  | 9 | 10 | 11 | 12 | 13 | 32 => true
  | _ => false
  end.

Definition RuneSelf : nat := 128.

(** The UTF-8 encodings of the code points above U+007F that
    [unicode.IsSpace] accepts: U+0085, U+00A0, U+1680, U+2000..U+200A,
    U+2028, U+2029, U+202F, U+205F and U+3000.  A decoded rune is one of
    them exactly when the bytes are one of these sequences, and every
    byte that does not decode (Go's RuneError) is not a space. *)
Definition unicodeSpaces : list string :=
  [ bytes [194; 133]; bytes [194; 160]; bytes [225; 154; 128];
    bytes [226; 128; 128]; bytes [226; 128; 129]; bytes [226; 128; 130];
    bytes [226; 128; 131]; bytes [226; 128; 132]; bytes [226; 128; 133];
    bytes [226; 128; 134]; bytes [226; 128; 135]; bytes [226; 128; 136];
    bytes [226; 128; 137]; bytes [226; 128; 138]; bytes [226; 128; 168];
    bytes [226; 128; 169]; bytes [226; 128; 175]; bytes [226; 129; 159];
    bytes [227; 128; 128] ].

Fixpoint firstPrefix (seqs : list string) (s : string) : nat :=
  match seqs with
  | [] => 0
  | q :: seqs' => if String.prefix q s then String.length q
                  else firstPrefix seqs' s
  end.

(** Width in bytes of the space rune that [s] starts with, [0] when it
    starts with none; [seqs] are the multi-byte spaces to recognise. *)
Definition spaceWidth (seqs : list string) (s : string) : nat :=
  match s with
  | EmptyString => 0
  | String c _ =>
      if Nat.ltb (nat_of_ascii c) RuneSelf
      then (if asciiSpace c then 1 else 0)
      else firstPrefix seqs s
  end.

Fixpoint trimLeftLoop (fuel : nat) (seqs : list string) (s : string) : string :=
  match fuel with
  | O => s
  | S fuel' =>
      match spaceWidth seqs s with
      | O => s
      | w => trimLeftLoop fuel' seqs (str_drop w s)
      end
  end.

Definition TrimLeftSpace (s : string) : string :=
  trimLeftLoop (String.length s) unicodeSpaces s.

(** Trimming on the right decodes runes backwards; a string ends with a
    space rune exactly when it ends with one of the byte sequences, so
    the scan runs on the reversed string. *)
Definition TrimRightSpace (s : string) : string :=
  str_rev (trimLeftLoop (String.length s) (map str_rev unicodeSpaces) (str_rev s)).

Definition TrimSpace (s : string) : string :=
  TrimRightSpace (TrimLeftSpace s).

Fixpoint indexFrom (i : Z) (s substr : string) : Z :=
  if String.prefix substr s then i
  else match s with
       | EmptyString => (-1)%Z
       | String _ s' => indexFrom (i + 1)%Z s' substr
       end.

(** [strings.Index]: the byte index of the first instance of [substr],
    [-1] when there is none. *)
Definition Index (s substr : string) : Z := indexFrom 0%Z s substr.

Fixpoint splitLoop (sep s : string) (skip : nat) (cur : string) : list string :=
  match s with
  | EmptyString => [str_rev cur]
  | String c s' =>
      match skip with
      | S k => splitLoop sep s' k cur
      | O =>
          if String.prefix sep s
          then str_rev cur :: splitLoop sep s' (String.length sep - 1) EmptyString
          else splitLoop sep s' 0 (String c cur)
      end
  end.

(** [strings.Split] for a non-empty separator (the source passes a
    single space). *)
Definition Split (s sep : string) : list string :=
  splitLoop sep s 0 EmptyString.

Fixpoint Join (elems : list string) (sep : string) : string :=
  match elems with
  | [] => EmptyString
  | [e] => e
  | e :: elems' => e +:+ sep +:+ Join elems' sep
  end.

End Strings.

(** ** Package [stringutil] of golibs *)

Module Stringutil.

Fixpoint InSlice (strs : list string) (str : string) : bool :=
  match strs with
  | [] => false
  | s :: strs' => if String.eqb s str then true else InSlice strs' str
  end.

(** A [strings.Builder] is embedded as the text built so far. *)
Definition WriteToBuilder (b : string) (strs : list string) : string :=
  b +:+ str_concat strs.

Fixpoint Coalesce (strs : list string) : string :=
  match strs with
  | [] => EmptyString
  | s :: strs' => if String.eqb s EmptyString then Coalesce strs' else s
  end.

End Stringutil.

(** ** Errors

    Go's [error] values as the source builds and inspects them: the
    sentinels of the libraries, [syscall.Errno], [*fs.PathError], the
    string constants of [errors.Error], and the results of [fmt.Errorf]
    with and without a wrapping verb. *)

Inductive Errno := ENOENT | EACCES | EPERM | EEXIST | EISDIR | EINVAL | EIO | ENOSPC.

Inductive Sentinel :=
| SnEOF             (* io.EOF *)
| SnTooLong         (* bufio.ErrTooLong *)
| SnNotExist        (* os.ErrNotExist *)
| SnPermission      (* os.ErrPermission *)
| SnExist           (* os.ErrExist *)
| SnNotInstalled.   (* service.ErrNotInstalled *)

Inductive error :=
| ErrSentinel (sn : Sentinel)
| ErrErrno (e : Errno)
| ErrPath (op path : string) (err : error)
| ErrConst (msg : string)
| ErrFmt (msg : string)
| ErrWrap (msg : string) (err : error).

Definition Errno_eqb (a b : Errno) : bool :=
  match a, b with
  | ENOENT, ENOENT | EACCES, EACCES | EPERM, EPERM | EEXIST, EEXIST
  | EISDIR, EISDIR | EINVAL, EINVAL | EIO, EIO | ENOSPC, ENOSPC => true
  | _, _ => false
  end.

Definition Sentinel_eqb (a b : Sentinel) : bool :=
  match a, b with
  | SnEOF, SnEOF | SnTooLong, SnTooLong | SnNotExist, SnNotExist
  | SnPermission, SnPermission | SnExist, SnExist
  | SnNotInstalled, SnNotInstalled => true
  | _, _ => false
  end.

Fixpoint error_eqb (a b : error) : bool :=
  match a, b with
  | ErrSentinel x, ErrSentinel y => Sentinel_eqb x y
  | ErrErrno x, ErrErrno y => Errno_eqb x y
  | ErrPath o p e, ErrPath o' p' e' => String.eqb o o' && String.eqb p p' && error_eqb e e'
  | ErrConst m, ErrConst m' => String.eqb m m'
  | ErrFmt m, ErrFmt m' => String.eqb m m'
  | ErrWrap m e, ErrWrap m' e' => String.eqb m m' && error_eqb e e'
  | _, _ => false
  end.

Module Errors.

(** [syscall.Errno.Is]. *)
Definition Errno_Is (e : Errno) (target : error) : bool :=
  match target with
  | ErrSentinel SnNotExist => Errno_eqb e ENOENT
  | ErrSentinel SnPermission => Errno_eqb e EACCES || Errno_eqb e EPERM
  | ErrSentinel SnExist => Errno_eqb e EEXIST
  | _ => false
  end.

Fixpoint IsErr (err target : error) : bool :=
  error_eqb err target ||
  match err with
  | ErrErrno e => Errno_Is e target
  | ErrPath _ _ err' => IsErr err' target
  | ErrWrap _ err' => IsErr err' target
  | _ => false
  end.

(** [errors.Is]: walks the chain of wrapped errors; [nil] is no error. *)
Definition Is (err : option error) (target : error) : bool :=
  match err with
  | None => false
  | Some e => IsErr e target
  end.

Definition Errno_Error (e : Errno) : string :=
  match e with
  | ENOENT => "no such file or directory"
  | EACCES => "permission denied"
  | EPERM => "operation not permitted"
  | EEXIST => "file exists"
  | EISDIR => "is a directory"
  | EINVAL => "invalid argument"
  | EIO => "input/output error"
  | ENOSPC => "no space left on device"
  end.

Definition Sentinel_Error (sn : Sentinel) : string :=
  match sn with
  | SnEOF => "EOF"
  | SnTooLong => "bufio.Scanner: token too long"
  | SnNotExist => "file does not exist"
  | SnPermission => "permission denied"
  | SnExist => "file already exists"
  | SnNotInstalled => "the service is not installed"
  end.

(** The [Error] method: the text of an error. *)
Fixpoint Error (err : error) : string :=
  match err with
  | ErrSentinel sn => Sentinel_Error sn
  | ErrErrno e => Errno_Error e
  | ErrPath op path err' => op +:+ " " +:+ path +:+ ": " +:+ Error err'
  | ErrConst msg => msg
  | ErrFmt msg => msg
  | ErrWrap msg err' => msg +:+ Error err'
  end.

(** [errors.Annotate] of golibs with a format that ends in the wrapping
    verb: [msg] is the formatted text before it.  A [nil] error stays
    [nil]. *)
Definition Annotate (err : option error) (msg : string) : option error :=
  match err with
  | None => None
  | Some e => Some (ErrWrap msg e)
  end.

(** [errors.WithDeferred] of golibs.  The deferred calls of the source
    are [Close] calls, which do not fail in this embedding, so only the
    first case is ever taken; the texts of the other two are indicative. *)
Definition WithDeferred (returned deferred : option error) : option error :=
  match deferred with
  | None => returned
  | Some d =>
      match returned with
      | None => Some d
      | Some r => Some (ErrWrap (Error r +:+ ": deferred: ") d)
      end
  end.

End Errors.

(** ** Package [path/filepath] (Unix) *)

Module Filepath.

Definition IsAbs (path : string) : bool := String.prefix "/" path.

(** One step of [Clean] over the path elements seen so far, innermost
    first: empty and [.] elements vanish, [..] removes the element
    before it, stays when there is none to remove in a relative path
    and vanishes at the root. *)
Definition cleanStep (rooted : bool) (stack : list string) (elem : string) : list string :=
  if String.eqb elem "" || String.eqb elem "." then stack
  else if String.eqb elem ".." then
    match stack with
    | top :: rest => if String.eqb top ".." then elem :: stack else rest
    | [] => if rooted then [] else [elem]
    end
  else elem :: stack.

Definition Clean (path : string) : string :=
  let rooted := IsAbs path in
  let stack := fold_left (cleanStep rooted) (Strings.Split path "/") [] in
  let body := Strings.Join (rev stack) "/" in
  if rooted then "/" +:+ body
  else if String.eqb body "" then "." else body.

Fixpoint dropEmpty (elem : list string) : list string :=
  match elem with
  | [] => []
  | e :: elem' => if String.eqb e "" then dropEmpty elem' else elem
  end.

(** [filepath.Join]: the elements from the first non-empty one on,
    separated by slashes, cleaned; the empty string when all are
    empty. *)
Definition Join (elem : list string) : string :=
  match dropEmpty elem with
  | [] => ""
  | rest => Clean (Strings.Join rest "/")
  end.

(** [filepath.Abs], given the result of [os.Getwd]. *)
Definition Abs (getwd : string * option error) (path : string) : string * option error :=
  if IsAbs path then (Clean path, None)
  else match getwd with
       | (_, Some err) => ("", Some err)
       | (wd, None) => (Join [wd; path], None)
       end.

End Filepath.

(** ** Outcomes of effectful code

    An operation on a state [St] returns a value and a new state, panics,
    or never returns (a blocking wait that is never woken). *)

Inductive Res (St A : Type) :=
| Done (a : A) (st : St)
| Panic (msg : string) (st : St)
| Hang (st : St).
Arguments Done {St A} a st.
Arguments Panic {St A} msg st.
Arguments Hang {St A} st.

Definition M (St A : Type) : Type := St -> Res St A.

Definition ret {St A} (a : A) : M St A := fun st => Done a st.

Definition bind {St A B} (m : M St A) (k : A -> M St B) : M St B :=
  fun st =>
    match m st with
    | Done a st' => k a st'
    | Panic msg st' => Panic msg st'
    | Hang st' => Hang st'
    end.

Declare Scope go_scope.
Delimit Scope go_scope with go.
Notation "'let!' x ':=' m 'in' k" := (bind m (fun x => k))
  (at level 10, x pattern, m at level 100, k at level 200) : go_scope.

(** The state an outcome leaves behind. *)
Definition stateOf {St A} (r : Res St A) : St :=
  match r with
  | Done _ st | Panic _ st | Hang st => st
  end.

(** ** The operating system

    The file system is a finite map from paths to nodes; every call that
    the source makes on the system is recorded in a trace.  What the
    source cannot decide is supplied by the environment [Env]: failures
    of system calls (permissions, a full disk), the path of the running
    executable, the working directory, what the rc.d script does when it
    is run, whether a termination signal ever arrives, and the rendering
    of script texts supplied by the host. *)

Inductive Node :=
| NFile (data : string) (mode : Z)
| NDir.

Inductive Syscall := SysStat | SysCreate | SysChmod | SysRemove | SysOpenFile.

Inductive Callback := CbStart | CbWait | CbStop.

Inductive Event :=
| EvStat (path : string)
| EvCreate (path : string)
| EvChmod (path : string) (mode : Z)
| EvRemove (path : string)
| EvOpenFile (path : string)
| EvRunCommand (command : string) (arguments : list string)
| EvSignalWait
| EvCall (cb : Callback).

Record World := {
  fs : gmap string Node;
  trace : list Event
}.

Definition logEvent (ev : Event) (w : World) : World :=
  {| fs := fs w; trace := trace w ++ [ev] |}.

Definition setNode (path : string) (n : Node) (w : World) : World :=
  {| fs := <[path := n]> (fs w); trace := trace w |}.

Definition delNode (path : string) (w : World) : World :=
  {| fs := delete path (fs w); trace := trace w |}.

(** The values of the option bag [service.KeyValue], a
    [map[string]interface{}]: booleans, strings and functions without
    arguments are the types the source asks for; [VInt] and [VNil] stand
    for values of any other type. *)
Inductive OptVal :=
| VBool (b : bool)
| VString (s : string)
| VFunc (f : M World unit)
| VInt (z : Z)
| VNil.

(** [service.Config], with the fields the source reads. *)
Record Config := {
  Name : string;
  DisplayName : string;
  Executable : string;
  Arguments : list string;
  Option : gmap string OptVal
}.

(** [service.Interface]: the callbacks of the daemon. *)
Record Interface := {
  iStart : M World (option error);
  iStop : M World (option error)
}.

(** [openbsdRunComService]. *)
Record openbsdRunComService := {
  i : Interface;
  config : Config
}.

(** The data a script template is executed on. *)
Record TemplateData := {
  tdConfig : Config;
  tdPath : string;
  tdSvcInfo : string
}.

(** What parsing and executing a template gives: a parse failure (on which
    [template.Must] panics), or the text written and the error, if any,
    that stopped the execution. *)
Inductive Rendered :=
| ParseFails (msg : string)
| Executes (written : string) (err : option error).

Record Env := {
  envFault : Syscall -> string -> option Errno;
  envUmask : Z;
  envExecutable : string * option error;
  envGetwd : string * option error;
  envRunCommand : string -> list string -> list Event -> Z * string * option error;
  envSignalArrives : list Event -> bool;
  envTemplate : string -> TemplateData -> Rendered
}.

(** An open regular file: its name, its contents and the offset of the
    next read or write. *)
Record File := {
  fname : string;
  fdata : string;
  foff : nat
}.

Record FileInfo := {
  infoName : string;
  infoIsDir : bool
}.

Module Os.

Definition ErrNotExist : error := ErrSentinel SnNotExist.

Definition pathError (op path : string) (e : Errno) : option error :=
  Some (ErrPath op path (ErrErrno e)).

(** [os.Stat], for the error it returns. *)
Definition Stat (env : Env) (path : string) : M World (option error) :=
  fun w =>
    let w := logEvent (EvStat path) w in
    match envFault env SysStat path with
    | Some e => Done (pathError "stat" path e) w
    | None =>
        match fs w !! path with
        | Some _ => Done None w
        | None => Done (pathError "stat" path ENOENT) w
        end
    end.

Definition newMode (env : Env) (perm : Z) : Z :=
  Z.land perm (Z.lnot (envUmask env)).

Definition openAt (path data : string) : option File :=
  Some {| fname := path; fdata := data; foff := 0 |}.

(** [os.Create]: the file is created with mode 0666 before umask, or
    truncated when it exists. *)
Definition Create (env : Env) (path : string) : M World (option File * option error) :=
  fun w =>
    let w := logEvent (EvCreate path) w in
    match envFault env SysCreate path with
    | Some e => Done (None, pathError "open" path e) w
    | None =>
        match fs w !! path with
        | Some NDir => Done (None, pathError "open" path EISDIR) w
        | Some (NFile _ mode) => Done (openAt path "", None) (setNode path (NFile "" mode) w)
        | None => Done (openAt path "", None) (setNode path (NFile "" (newMode env 438)) w)
        end
    end.

(** [os.OpenFile] with [O_RDWR|O_CREATE]: the file is created when it
    does not exist; a directory cannot be opened for writing. *)
Definition OpenFile (env : Env) (path : string) (perm : Z) : M World (option File * option error) :=
  fun w =>
    let w := logEvent (EvOpenFile path) w in
    match envFault env SysOpenFile path with
    | Some e => Done (None, pathError "open" path e) w
    | None =>
        match fs w !! path with
        | Some NDir => Done (None, pathError "open" path EISDIR) w
        | Some (NFile data _) => Done (openAt path data, None) w
        | None => Done (openAt path "", None) (setNode path (NFile "" (newMode env perm)) w)
        end
    end.

(** The contents of an open file, put where the file system has the
    file; the mode of the node is kept. *)
Definition store (f : File) (w : World) : World :=
  match fs w !! fname f with
  | Some (NFile _ mode) => setNode (fname f) (NFile (fdata f) mode) w
  | _ => w
  end.

(** Code that works on one open file, run in the world: what it wrote
    is in the file system whichever way it ends. *)
Definition onFile {A} (f : File) (m : M File A) : M World (A * File) :=
  fun w =>
    match m f with
    | Done a f' => Done (a, f') (store f' w)
    | Panic msg f' => Panic msg (store f' w)
    | Hang f' => Hang (store f' w)
    end.

Definition Close (f : File) : M World (option error) := ret None.

(** [File.Stat] on a file that was opened: a regular file. *)
Definition FileStat (f : File) : FileInfo * option error :=
  ({| infoName := fname f; infoIsDir := false |}, None).

Definition Chmod (env : Env) (path : string) (mode : Z) : M World (option error) :=
  fun w =>
    let w := logEvent (EvChmod path mode) w in
    match envFault env SysChmod path with
    | Some e => Done (pathError "chmod" path e) w
    | None =>
        match fs w !! path with
        | Some (NFile data _) => Done None (setNode path (NFile data mode) w)
        | Some NDir => Done None w
        | None => Done (pathError "chmod" path ENOENT) w
        end
    end.

Definition Remove (env : Env) (path : string) : M World (option error) :=
  fun w =>
    let w := logEvent (EvRemove path) w in
    match envFault env SysRemove path with
    | Some e => Done (pathError "remove" path e) w
    | None =>
        match fs w !! path with
        | Some _ => Done None (delNode path w)
        | None => Done (pathError "remove" path ENOENT) w
        end
    end.

Definition withOff (f : File) (off : nat) : File :=
  {| fname := fname f; fdata := fdata f; foff := off |}.

(** [File.Read] into a buffer of [n > 0] bytes: on a regular file, as
    many bytes as remain up to [n], and [io.EOF] when none does.  This
    read and the write below succeed; the ones that may fail are in
    module [IO]. *)
Definition Read (n : nat) (f : File) : string * option error * File :=
  match str_drop (foff f) (fdata f) with
  | EmptyString => ("", Some (ErrSentinel SnEOF), f)
  | rest =>
      let got := str_take n rest in
      (got, None, withOff f (foff f + String.length got))
  end.

(** [File.Seek] relative to the current offset ([whence = 1]). *)
Definition SeekCur (offset : Z) (f : File) : option error * File :=
  let pos := (Z.of_nat (foff f) + offset)%Z in
  if (pos <? 0)%Z then (pathError "seek" (fname f) EINVAL, f)
  else (None, withOff f (Z.to_nat pos)).

(** [File.WriteString]: the bytes replace those at the offset and extend
    the file past its end; a gap before the offset reads as zero
    bytes. *)
Definition WriteString (s : string) (f : File) : option error * File :=
  let size := String.length (fdata f) in
  let before := str_take (foff f) (fdata f) +:+ str_repeat (byte_of 0) (foff f - size) in
  let after := str_drop (foff f + String.length s) (fdata f) in
  (None, {| fname := fname f; fdata := before +:+ s +:+ after;
            foff := foff f + String.length s |}).

End Os.

(** ** Package [bufio]: the line scanner *)

Module Bufio.

Definition startBufSize : nat := 4096.
Definition MaxScanTokenSize : nat := 64 * 1024.

Definition ErrTooLong : error := ErrSentinel SnTooLong.
Definition EOF : error := ErrSentinel SnEOF.

(** A [Scanner]: [bufLen] is [len(s.buf)], [start] is [s.start] and
    [pending] the bytes [s.buf[s.start:s.end]] read from the file and
    not yet handed out. *)
Record Scanner := {
  bufLen : nat;
  start : nat;
  pending : string;
  token : string;
  err : option error
}.

Definition NewScanner : Scanner :=
  {| bufLen := 0; start := 0; pending := ""; token := ""; err := None |}.

Definition bufEnd (s : Scanner) : nat := start s + String.length (pending s).

Definition setErr (e : error) (s : Scanner) : Scanner :=
  match err s with
  | None | Some (ErrSentinel SnEOF) =>
      {| bufLen := bufLen s; start := start s; pending := pending s;
         token := token s; err := Some e |}
  | Some _ => s
  end.

Fixpoint indexNL (data : string) : option nat :=
  match data with
  | EmptyString => None
  | String c data' =>
      if Nat.eqb (nat_of_ascii c) 10 then Some 0
      else option_map S (indexNL data')
  end.

Definition dropCR (data : string) : string :=
  match str_rev data with
  | String c rest => if Nat.eqb (nat_of_ascii c) 13 then str_rev rest else data
  | EmptyString => data
  end.

(** [bufio.ScanLines]: how far to advance, and the line found if any. *)
Definition ScanLines (data : string) (atEOF : bool) : nat * option string :=
  if atEOF && String.eqb data "" then (0, None)
  else match indexNL data with
       | Some n => (n + 1, Some (dropCR (str_take n data)))
       | None => if atEOF then (String.length data, Some (dropCR data))
                 else (0, None)
       end.

Definition hasErr (s : Scanner) : bool :=
  match err s with Some _ => true | None => false end.

(** The scanner with another buffer: its length, the start and the bytes
    pending. *)
Definition withBuf (s : Scanner) (len st : nat) (pend : string) : Scanner :=
  {| bufLen := len; start := st; pending := pend; token := token s; err := err s |}.

(** The first step of a turn of [Scanner.Scan]: when bytes are pending or
    the end of the file was met, the split function is asked for a line;
    the scanner advances past what it consumed and keeps the line.  The
    result tells whether there is a line. *)
Definition trySplit (s : Scanner) : Scanner * bool :=
  if negb (String.eqb (pending s) "") || hasErr s
  then
    let '(advance, tok) := ScanLines (pending s) (hasErr s) in
    ({| bufLen := bufLen s; start := start s + advance;
        pending := str_drop advance (pending s);
        token := default "" tok; err := err s |},
     match tok with Some _ => true | None => false end)
  else (s, false).

(** The pending bytes are moved to the beginning of the buffer if there's
    lots of empty space or space is needed. *)
Definition shift (s : Scanner) : Scanner :=
  if Nat.ltb 0 (start s) &&
     (Nat.eqb (bufEnd s) (bufLen s) || Nat.ltb (bufLen s / 2) (start s))
  then withBuf s (bufLen s) 0 (pending s)
  else s.

Definition full (s : Scanner) : bool := Nat.eqb (bufEnd s) (bufLen s).

(** A full buffer is replaced by one of twice the length, of
    [startBufSize] at first and of [MaxScanTokenSize] at most. *)
Definition grow (s : Scanner) : Scanner :=
  let newSize := if Nat.eqb (bufLen s * 2) 0 then startBufSize else bufLen s * 2 in
  withBuf s (Nat.min newSize MaxScanTokenSize) 0 (pending s).

(** What a read returned is added to the pending bytes, and its error
    kept. *)
Definition fill (s : Scanner) (got : string) (e : option error) : Scanner :=
  let s := withBuf s (bufLen s) (start s) (pending s +:+ got) in
  match e with Some e => setErr e s | None => s end.

(** The loop of [Scanner.Scan]: hand out a line of what is buffered, or
    make room in the buffer and read more of the file. *)
Fixpoint scanLoop (fuel : nat) (s : Scanner) : M File (bool * Scanner) :=
  fun f =>
  match fuel with
  | O => Hang f
  | S fuel' =>
      let '(s, found) := trySplit s in
      if found then Done (true, s) f
      else if hasErr s then Done (false, withBuf s (bufLen s) 0 "") f
      else
        let s := shift s in
        if full s && Nat.leb MaxScanTokenSize (bufLen s)
        then Done (false, setErr ErrTooLong s) f
        else
          let s := if full s then grow s else s in
          let '(got, e, f) := Os.Read (bufLen s - bufEnd s) f in
          scanLoop fuel' (fill s got e) f
  end.

(** [Scanner.Scan].  Every turn of the loop but the last two reads at
    least one byte of the file. *)
Definition Scan (s : Scanner) : M File (bool * Scanner) :=
  fun f => scanLoop (String.length (fdata f) - foff f + 3) s f.

Definition Text (s : Scanner) : string := token s.

(** [Scanner.Err]: the first error met that is not [io.EOF]. *)
Definition Err (s : Scanner) : option error :=
  match err s with
  | Some (ErrSentinel SnEOF) => None
  | e => e
  end.

End Bufio.

(** ** Package [text/template], as far as the built-in script needs it

    A template text is cut at its actions.  The embedding executes the
    actions that print a string field of the data and the pipeline of the
    argument list into the function [args]; a text with any other action
    is left to the environment. *)

Module Template.

Inductive Field := FSvcInfo | FPath | FName | FDisplayName | FExecutable.

Inductive Piece :=
| PText (text : string)
| PField (fld : Field)
| PArgs.

Fixpoint nonEmpty (l : list string) : list string :=
  match l with
  | [] => []
  | x :: l' => if String.eqb x "" then nonEmpty l' else x :: nonEmpty l'
  end.

Definition parseField (name : string) : option Field :=
  if String.eqb name ".SvcInfo" then Some FSvcInfo
  else if String.eqb name ".Path" then Some FPath
  else if String.eqb name ".Name" then Some FName
  else if String.eqb name ".DisplayName" then Some FDisplayName
  else if String.eqb name ".Executable" then Some FExecutable
  else None.

(** The action between a pair of delimiters, its words separated by
    spaces. *)
Definition parseAction (body : string) : option Piece :=
  match nonEmpty (Strings.Split body " ") with
  | [name] => option_map PField (parseField name)
  | [name; bar; fn] =>
      if String.eqb name ".Arguments" && String.eqb bar "|" && String.eqb fn "args"
      then Some PArgs else None
  | _ => None
  end.

Fixpoint parseLoop (fuel : nat) (text : string) : option (list Piece) :=
  match fuel with
  | O => None
  | S fuel' =>
      let open := Strings.Index text "{{" in
      if (open <? 0)%Z then Some [PText text]
      else
        let rest := str_drop (Z.to_nat open + 2) text in
        let close := Strings.Index rest "}}" in
        if (close <? 0)%Z then None
        else
          match parseAction (str_take (Z.to_nat close) rest),
                parseLoop fuel' (str_drop (Z.to_nat close + 2) rest) with
          | Some piece, Some pieces =>
              Some (PText (str_take (Z.to_nat open) text) :: piece :: pieces)
          | _, _ => None
          end
  end.

Definition Parse (text : string) : option (list Piece) :=
  parseLoop (S (String.length text)) text.

Definition field (fld : Field) (data : TemplateData) : string :=
  match fld with
  | FSvcInfo => tdSvcInfo data
  | FPath => tdPath data
  | FName => Name (tdConfig data)
  | FDisplayName => DisplayName (tdConfig data)
  | FExecutable => Executable (tdConfig data)
  end.

Fixpoint exec (args : list string -> string) (pieces : list Piece) (data : TemplateData) : string :=
  match pieces with
  | [] => ""
  | PText text :: pieces' => text +:+ exec args pieces' data
  | PField fld :: pieces' => field fld data +:+ exec args pieces' data
  | PArgs :: pieces' => args (Arguments (tdConfig data)) +:+ exec args pieces' data
  end.

(** [template.New("").Funcs(tf).Parse(text)] followed by [Execute]. *)
Definition render (env : Env) (args : list string -> string) (text : string)
    (data : TemplateData) : Rendered :=
  match Parse text with
  | Some pieces => Executes (exec args pieces data) None
  | None => envTemplate env text data
  end.

End Template.

(** ** The service: [service_openbsd.go] *)

Local Open Scope go_scope.

Definition sysVersion : string := "openbsd-runcom".

Definition Platform (s : openbsdRunComService) : string := "openbsd".

(** [String] of the service: the display name, or the name. *)
Definition String_ (s : openbsdRunComService) : string :=
  Stringutil.Coalesce [DisplayName (config s); Name (config s)].

Definition getBool (kv : gmap string OptVal) (name : string) (defaultValue : bool) : bool :=
  match kv !! name with
  | Some (VBool val) => val
  | _ => defaultValue
  end.

Definition getString (kv : gmap string OptVal) (name defaultValue : string) : string :=
  match kv !! name with
  | Some (VString val) => val
  | _ => defaultValue
  end.

Definition getFuncSingle (kv : gmap string OptVal) (name : string)
    (defaultValue : M World unit) : M World unit :=
  match kv !! name with
  | Some (VFunc val) => val
  | _ => defaultValue
  end.

Definition optionUserService : string := "UserService".
Definition optionUserServiceDefault : bool := false.
Definition errNoUserServiceRunCom : error :=
  ErrConst ("user services are not supported on " +:+ sysVersion).

Definition scriptPathPref : string := "/etc/rc.d".

Definition scriptPath (s : openbsdRunComService) : string * option error :=
  if getBool (Option (config s)) optionUserService optionUserServiceDefault
  then ("", Some errNoUserServiceRunCom)
  else (Filepath.Join [scriptPathPref; Name (config s)], None).

Definition optionRunComScript : string := "RunComScript".

Definition runComScript : string :=
  str_concat
    [ "#!/bin/sh"; nl;
      "#"; nl;
      "# $OpenBSD: {{ .SvcInfo }}"; nl;
      nl;
      "daemon="; dq; "{{.Path}}"; dq; nl;
      "daemon_flags={{ .Arguments | args }}"; nl;
      nl;
      ". /etc/rc.d/rc.subr"; nl;
      nl;
      "rc_bg=YES"; nl;
      nl;
      "rc_cmd $1"; nl ].

(** The template function [args]. *)
Definition args (sl : list string) : string :=
  dq +:+ Strings.Join sl " " +:+ dq.

(** [annotate]: the common error format. *)
Definition annotate (s : openbsdRunComService) (action : string) (err : option error)
    : option error :=
  Errors.Annotate err
    (action +:+ " " +:+ sysVersion +:+ " " +:+ Name (config s) +:+ " service: ").

(** [defer func() { err = s.annotate(action, err) }()] around a body: the
    error the body returns is annotated; a panic passes through. *)
Definition deferAnnotate (s : openbsdRunComService) (action : string)
    (body : M World (option error)) : M World (option error) :=
  let! err := body in ret (annotate s action err).

Definition optionRunWait : string := "RunWait".

(** A call of a callback of the daemon, or of the wait function. *)
Definition call {A} (cb : Callback) (f : M World A) : M World A :=
  fun w => f (logEvent (EvCall cb) w).

Section Service.

Variable env : Env.

(** [template]: the script text of the option bag, or the built-in one,
    parsed with the function [args]. *)
Definition template (s : openbsdRunComService) : TemplateData -> Rendered :=
  Template.render env args
    (getString (Option (config s)) optionRunComScript runComScript).

Definition execPath (s : openbsdRunComService) : string * option error :=
  if negb (Nat.eqb (String.length (Executable (config s))) 0)
  then Filepath.Abs (envGetwd env) (Executable (config s))
  else match envExecutable env with
       | (_, Some err) => ("", Some err)
       | (path, None) => Filepath.Abs (envGetwd env) path
       end.

Definition pref : string := "pkg_scripts=".

(** The scanning loop of [modifyRCConfLocal]: it leaves the index of the
    prefix in the last line that is not blank, and that line. *)
Fixpoint scanLines (fuel : nat) (prefIdx : Z) (ln : string) (scn : Bufio.Scanner)
    : M File (Z * string * Bufio.Scanner) :=
  match fuel with
  | O => fun file => Hang file
  | S fuel' =>
      let! (more, scn) := Bufio.Scan scn in
      if negb more then ret (prefIdx, ln, scn)
      else
        let ln := Strings.TrimSpace (Bufio.Text scn) in
        if String.eqb ln "" then scanLines fuel' prefIdx ln scn
        else
          let prefIdx := Strings.Index ln pref in
          if (prefIdx =? 0)%Z then ret (prefIdx, ln, scn)
          else scanLines fuel' prefIdx ln scn
  end.

(** [modifyRCConfLocal] checks the rc.conf.local and modifies it if
    needed. *)
Definition modifyRCConfLocal (s : openbsdRunComService) : M File (option error) :=
  fun file =>
  let finish (b : string) : M File (option error) :=
    fun file =>
      let b := Stringutil.WriteToBuilder b [Name (config s); nl] in
      let '(err, file) := Os.WriteString b file in
      Done err file in
  (let! (prefIdx, ln, scn) :=
      scanLines (String.length (fdata file) + 2) (-2) "" Bufio.NewScanner in
   match Bufio.Err scn with
   | Some err => ret (Some err)
   | None =>
       let b := "" in
       if (prefIdx =? -2)%Z then
         finish (Stringutil.WriteToBuilder b [pref])
       else if (prefIdx =? 0)%Z then
         let svcs := Strings.Split (str_drop (String.length pref) ln) " " in
         if Stringutil.InSlice svcs (Name (config s)) then ret None
         else
           let b := if Nat.ltb 0 (length svcs) && negb (String.eqb (hd "" svcs) "")
                    then Stringutil.WriteToBuilder b [" "] else b in
           fun file =>
             match Os.SeekCur (-1) file with
             | (Some err, file) => Done (Some err) file
             | (None, file) => finish b file
             end
       else
         finish (Stringutil.WriteToBuilder b [nl; pref])
   end) file.

Definition rcConfLocal : string := "/etc/rc.conf.local".

(** [configureSysStartup] adds s into the group of packages started with
    system. *)
Definition configureSysStartup (s : openbsdRunComService) : M World (option error) :=
  let filename := rcConfLocal in
  let! (file, err) := Os.OpenFile env filename 420 in
  match file, err with
  | _, Some err => ret (Some err)
  | None, None => ret None
  | Some file, None =>
      match Os.FileStat file with
      | (_, Some err) =>
          let! cerr := Os.Close file in ret (Errors.WithDeferred (Some err) cerr)
      | (info, None) =>
          if infoIsDir info then
            let! cerr := Os.Close file in
            ret (Errors.WithDeferred
                   (Some (ErrFmt ("expected " +:+ infoName info +:+
                                  " to be a file but it's a directory"))) cerr)
          else
            let! (err, file) := Os.onFile file (modifyRCConfLocal s) in
            let! cerr := Os.Close file in
            ret (Errors.WithDeferred err cerr)
      end
  end.

(** [writeScript] tries to write the script for the service. *)
Definition writeScript (s : openbsdRunComService) : M World (option error) :=
  match scriptPath s with
  | (_, Some err) => ret (Some err)
  | (scriptPath, None) =>
      let! err := Os.Stat env scriptPath in
      if negb (Errors.Is err Os.ErrNotExist)
      then ret (Some (ErrFmt ("script already exists at " +:+ scriptPath)))
      else
        match execPath s with
        | (_, Some err) => ret (Some err)
        | (execPath, None) =>
            let data := {| tdConfig := config s; tdPath := execPath;
                           tdSvcInfo := getString (Option (config s)) "SvcInfo" (String_ s) |} in
            match template s data with
            | ParseFails msg => fun w => Panic msg w
            | Executes written xerr =>
                let! (f, err) := Os.Create env scriptPath in
                match f, err with
                | _, Some err => ret (Some (ErrWrap "creating rc.d script file: " err))
                | None, None => ret None
                | Some f, None =>
                    let! (_, f) := Os.onFile f (fun f => Done tt (snd (Os.WriteString written f))) in
                    match xerr with
                    | Some err => let! _ := Os.Close f in ret (Some err)
                    | None =>
                        let! cherr := Os.Chmod env scriptPath 493 in
                        let! _ := Os.Close f in
                        ret (Errors.Annotate cherr "changing rc.d script file permissions: ")
                    end
                end
            end
        end
  end.

(** [Install] implements service.Service interface. *)
Definition Install (s : openbsdRunComService) : M World (option error) :=
  deferAnnotate s "installing"
    (let! err := writeScript s in
     match err with
     | Some err => ret (Some err)
     | None => configureSysStartup s
     end).

Definition Uninstall (s : openbsdRunComService) : M World (option error) :=
  deferAnnotate s "uninstalling"
    match scriptPath s with
    | (_, Some err) => ret (Some err)
    | (scriptPath, None) =>
        let! err := Os.Remove env scriptPath in
        ret (Errors.Annotate err "removing rc.d script: ")
    end.

(** [aghos.RunCommand]: the exit code, the output and the error of
    running a command, which the environment decides. *)
Definition RunCommand (command : string) (arguments : list string)
    : M World (Z * string * option error) :=
  fun w => Done (envRunCommand env command arguments (trace w))
                (logEvent (EvRunCommand command arguments) w).

(** [runWait] is the default function to wait for service to be
    stopped: it returns when a termination signal arrives. *)
Definition runWait : M World unit :=
  fun w =>
    if envSignalArrives env (trace w)
    then Done tt (logEvent EvSignalWait w)
    else Hang (logEvent EvSignalWait w).

(** [Run] implements service.Service interface. *)
Definition Run (s : openbsdRunComService) : M World (option error) :=
  let! err := call CbStart (iStart (i s)) in
  match err with
  | Some err => ret (Some err)
  | None =>
      let! _ := call CbWait (getFuncSingle (Option (config s)) optionRunWait runWait) in
      call CbStop (iStop (i s))
  end.

(** [runCom] calls the script with the specified cmd. *)
Definition runCom (s : openbsdRunComService) (cmd : string) : M World (string * option error) :=
  match scriptPath s with
  | (_, Some err) => ret ("", Some err)
  | (scriptPath, None) =>
      let! (_, out, err) := RunCommand scriptPath [cmd] in
      ret (out, err)
  end.

Inductive Status_ := StatusUnknown | StatusRunning | StatusStopped.

Definition ErrNotInstalled : error := ErrSentinel SnNotInstalled.

(** [Status] implements service.Service interface. *)
Definition Status (s : openbsdRunComService) : M World (Status_ * option error) :=
  let! (status, err) :=
    (let! (out, err) := runCom s "check" in
     match err with
     | Some err => ret (StatusUnknown, Some err)
     | None =>
         let name := Name (config s) in
         if String.eqb out (name +:+ "(ok)" +:+ nl) then ret (StatusRunning, None)
         else if String.eqb out (name +:+ "(failed)" +:+ nl) then ret (StatusStopped, None)
         else ret (StatusUnknown, Some ErrNotInstalled)
     end) in
  ret (status, annotate s "getting status of" err).

Definition Start (s : openbsdRunComService) : M World (option error) :=
  let! (_, err) := runCom s "start" in
  ret (annotate s "starting" err).

Definition Stop (s : openbsdRunComService) : M World (option error) :=
  let! (_, err) := runCom s "stop" in
  ret (annotate s "stopping" err).

Definition Restart (s : openbsdRunComService) : M World (option error) :=
  let! err := Stop s in
  match err with
  | Some err => ret (Some err)
  | None => Start s
  end.

End Service.

(** ** What the properties speak of *)

(** The startup-configuration file opened for editing: at offset zero. *)
Definition rcFile (data : string) : File :=
  {| fname := rcConfLocal; fdata := data; foff := 0 |}.

(** The startup list a file holds: the names of the line that the scan of
    [modifyRCConfLocal] recognises, cut as the source cuts them; [None]
    when the scan recognises no line. *)
Definition pkgScripts (data : string) : option (list string) :=
  match scanLines (String.length data + 2) (-2) "" Bufio.NewScanner (rcFile data) with
  | Done (prefIdx, ln, _) _ =>
      if (prefIdx =? 0)%Z
      then Some (Strings.Split (str_drop (String.length pref) ln) " ")
      else None
  | _ => None
  end.

(** The contents of the file after an outcome of the editing. *)
Definition dataOf {A} (r : Res File A) : string := fdata (stateOf r).

(** A service that has only a name, and one with an option bag. *)
Definition noCallbacks : Interface := {| iStart := ret None; iStop := ret None |}.

Definition serviceWith (name : string) (arguments : list string)
    (opts : gmap string OptVal) : openbsdRunComService :=
  {| i := noCallbacks;
     config := {| Name := name; DisplayName := ""; Executable := "";
                  Arguments := arguments; Option := opts |} |}.

Definition serviceNamed (name : string) : openbsdRunComService :=
  serviceWith name [] ∅.

(** An environment in which no system call fails, the executable is
    [/usr/local/bin/AdGuardHome], the rc.d script prints what [check]
    prints for a running daemon, and a termination signal arrives. *)
Definition quietEnv : Env :=
  {| envFault := fun _ _ => None;
     envUmask := 18;
     envExecutable := ("/usr/local/bin/AdGuardHome", None);
     envGetwd := ("/root", None);
     envRunCommand := fun command arguments _ => (0%Z, "AdGuardHome(ok)" +:+ nl, None);
     envSignalArrives := fun _ => true;
     envTemplate := fun _ _ => ParseFails "template: unexpected action" |}.

(** The same, but the rc.d script cannot be run. *)
Definition brokenScriptEnv : Env :=
  {| envFault := fun _ _ => None;
     envUmask := 18;
     envExecutable := ("/usr/local/bin/AdGuardHome", None);
     envGetwd := ("/root", None);
     envRunCommand := fun command arguments _ => (1%Z, "", Some (ErrFmt "exit status 1"));
     envSignalArrives := fun _ => true;
     envTemplate := fun _ _ => ParseFails "template: unexpected action" |}.

(** The same as [quietEnv], but the directory of the scripts cannot be
    searched. *)
Definition deniedEnv : Env :=
  {| envFault := fun call _ => match call with SysStat => Some EACCES | _ => None end;
     envUmask := 18;
     envExecutable := ("/usr/local/bin/AdGuardHome", None);
     envGetwd := ("/root", None);
     envRunCommand := fun command arguments _ => (0%Z, "AdGuardHome(ok)" +:+ nl, None);
     envSignalArrives := fun _ => true;
     envTemplate := fun _ _ => ParseFails "template: unexpected action" |}.

Definition emptyWorld : World := {| fs := ∅; trace := [] |}.

(** A world in which the script of [AdGuardHome] is installed. *)
Definition installedWorld : World :=
  {| fs := {[ "/etc/rc.d/AdGuardHome" := NFile "#!/bin/sh" 493 ]}; trace := [] |}.

(** Reading a value of [daemon_flags] as the shell does: one quoted word
    that is taken as it is written is an opening quote, a body, and the
    closing quote as last character.  Between double quotes the shell
    keeps four characters special: the double quote ends the word, a
    backslash takes the next character with it, and a dollar sign or a
    backquote that no backslash precedes starts an expansion or a command
    substitution, after which the value is not the text that was written.
    Between single quotes nothing is special. *)
Fixpoint dqBody (s : string) : bool :=
  match s with
  | EmptyString => false
  | String c s' =>
      if Nat.eqb (nat_of_ascii c) 34 then String.eqb s' ""
      else if Nat.eqb (nat_of_ascii c) 92 then
        match s' with
        | EmptyString => false
        | String _ s'' => dqBody s''
        end
      else if Nat.eqb (nat_of_ascii c) 36 || Nat.eqb (nat_of_ascii c) 96 then false
      else dqBody s'
  end.

Fixpoint sqBody (s : string) : bool :=
  match s with
  | EmptyString => false
  | String c s' =>
      if Nat.eqb (nat_of_ascii c) 39 then String.eqb s' "" else sqBody s'
  end.

Definition oneQuotedToken (value : string) : bool :=
  match value with
  | EmptyString => false
  | String c body =>
      if Nat.eqb (nat_of_ascii c) 34 then dqBody body
      else if Nat.eqb (nat_of_ascii c) 39 then sqBody body
      else false
  end.


(** The characters of a string satisfy a test. *)
Fixpoint allChars (test : ascii -> bool) (s : string) : bool :=
  match s with
  | EmptyString => true
  | String c s' => test c && allChars test s'
  end.



(** Argument lists with a backquote and a dollar sign in them. *)
Definition backquoteArguments : list string := ["-c"; "a`b"].

Definition dollarArguments : list string := ["-c"; "$(reboot)"].

(** The value that a rendered script assigns to [daemon_flags]. *)
Fixpoint assigned (var : string) (lines : list string) : option string :=
  match lines with
  | [] => None
  | ln :: lines' =>
      if String.prefix var ln then Some (str_drop (String.length var) ln)
      else assigned var lines'
  end.

Definition daemonFlags (script : string) : option string :=
  assigned "daemon_flags=" (Strings.Split script nl).

(** The data [writeScript] executes the template on, for a service and
    the path of its executable. *)
Definition scriptData (s : openbsdRunComService) (path : string) : TemplateData :=
  {| tdConfig := config s; tdPath := path;
     tdSvcInfo := getString (Option (config s)) "SvcInfo" (String_ s) |}.

Definition scriptText (r : Rendered) : string :=
  match r with
  | Executes written _ => written
  | ParseFails _ => ""
  end.

(** The calls of callbacks in a trace, and the commands run. *)
Fixpoint callsIn (tr : list Event) : list Callback :=
  match tr with
  | [] => []
  | EvCall cb :: tr' => cb :: callsIn tr'
  | _ :: tr' => callsIn tr'
  end.

Fixpoint commandsIn (tr : list Event) : list (list string) :=
  match tr with
  | [] => []
  | EvRunCommand _ arguments :: tr' => arguments :: commandsIn tr'
  | _ :: tr' => commandsIn tr'
  end.

(** A daemon that cannot start. *)
Definition failingStart : Interface :=
  {| iStart := ret (Some (ErrFmt "listen: address already in use"));
     iStop := ret None |}.

(** A name that is one element of a path: not empty, not [.] or [..],
    and without a slash. *)
Definition notSlash (c : ascii) : bool := negb (Nat.eqb (nat_of_ascii c) 47).

Definition plainName (name : string) : bool :=
  allChars notSlash name &&
  negb (String.eqb name "") && negb (String.eqb name ".") && negb (String.eqb name "..").

(** The value of [UserService] in an option bag is absent, false, or not
    a boolean. *)
Definition notUserService (kv : gmap string OptVal) : Prop :=
  kv !! optionUserService = None \/
  kv !! optionUserService = Some (VBool false) \/
  exists v, kv !! optionUserService = Some v /\ forall b, v <> VBool b.

(** Code that leaves the record of the calls of callbacks as it found
    it. *)
Definition keepsCalls {A} (f : M World A) : Prop :=
  forall w, callsIn (trace (stateOf (f w))) = callsIn (trace w).

(** A service whose wait function is supplied in the option bag. *)
Definition serviceWaiting (daemon : Interface) (wait : M World unit) : openbsdRunComService :=
  {| i := daemon;
     config := {| Name := "AdGuardHome"; DisplayName := ""; Executable := "";
                  Arguments := []; Option := {[ optionRunWait := VFunc wait ]} |} |}.

(** The text of the built-in script for an identification string, the
    path of the executable and the rendered argument list. *)
Definition builtinScript (svcInfo path flags : string) : string :=
  ("#!/bin/sh" +:+ nl +:+ "#" +:+ nl +:+ "# $OpenBSD: ") +:+ svcInfo +:+
  (nl +:+ nl +:+ "daemon=" +:+ dq) +:+ path +:+
  (dq +:+ nl +:+ "daemon_flags=") +:+ flags +:+
  (nl +:+ nl +:+ ". /etc/rc.d/rc.subr" +:+ nl +:+ nl +:+ "rc_bg=YES" +:+ nl +:+ nl +:+
   "rc_cmd $1" +:+ nl).


(** Startup-configuration files in which the line of the startup list is
    followed by another line. *)
Definition listThenFlags : string :=
  "pkg_scripts=a" +:+ nl +:+ "ntpd_flags=-s" +:+ nl.

Definition twoNamesThenFlags : string :=
  "pkg_scripts=a b" +:+ nl +:+ "ntpd_flags=-s" +:+ nl.

(** The error of [Install] when the script is already there. *)
Definition collision (s : openbsdRunComService) (p : string) : option error :=
  annotate s "installing" (Some (ErrFmt ("script already exists at " +:+ p))).

(** A startup-configuration file longer than the buffer of the scanner:
    the line of the startup list, then a comment of 5000 characters. *)
Definition listThenLongComment : string :=
  "pkg_scripts=a" +:+ nl +:+ str_repeat "#"%char 5000 +:+ nl.

(** The bytes of an open file past its offset, and a scanner whose
    pending bytes fit its buffer. *)
Definition remaining (f : File) : nat := String.length (fdata f) - foff f.

Definition bufOk (s : Bufio.Scanner) : Prop := Bufio.bufEnd s <= Bufio.bufLen s.

(** A word: a name made of visible ASCII characters, at least one. *)
Definition wordChar (c : ascii) : bool :=
  Nat.leb 33 (nat_of_ascii c) && Nat.ltb (nat_of_ascii c) 127.

Definition isWord (w : string) : bool :=
  allChars wordChar w && negb (String.eqb w "").

(** A startup-configuration file that is the line of the startup list
    alone, ended by a line feed. *)
Definition soleLine (names : list string) : string :=
  pref +:+ Strings.Join names " " +:+ nl.

(** A character of a line: visible ASCII or a space. *)
Definition lineChar (c : ascii) : bool :=
  Nat.leb 32 (nat_of_ascii c) && Nat.ltb (nat_of_ascii c) 127.

(** The scanner after its first buffer was allocated. *)
Definition firstBuffer : Bufio.Scanner :=
  Bufio.withBuf Bufio.NewScanner Bufio.startBufSize 0 "".

(** What holds of a scanner and the file it reads while no line was too
    long: the pending bytes fit the buffer, the only error met is the end
    of the file, that error means that nothing of the file is unread, and
    the offset is within the file. *)
Definition scanOk (s : Bufio.Scanner) (f : File) : Prop :=
  bufOk s /\
  (Bufio.err s = None \/ Bufio.err s = Some Bufio.EOF) /\
  (Bufio.err s = Some Bufio.EOF -> remaining f = 0) /\
  foff f <= String.length (fdata f).

(** An environment like [quietEnv] but for the system calls that fail. *)
Definition faultyEnv (fault : Syscall -> string -> option Errno) : Env :=
  {| envFault := fault;
     envUmask := envUmask quietEnv;
     envExecutable := envExecutable quietEnv;
     envGetwd := envGetwd quietEnv;
     envRunCommand := envRunCommand quietEnv;
     envSignalArrives := envSignalArrives quietEnv;
     envTemplate := envTemplate quietEnv |}.

(** The startup-configuration file cannot be opened. *)
Definition noRcConfEnv : Env :=
  faultyEnv (fun call _ => match call with SysOpenFile => Some EACCES | _ => None end).

(** Environments like [quietEnv] in which one system call fails. *)
Definition noCreateEnv : Env :=
  faultyEnv (fun call _ => match call with SysCreate => Some EACCES | _ => None end).

Definition noChmodEnv : Env :=
  faultyEnv (fun call _ => match call with SysChmod => Some EPERM | _ => None end).

(** An environment in which the path of the running executable cannot be
    found. *)
Definition noExecutableEnv : Env :=
  {| envFault := fun _ _ => None;
     envUmask := 18;
     envExecutable := ("", Some (ErrPath "readlink" "/proc/curproc/file" (ErrErrno ENOENT)));
     envGetwd := ("/root", None);
     envRunCommand := envRunCommand quietEnv;
     envSignalArrives := fun _ => true;
     envTemplate := envTemplate quietEnv |}.

(** A script text whose second line has an action on a field that the
    data does not have, and an environment in which the execution of
    that text stops there, the first line written. *)
Definition halfScript : string := "#!/bin/sh" +:+ nl +:+ "daemon={{ .Daemon }}" +:+ nl.

Definition noFieldError : error :=
  ErrFmt "template: :2:10: executing  at <.Daemon>: can't evaluate field Daemon".

Definition halfScriptEnv : Env :=
  {| envFault := fun _ _ => None;
     envUmask := 18;
     envExecutable := envExecutable quietEnv;
     envGetwd := envGetwd quietEnv;
     envRunCommand := envRunCommand quietEnv;
     envSignalArrives := fun _ => true;
     envTemplate := fun _ _ => Executes ("#!/bin/sh" +:+ nl +:+ "daemon=") (Some noFieldError) |}.

(** An environment like [quietEnv] in which no termination signal ever
    arrives. *)
Definition noSignalEnv : Env :=
  {| envFault := fun _ _ => None;
     envUmask := 18;
     envExecutable := envExecutable quietEnv;
     envGetwd := envGetwd quietEnv;
     envRunCommand := envRunCommand quietEnv;
     envSignalArrives := fun _ => false;
     envTemplate := envTemplate quietEnv |}.

(** An environment in which the rc.d script stops the daemon but cannot
    start it. *)
Definition noStartEnv : Env :=
  {| envFault := fun _ _ => None;
     envUmask := 18;
     envExecutable := envExecutable quietEnv;
     envGetwd := envGetwd quietEnv;
     envRunCommand := fun command arguments _ =>
       if Stringutil.InSlice arguments "start"
       then (1%Z, "AdGuardHome(failed)" +:+ nl, Some (ErrFmt "exit status 1"))
       else (0%Z, "AdGuardHome(ok)" +:+ nl, None);
     envSignalArrives := fun _ => true;
     envTemplate := envTemplate quietEnv |}.

(** The text every error of an action on a service begins with, and an
    error, if any, that carries it. *)
Definition actionPrefix (s : openbsdRunComService) (action : string) : string :=
  action +:+ " " +:+ sysVersion +:+ " " +:+ Name (config s) +:+ " service: ".

Definition namesAction (s : openbsdRunComService) (action : string) (err : option error) : Prop :=
  forall e, err = Some e ->
    exists cause, e = ErrWrap (actionPrefix s action) cause /\
                  Errors.Error e = actionPrefix s action +:+ Errors.Error cause.

(** A service whose executable is given in its configuration. *)
Definition serviceAt (name executable : string) : openbsdRunComService :=
  {| i := noCallbacks;
     config := {| Name := name; DisplayName := ""; Executable := executable;
                  Arguments := []; Option := ∅ |} |}.

(** Not a space. *)
Definition noSpace (c : ascii) : bool := negb (Nat.eqb (nat_of_ascii c) 32).

(** What the editor writes before a new name: a space, unless the list
    has no first element or an empty one. *)
Definition separator (svcs : list string) : string :=
  if Nat.ltb 0 (length svcs) && negb (String.eqb (hd "" svcs) "") then " " else "".

(** ** The editor when a read or the write fails

    The embedding of the editor above takes the reads and the write of
    the open file to succeed.  Here they may fail, as [File.Read] and
    [File.WriteString] may: the environment decides, by the offset of the
    file, whether a read fails and with which error, and whether a write
    fails, with which error and after how many bytes.  The scanner and
    the editor are the same code over these reads and this write; without
    faults they are the scanner and the editor above. *)

Record FileFaults := {
  readFault : nat -> option Errno;
  writeFault : nat -> option (nat * Errno)
}.

Definition noFaults : FileFaults :=
  {| readFault := fun _ => None; writeFault := fun _ => None |}.

Module IO.

(** [File.Read]: a read that fails returns no byte and the error, in a
    [*fs.PathError], and leaves the offset where it is. *)
Definition Read (ft : FileFaults) (n : nat) (f : File) : string * option error * File :=
  match readFault ft (foff f) with
  | Some e => ("", Os.pathError "read" (fname f) e, f)
  | None => Os.Read n f
  end.

(** [File.WriteString]: a write that fails after [n] bytes has written
    the first [n] bytes of the text, and returns the error in a
    [*fs.PathError]; a text of [n] bytes at most is written whole. *)
Definition WriteString (ft : FileFaults) (s : string) (f : File) : option error * File :=
  match writeFault ft (foff f) with
  | Some (n, e) =>
      if Nat.ltb n (String.length s)
      then (Os.pathError "write" (fname f) e, snd (Os.WriteString (str_take n s) f))
      else Os.WriteString s f
  | None => Os.WriteString s f
  end.

(** The loop of [Scanner.Scan]. *)
Fixpoint scanLoop (ft : FileFaults) (fuel : nat) (s : Bufio.Scanner)
    : M File (bool * Bufio.Scanner) :=
  fun f =>
  match fuel with
  | O => Hang f
  | S fuel' =>
      let '(s, found) := Bufio.trySplit s in
      if found then Done (true, s) f
      else if Bufio.hasErr s then Done (false, Bufio.withBuf s (Bufio.bufLen s) 0 "") f
      else
        let s := Bufio.shift s in
        if Bufio.full s && Nat.leb Bufio.MaxScanTokenSize (Bufio.bufLen s)
        then Done (false, Bufio.setErr Bufio.ErrTooLong s) f
        else
          let s := if Bufio.full s then Bufio.grow s else s in
          let '(got, e, f) := Read ft (Bufio.bufLen s - Bufio.bufEnd s) f in
          scanLoop ft fuel' (Bufio.fill s got e) f
  end.

Definition Scan (ft : FileFaults) (s : Bufio.Scanner) : M File (bool * Bufio.Scanner) :=
  fun f => scanLoop ft (String.length (fdata f) - foff f + 3) s f.

(** The scanning loop of [modifyRCConfLocal]. *)
Fixpoint scanLines (ft : FileFaults) (fuel : nat) (prefIdx : Z) (ln : string)
    (scn : Bufio.Scanner) : M File (Z * string * Bufio.Scanner) :=
  match fuel with
  | O => fun file => Hang file
  | S fuel' =>
      let! (more, scn) := Scan ft scn in
      if negb more then ret (prefIdx, ln, scn)
      else
        let ln := Strings.TrimSpace (Bufio.Text scn) in
        if String.eqb ln "" then scanLines ft fuel' prefIdx ln scn
        else
          let prefIdx := Strings.Index ln pref in
          if (prefIdx =? 0)%Z then ret (prefIdx, ln, scn)
          else scanLines ft fuel' prefIdx ln scn
  end.

(** [modifyRCConfLocal]. *)
Definition modifyRCConfLocal (ft : FileFaults) (s : openbsdRunComService)
    : M File (option error) :=
  fun file =>
  let finish (b : string) : M File (option error) :=
    fun file =>
      let b := Stringutil.WriteToBuilder b [Name (config s); nl] in
      let '(err, file) := WriteString ft b file in
      Done err file in
  (let! (prefIdx, ln, scn) :=
      scanLines ft (String.length (fdata file) + 2) (-2) "" Bufio.NewScanner in
   match Bufio.Err scn with
   | Some err => ret (Some err)
   | None =>
       let b := "" in
       if (prefIdx =? -2)%Z then
         finish (Stringutil.WriteToBuilder b [pref])
       else if (prefIdx =? 0)%Z then
         let svcs := Strings.Split (str_drop (String.length pref) ln) " " in
         if Stringutil.InSlice svcs (Name (config s)) then ret None
         else
           let b := if Nat.ltb 0 (length svcs) && negb (String.eqb (hd "" svcs) "")
                    then Stringutil.WriteToBuilder b [" "] else b in
           fun file =>
             match Os.SeekCur (-1) file with
             | (Some err, file) => Done (Some err) file
             | (None, file) => finish b file
             end
       else
         finish (Stringutil.WriteToBuilder b [nl; pref])
   end) file.

(** The lines that the scanner hands out, one call of [Scan] after the
    other until it returns false, and the error of the scanner then:
    [for scn.Scan() { ... scn.Text() ... }] followed by [scn.Err()]. *)
Fixpoint lines (ft : FileFaults) (fuel : nat) (scn : Bufio.Scanner)
    : M File (list string * option error) :=
  match fuel with
  | O => fun file => Hang file
  | S fuel' =>
      let! (more, scn) := Scan ft scn in
      if negb more then ret ([], Bufio.Err scn)
      else
        let! (rest, err) := lines ft fuel' scn in
        ret (Bufio.Text scn :: rest, err)
  end.

End IO.

(** The lines of a startup-configuration file as the scanner hands them
    out, and the error the scanner ends with. *)
Definition fileLines (ft : FileFaults) (data : string) : option (list string * option error) :=
  match IO.lines ft (String.length data + 2) Bufio.NewScanner (rcFile data) with
  | Done r _ => Some r
  | _ => None
  end.

(** A line that is blank, and a line of the startup list, as the editor
    tests them. *)
Definition blankLine (line : string) : bool :=
  String.eqb (Strings.TrimSpace line) "".

Definition listLine (line : string) : bool :=
  (Strings.Index (Strings.TrimSpace line) pref =? 0)%Z.

(** What holds of a scanner and the file it reads: the pending bytes fit
    the buffer, the end of the file was met only with nothing of the file
    left unread, and the offset is within the file. *)
Definition scanInv (s : Bufio.Scanner) (f : File) : Prop :=
  bufOk s /\
  (Bufio.err s = Some Bufio.EOF -> remaining f = 0) /\
  foff f <= String.length (fdata f).

(** A disk with room for [n] more bytes, and a file that cannot be read
    at an offset. *)
Definition fullDisk (n : nat) : FileFaults :=
  {| readFault := fun _ => None; writeFault := fun _ => Some (n, ENOSPC) |}.

Definition badBlock (bad : nat) : FileFaults :=
  {| readFault := fun off => if Nat.eqb off bad then Some EIO else None;
     writeFault := fun _ => None |}.

(** * Properties *)

(** ** The library functions on examples *)

Example TrimSpace_mixed :
  Strings.TrimSpace ("  pkg_scripts=a b " +:+ bytes [9; 194; 160; 13]) = "pkg_scripts=a b".
Proof. vm_compute. reflexivity. Qed.

Example TrimSpace_lone_continuation :
  Strings.TrimSpace (bytes [226; 128; 128; 133]) = bytes [133].
Proof. vm_compute. reflexivity. Qed.

Example Split_two_spaces : Strings.Split "a  b" " " = ["a"; ""; "b"].
Proof. vm_compute. reflexivity. Qed.

Example Split_empty : Strings.Split "" " " = [""].
Proof. reflexivity. Qed.

Example Index_in_comment : Strings.Index "# pkg_scripts=a" "pkg_scripts=" = 2%Z.
Proof. reflexivity. Qed.

Example Index_absent : Strings.Index "ntpd_flags=-s" "pkg_scripts=" = (-1)%Z.
Proof. reflexivity. Qed.

Example Clean_dots : Filepath.Clean "/etc/rc.d/../x//y/./z/" = "/etc/x/y/z".
Proof. vm_compute. reflexivity. Qed.

Example Clean_relative : Filepath.Clean "a/../../b" = "../b".
Proof. vm_compute. reflexivity. Qed.

Example Clean_empty : Filepath.Clean "" = ".".
Proof. vm_compute. reflexivity. Qed.

Example Join_empty_name : Filepath.Join ["/etc/rc.d"; ""] = "/etc/rc.d".
Proof. vm_compute. reflexivity. Qed.

Example Join_climbing_name : Filepath.Join ["/etc/rc.d"; "../rc.conf.local"] = "/etc/rc.conf.local".
Proof. vm_compute. reflexivity. Qed.

Example ScanLines_carriage_return :
  Bufio.ScanLines ("a" +:+ bytes [13; 10] +:+ "b") false = (3, Some "a").
Proof. vm_compute. reflexivity. Qed.

Example ScanLines_needs_more : Bufio.ScanLines "ab" false = (0, None).
Proof. vm_compute. reflexivity. Qed.

Example ScanLines_last_line : Bufio.ScanLines "ab" true = (2, Some "ab").
Proof. vm_compute. reflexivity. Qed.

(** ** Strings *)

Lemma append_cons (c : ascii) (a b : string) :
  String c a +:+ b = String c (a +:+ b).
Proof. reflexivity. Qed.

Lemma append_nil (b : string) : "" +:+ b = b.
Proof. reflexivity. Qed.

Lemma append_empty_r (s : string) : s +:+ "" = s.
Proof.
  induction s as [|c s IH]; [reflexivity |].
  rewrite append_cons, IH. reflexivity.
Qed.

Lemma append_assoc (a b c : string) : (a +:+ b) +:+ c = a +:+ (b +:+ c).
Proof.
  induction a as [|x a IH]; [reflexivity |].
  rewrite !append_cons, IH. reflexivity.
Qed.

Lemma str_drop_empty (n : nat) : str_drop n "" = "".
Proof. destruct n; reflexivity. Qed.

Lemma str_take_empty (n : nat) : str_take n "" = "".
Proof. destruct n; reflexivity. Qed.

Lemma length_append (a b : string) :
  String.length (a +:+ b) = String.length a + String.length b.
Proof.
  induction a as [|x a IH]; [reflexivity |].
  rewrite append_cons. cbn [String.length]. rewrite IH. reflexivity.
Qed.

(** ** The editor of the startup list *)

(** Scanning an empty file: one read that meets the end of the file, no
    line, and the index left at its initial value. *)
Lemma scanLines_empty_file (path : string) :
  scanLines 2 (-2) "" Bufio.NewScanner {| fname := path; fdata := ""; foff := 0 |}
  = Done ((-2)%Z, "",
          {| Bufio.bufLen := 4096; Bufio.start := 0; Bufio.pending := "";
             Bufio.token := ""; Bufio.err := Some Bufio.EOF |})
         {| fname := path; fdata := ""; foff := 0 |}.
Proof. vm_compute. reflexivity. Qed.

Lemma modifyRCConfLocal_empty_file (s : openbsdRunComService) (path : string) :
  modifyRCConfLocal s {| fname := path; fdata := ""; foff := 0 |}
  = Done None {| fname := path; fdata := pref +:+ Name (config s) +:+ nl;
                 foff := String.length (pref +:+ Name (config s) +:+ nl) |}.
Proof.
  unfold modifyRCConfLocal, bind. cbn [fdata String.length Nat.add].
  rewrite scanLines_empty_file. cbn.
  rewrite str_drop_empty. unfold Stringutil.WriteToBuilder, str_concat.
  rewrite !append_nil, !append_empty_r. reflexivity.
Qed.

(** C7.  Registering a service in a startup-configuration file that does
    not exist, or exists and is empty, succeeds and leaves a file that
    holds the prefix, the name and a line feed, and nothing else. *)
Theorem configureSysStartup_bootstrap (env : Env) (s : openbsdRunComService) (w : World) :
  envFault env SysOpenFile rcConfLocal = None ->
  (fs w !! rcConfLocal = None \/ exists mode, fs w !! rcConfLocal = Some (NFile "" mode)) ->
  exists w' mode,
    configureSysStartup env s w = Done None w' /\
    fs w' !! rcConfLocal = Some (NFile ("pkg_scripts=" +:+ Name (config s) +:+ nl) mode) /\
    modifyRCConfLocal s (rcFile "")
      = Done None {| fname := rcConfLocal;
                     fdata := "pkg_scripts=" +:+ Name (config s) +:+ nl;
                     foff := String.length ("pkg_scripts=" +:+ Name (config s) +:+ nl) |}.
Proof.
  intros Hfault Hnode.
  assert (Hedit := modifyRCConfLocal_empty_file s rcConfLocal).
  unfold configureSysStartup, bind, Os.OpenFile, Os.onFile, Os.Close, ret, rcFile.
  cbv zeta. rewrite Hfault. cbn [fs logEvent].
  destruct Hnode as [Habsent | [mode Hempty]].
  - rewrite Habsent. cbn [Os.openAt Os.FileStat infoIsDir fst snd].
    rewrite Hedit. unfold Os.store, setNode. cbn [fs fname fdata].
    rewrite lookup_insert_eq.
    eexists _, _. split; [reflexivity |]. cbn [fs].
    split; [apply lookup_insert_eq | reflexivity].
  - rewrite Hempty. cbn [Os.openAt Os.FileStat infoIsDir fst snd].
    rewrite Hedit. unfold Os.store, setNode, logEvent. cbn [fs fname fdata].
    rewrite Hempty.
    eexists _, _. split; [reflexivity |]. cbn [fs].
    split; [apply lookup_insert_eq | reflexivity].
Qed.

Lemma configureSysStartup_bootstrap_witness :
  exists w' mode,
    configureSysStartup quietEnv (serviceNamed "AdGuardHome") emptyWorld = Done None w' /\
    fs w' !! rcConfLocal = Some (NFile ("pkg_scripts=AdGuardHome" +:+ nl) mode).
Proof.
  destruct (configureSysStartup_bootstrap quietEnv (serviceNamed "AdGuardHome") emptyWorld)
    as (w' & mode & Hrun & Hfile & _).
  - reflexivity.
  - left. reflexivity.
  - exists w', mode. split; [exact Hrun | exact Hfile].
Defined.

(** The scanner reads the file a buffer at a time, so when the scan stops
    at the line of the startup list the offset of the file is where the
    last read ended: the end of a file shorter than the buffer.  The write
    that follows [Seek(-1, 1)] therefore lands on the last byte of the
    file, whichever line that byte belongs to. *)

(** C1.  Where the line of the startup list is followed by another line,
    registering [b] twice does not leave [b] once in the list: each run
    finds [b] missing and appends it to the last line of the file, so the
    second run writes again and the list still holds [a] alone. *)
Theorem modifyRCConfLocal_twice_line_not_last :
  let s := serviceNamed "b" in
  let once := "pkg_scripts=a" +:+ nl +:+ "ntpd_flags=-s b" +:+ nl in
  let twice := "pkg_scripts=a" +:+ nl +:+ "ntpd_flags=-s b b" +:+ nl in
  modifyRCConfLocal s (rcFile listThenFlags)
    = Done None {| fname := rcConfLocal; fdata := once; foff := 30 |} /\
  modifyRCConfLocal s (rcFile once)
    = Done None {| fname := rcConfLocal; fdata := twice; foff := 32 |} /\
  pkgScripts twice = Some ["a"] /\
  count_occ string_dec ["a"] "b" = 0 /\
  twice <> once.
Proof.
  cbv zeta. repeat split; try (vm_compute; reflexivity).
  apply String.eqb_neq. vm_compute. reflexivity.
Qed.

(** C2.  Registering [c] where the list is [a b]: when the line of the
    list is the last of the file and ends in a line feed, the list becomes
    [a b c]; when another line follows, [c] goes to that line and the list
    stays [a b]; when the file does not end in a line feed, the last byte
    of [b] is overwritten and [b] is lost. *)
Theorem modifyRCConfLocal_append_third :
  let s := serviceNamed "c" in
  dataOf (modifyRCConfLocal s (rcFile ("pkg_scripts=a b" +:+ nl)))
    = "pkg_scripts=a b c" +:+ nl /\
  pkgScripts ("pkg_scripts=a b c" +:+ nl) = Some ["a"; "b"; "c"] /\
  modifyRCConfLocal s (rcFile twoNamesThenFlags)
    = Done None {| fname := rcConfLocal;
                   fdata := "pkg_scripts=a b" +:+ nl +:+ "ntpd_flags=-s c" +:+ nl;
                   foff := 32 |} /\
  pkgScripts ("pkg_scripts=a b" +:+ nl +:+ "ntpd_flags=-s c" +:+ nl) = Some ["a"; "b"] /\
  modifyRCConfLocal s (rcFile "pkg_scripts=a b")
    = Done None {| fname := rcConfLocal; fdata := "pkg_scripts=a  c" +:+ nl; foff := 17 |} /\
  pkgScripts ("pkg_scripts=a  c" +:+ nl) = Some ["a"; ""; "c"].
Proof. cbv zeta. repeat split; vm_compute; reflexivity. Qed.

(** The same on a file longer than the buffer of the scanner: the first
    read ends at offset 4096, inside the comment, and the name is written
    there. *)
Example modifyRCConfLocal_long_file :
  let r := modifyRCConfLocal (serviceNamed "b") (rcFile listThenLongComment) in
  foff (stateOf r) = 4098 /\
  str_take 8 (str_drop 4092 (dataOf r)) = "### b" +:+ nl +:+ "##" /\
  pkgScripts (dataOf r) = Some ["a"].
Proof. cbv zeta. repeat split; vm_compute; reflexivity. Qed.

(** Where the name is in the list already, nothing is written. *)
Example modifyRCConfLocal_listed :
  modifyRCConfLocal (serviceNamed "b") (rcFile ("pkg_scripts=a b" +:+ nl +:+ "ntpd_flags=-s" +:+ nl))
  = Done None {| fname := rcConfLocal;
                 fdata := "pkg_scripts=a b" +:+ nl +:+ "ntpd_flags=-s" +:+ nl;
                 foff := 30 |}.
Proof. vm_compute. reflexivity. Qed.

(** A file without the line of the list gets one, after an empty line. *)
Example modifyRCConfLocal_no_list :
  dataOf (modifyRCConfLocal (serviceNamed "b") (rcFile ("ntpd_flags=-s" +:+ nl)))
  = "ntpd_flags=-s" +:+ nl +:+ nl +:+ "pkg_scripts=b" +:+ nl.
Proof. vm_compute. reflexivity. Qed.

(** ** The path of the script *)

Lemma str_rev_onto_append (s acc : string) :
  str_rev_onto s acc = str_rev s +:+ acc.
Proof.
  unfold str_rev. revert acc.
  induction s as [|c s IH]; intros acc; [reflexivity |].
  cbn [str_rev_onto]. rewrite IH, (IH (String c "")), append_assoc. reflexivity.
Qed.

Lemma prefix_nil (s : string) : String.prefix "" s = true.
Proof. destruct s; reflexivity. Qed.

Lemma prefix_slash (c : ascii) (s : string) :
  String.prefix "/" (String c s) = negb (notSlash c).
Proof.
  cbn [String.prefix]. unfold notSlash. rewrite negb_involutive.
  destruct (ascii_dec "/" c) as [<- | Hne].
  - rewrite prefix_nil. reflexivity.
  - symmetry. apply Nat.eqb_neq. intros Heq. apply Hne.
    rewrite <- (ascii_nat_embedding c), Heq. reflexivity.
Qed.

Lemma splitLoop_at_slash (s cur : string) :
  Strings.splitLoop "/" (String "/" s) 0 cur = str_rev cur :: Strings.splitLoop "/" s 0 "".
Proof. cbn [Strings.splitLoop]. rewrite prefix_slash. reflexivity. Qed.

Lemma splitLoop_other (c : ascii) (s cur : string) :
  notSlash c = true ->
  Strings.splitLoop "/" (String c s) 0 cur = Strings.splitLoop "/" s 0 (String c cur).
Proof. intros Hc. cbn [Strings.splitLoop]. rewrite prefix_slash, Hc. reflexivity. Qed.

Lemma splitLoop_one_element (s cur : string) :
  allChars notSlash s = true ->
  Strings.splitLoop "/" s 0 cur = [str_rev cur +:+ s].
Proof.
  revert cur. induction s as [|c s IH]; intros cur Hs.
  - cbn [Strings.splitLoop]. now rewrite append_empty_r.
  - cbn [allChars] in Hs. apply andb_prop in Hs as [Hc Hs].
    rewrite (splitLoop_other _ _ _ Hc), (IH _ Hs). unfold str_rev. cbn [str_rev_onto].
    rewrite (str_rev_onto_append cur (String c "")), append_assoc. reflexivity.
Qed.

Lemma cleanStep_element (rooted : bool) (stack : list string) (name : string) :
  (name =? "")%string = false -> (name =? ".")%string = false ->
  (name =? "..")%string = false ->
  Filepath.cleanStep rooted stack name = name :: stack.
Proof. intros He Hd Hdd. unfold Filepath.cleanStep. rewrite He, Hd, Hdd. reflexivity. Qed.

Lemma Join_script_path (name : string) :
  plainName name = true ->
  Filepath.Join [scriptPathPref; name] = "/etc/rc.d/" +:+ name.
Proof.
  unfold plainName. intros H.
  apply andb_prop in H as [H Hdd]. apply andb_prop in H as [H Hd].
  apply andb_prop in H as [Hs He].
  apply negb_true_iff in Hdd, Hd, He.
  change (Filepath.Join [scriptPathPref; name])
    with (Filepath.Clean (String "/" ("etc/rc.d/" +:+ name))).
  unfold Filepath.Clean.
  change (Filepath.IsAbs (String "/" ("etc/rc.d/" +:+ name)))
    with (String.prefix "/" (String "/" ("etc/rc.d/" +:+ name))).
  rewrite prefix_slash. cbn [notSlash negb].
  change (String "/" ("etc/rc.d/" +:+ name))
    with (String "/" (String "e" (String "t" (String "c" (String "/"
           (String "r" (String "c" (String "." (String "d" (String "/" name)))))))))).
  unfold Strings.Split.
  repeat (rewrite splitLoop_at_slash || rewrite splitLoop_other by reflexivity).
  rewrite (splitLoop_one_element name "" Hs).
  change (str_rev "" +:+ name) with name.
  cbn [fold_left].
  change (Filepath.cleanStep true [] (str_rev "")) with (@nil string).
  change (Filepath.cleanStep true [] (str_rev "cte")) with ["etc"].
  change (Filepath.cleanStep true ["etc"] (str_rev "d.cr")) with ["rc.d"; "etc"].
  rewrite (cleanStep_element _ _ _ He Hd Hdd).
  reflexivity.
Qed.

Lemma scriptPath_user (s : openbsdRunComService) :
  Option (config s) !! optionUserService = Some (VBool true) ->
  scriptPath s = ("", Some errNoUserServiceRunCom).
Proof. intros H. unfold scriptPath, getBool. rewrite H. reflexivity. Qed.

Lemma scriptPath_system (s : openbsdRunComService) :
  notUserService (Option (config s)) ->
  scriptPath s = (Filepath.Join [scriptPathPref; Name (config s)], None).
Proof.
  unfold scriptPath, getBool, optionUserServiceDefault.
  intros [H | [H | (v & H & Hv)]]; rewrite H; try reflexivity.
  destruct v as [[] | | | |]; try reflexivity.
  exfalso. apply (Hv true). reflexivity.
Qed.

Lemma annotate_Is (s : openbsdRunComService) (action : string) (err : error) :
  Errors.IsErr err err = true ->
  Errors.Is (annotate s action (Some err)) err = true.
Proof.
  intros H. unfold annotate, Errors.Annotate, Errors.Is. cbn [Errors.IsErr].
  rewrite H. apply orb_true_r.
Qed.

(** C9.  With [UserService] set to the boolean [true] in the option bag,
    [scriptPath] fails with [errNoUserServiceRunCom], and so do [Install],
    [Uninstall], [Start], [Stop] and [Status], which return that error
    under their annotation and touch nothing.  With [UserService] absent,
    false or not a boolean, [scriptPath] succeeds with [/etc/rc.d] joined
    with the name of the service, which for a name that is one path
    element is [/etc/rc.d/] followed by the name. *)
Theorem scriptPath_user_service (env : Env) (s : openbsdRunComService) (w : World) :
  (Option (config s) !! optionUserService = Some (VBool true) ->
     scriptPath s = ("", Some errNoUserServiceRunCom) /\
     Install env s w = Done (annotate s "installing" (Some errNoUserServiceRunCom)) w /\
     Uninstall env s w = Done (annotate s "uninstalling" (Some errNoUserServiceRunCom)) w /\
     Start env s w = Done (annotate s "starting" (Some errNoUserServiceRunCom)) w /\
     Stop env s w = Done (annotate s "stopping" (Some errNoUserServiceRunCom)) w /\
     Status env s w
       = Done (StatusUnknown, annotate s "getting status of" (Some errNoUserServiceRunCom)) w /\
     forall action,
       Errors.Is (annotate s action (Some errNoUserServiceRunCom)) errNoUserServiceRunCom = true) /\
  (notUserService (Option (config s)) ->
     scriptPath s = (Filepath.Join ["/etc/rc.d"; Name (config s)], None) /\
     (plainName (Name (config s)) = true ->
      scriptPath s = ("/etc/rc.d/" +:+ Name (config s), None))).
Proof.
  split.
  - intros Huser. pose proof (scriptPath_user s Huser) as Hpath.
    repeat apply conj.
    + exact Hpath.
    + unfold Install, deferAnnotate, writeScript, bind, ret. rewrite Hpath. reflexivity.
    + unfold Uninstall, deferAnnotate, bind, ret. rewrite Hpath. reflexivity.
    + unfold Start, runCom, bind, ret. rewrite Hpath. reflexivity.
    + unfold Stop, runCom, bind, ret. rewrite Hpath. reflexivity.
    + unfold Status, runCom, bind, ret. rewrite Hpath. reflexivity.
    + intros action. apply annotate_Is. reflexivity.
  - intros Hsys. pose proof (scriptPath_system s Hsys) as Hpath. split.
    + exact Hpath.
    + intros Hplain. rewrite Hpath, (Join_script_path _ Hplain). reflexivity.
Qed.

Lemma scriptPath_user_service_witness :
  Install quietEnv (serviceWith "AdGuardHome" [] {[ "UserService" := VBool true ]}) emptyWorld
    = Done (Some (ErrWrap "installing openbsd-runcom AdGuardHome service: "
                    (ErrConst "user services are not supported on openbsd-runcom")))
           emptyWorld /\
  scriptPath (serviceWith "AdGuardHome" [] {[ "UserService" := VString "yes" ]})
    = ("/etc/rc.d/AdGuardHome", None).
Proof.
  split.
  - apply (scriptPath_user_service quietEnv
             (serviceWith "AdGuardHome" [] {[ "UserService" := VBool true ]}) emptyWorld).
    reflexivity.
  - apply (scriptPath_user_service quietEnv
             (serviceWith "AdGuardHome" [] {[ "UserService" := VString "yes" ]}) emptyWorld).
    + right. right. exists (VString "yes"). split; [reflexivity | discriminate].
    + reflexivity.
Defined.

(** ** Status, restart and run *)

Lemma append_inv_head (a b c : string) : a +:+ b = a +:+ c -> b = c.
Proof.
  induction a as [|x a IH]; intros H; [exact H |].
  rewrite !append_cons in H. injection H as H. exact (IH H).
Qed.

Lemma ok_is_not_failed (name : string) :
  (name +:+ "(failed)" +:+ nl =? name +:+ "(ok)" +:+ nl)%string = false.
Proof.
  apply String.eqb_neq. intros H. apply append_inv_head in H. discriminate H.
Qed.

Lemma empty_is_not_pattern (name mid tail : string) (c : ascii) :
  ("" =? name +:+ String c mid +:+ tail)%string = false.
Proof.
  apply String.eqb_neq. destruct name.
  - rewrite append_nil, append_cons. discriminate.
  - rewrite append_cons. discriminate.
Qed.

(** C4.  [Status] runs the script with [check] and reads its output: the
    name followed by [(ok)] and a line feed is a running service, the name
    followed by [(failed)] and a line feed a stopped one, both without
    error; any other output, the empty one included, is an unknown status
    with [service.ErrNotInstalled]; and when the script cannot be run the
    status is unknown with the error of the invocation.  The errors are
    returned under the annotation of [Status]. *)
Theorem Status_translates (env : Env) (s : openbsdRunComService) (w : World)
    (p out : string) (code : Z) (err : option error) :
  scriptPath s = (p, None) ->
  envRunCommand env p ["check"] (trace w) = (code, out, err) ->
  let w' := logEvent (EvRunCommand p ["check"]) w in
  let name := Name (config s) in
  (err = None -> out = name +:+ "(ok)" +:+ nl ->
     Status env s w = Done (StatusRunning, None) w') /\
  (err = None -> out = name +:+ "(failed)" +:+ nl ->
     Status env s w = Done (StatusStopped, None) w') /\
  (err = None -> out <> name +:+ "(ok)" +:+ nl -> out <> name +:+ "(failed)" +:+ nl ->
     Status env s w
       = Done (StatusUnknown, annotate s "getting status of" (Some ErrNotInstalled)) w') /\
  (err = None -> out = "" ->
     Status env s w
       = Done (StatusUnknown, annotate s "getting status of" (Some ErrNotInstalled)) w') /\
  (forall e, err = Some e ->
     Status env s w = Done (StatusUnknown, annotate s "getting status of" (Some e)) w') /\
  Errors.Is (annotate s "getting status of" (Some ErrNotInstalled)) ErrNotInstalled = true.
Proof.
  intros Hpath Hrun w' name.
  assert (Hstatus : Status env s w =
    match err with
    | Some e => Done (StatusUnknown, annotate s "getting status of" (Some e)) w'
    | None =>
        if (out =? name +:+ "(ok)" +:+ nl)%string then Done (StatusRunning, None) w'
        else if (out =? name +:+ "(failed)" +:+ nl)%string then Done (StatusStopped, None) w'
        else Done (StatusUnknown, annotate s "getting status of" (Some ErrNotInstalled)) w'
    end).
  { unfold Status, runCom, RunCommand, bind, ret. rewrite Hpath, Hrun.
    destruct err as [e |]; [reflexivity |].
    fold name. destruct (out =? name +:+ "(ok)" +:+ nl)%string; [reflexivity |].
    destruct (out =? name +:+ "(failed)" +:+ nl)%string; reflexivity. }
  rewrite Hstatus. repeat apply conj.
  - intros -> ->. rewrite String.eqb_refl. reflexivity.
  - intros -> ->. rewrite ok_is_not_failed, String.eqb_refl. reflexivity.
  - intros -> Hok Hfailed.
    apply String.eqb_neq in Hok, Hfailed. rewrite Hok, Hfailed. reflexivity.
  - intros -> ->. rewrite !empty_is_not_pattern. reflexivity.
  - intros e ->. reflexivity.
  - apply annotate_Is. reflexivity.
Qed.

Lemma Status_translates_witness :
  Status quietEnv (serviceNamed "AdGuardHome") emptyWorld
    = Done (StatusRunning, None)
           (logEvent (EvRunCommand "/etc/rc.d/AdGuardHome" ["check"]) emptyWorld) /\
  Status brokenScriptEnv (serviceNamed "AdGuardHome") emptyWorld
    = Done (StatusUnknown,
            Some (ErrWrap "getting status of openbsd-runcom AdGuardHome service: "
                    (ErrFmt "exit status 1")))
           (logEvent (EvRunCommand "/etc/rc.d/AdGuardHome" ["check"]) emptyWorld).
Proof.
  split.
  - apply (Status_translates quietEnv (serviceNamed "AdGuardHome") emptyWorld
             "/etc/rc.d/AdGuardHome" ("AdGuardHome(ok)" +:+ nl) 0 None);
      reflexivity.
  - apply (Status_translates brokenScriptEnv (serviceNamed "AdGuardHome") emptyWorld
             "/etc/rc.d/AdGuardHome" "" 1 (Some (ErrFmt "exit status 1")));
      reflexivity.
Defined.

(** [Stop] always returns: the error of [runCom] under its annotation,
    after at most the one command [stop]. *)
Lemma Stop_returns (env : Env) (s : openbsdRunComService) (w : World) :
  exists err w',
    Stop env s w = Done err w' /\
    (w' = w \/ exists p, w' = logEvent (EvRunCommand p ["stop"]) w).
Proof.
  unfold Stop, runCom, RunCommand, bind, ret.
  destruct (scriptPath s) as [p [e |]].
  - eexists _, _. split; [reflexivity | left; reflexivity].
  - destruct (envRunCommand env p ["stop"] (trace w)) as [[code out] err].
    eexists _, _. split; [reflexivity | right; exists p; reflexivity].
Qed.

(** C5.  [Restart] stops, then starts.  When [Stop] fails, [Restart]
    returns the error of [Stop] as it is and leaves the world as [Stop]
    left it, in which no command but [stop] was run: [Start] is not
    invoked.  When [Stop] succeeds, [Restart] is [Start] from there. *)
Theorem Restart_short_circuit (env : Env) (s : openbsdRunComService) (w : World) :
  (exists err w', Stop env s w = Done err w') /\
  (forall e w', Stop env s w = Done (Some e) w' ->
     Restart env s w = Done (Some e) w' /\
     (commandsIn (trace w') = commandsIn (trace w) \/
      commandsIn (trace w') = (commandsIn (trace w) ++ [["stop"]])%list)) /\
  (forall w', Stop env s w = Done None w' ->
     Restart env s w = Start env s w').
Proof.
  destruct (Stop_returns env s w) as (err & w1 & Hstop & Hw1).
  repeat apply conj.
  - exists err, w1. exact Hstop.
  - intros e w' H. rewrite Hstop in H. injection H as -> ->. split.
    + unfold Restart, bind, ret. rewrite Hstop. reflexivity.
    + destruct Hw1 as [-> | [p ->]]; [left; reflexivity | right].
      cbn [logEvent trace]. generalize (trace w). intros tr.
      induction tr as [|ev tr IH]; [reflexivity |].
      destruct ev; cbn [commandsIn app]; rewrite ?IH; reflexivity.
  - intros w' H. unfold Restart, bind. rewrite H. reflexivity.
Qed.

Lemma Restart_short_circuit_witness :
  Restart brokenScriptEnv (serviceNamed "AdGuardHome") emptyWorld
    = Done (Some (ErrWrap "stopping openbsd-runcom AdGuardHome service: "
                    (ErrFmt "exit status 1")))
           (logEvent (EvRunCommand "/etc/rc.d/AdGuardHome" ["stop"]) emptyWorld).
Proof.
  apply (Restart_short_circuit brokenScriptEnv (serviceNamed "AdGuardHome") emptyWorld).
  reflexivity.
Defined.

Lemma callsIn_app (tr tr' : list Event) :
  callsIn (tr ++ tr') = (callsIn tr ++ callsIn tr')%list.
Proof.
  induction tr as [|ev tr IH]; [reflexivity |].
  destruct ev; cbn [callsIn app]; rewrite ?IH; reflexivity.
Qed.

Lemma callsIn_call {A} (cb : Callback) (f : M World A) (w : World) :
  keepsCalls f ->
  callsIn (trace (stateOf (call cb f w))) = (callsIn (trace w) ++ [cb])%list.
Proof.
  intros Hf. unfold call. rewrite Hf. cbn [logEvent trace].
  rewrite callsIn_app. reflexivity.
Qed.

(** C6.  [Run] with a wait function supplied in the option bag.  When the
    start callback fails, [Run] returns its error from the state the
    callback left: neither the wait function nor the stop callback is
    called.  When it succeeds the wait function is called; as long as that
    does not return, [Run] does not return and the stop callback is not
    called; once it returns, the stop callback is called and its outcome
    is the outcome of [Run].  For callbacks that leave the record of calls
    alone, the calls made are then: start alone; start and wait; or start,
    wait and stop, each once and in that order. *)
Theorem Run_sequence (env : Env) (s : openbsdRunComService) (wait : M World unit) (w : World) :
  Option (config s) !! optionRunWait = Some (VFunc wait) ->
  let started := iStart (i s) (logEvent (EvCall CbStart) w) in
  (forall e w1, started = Done (Some e) w1 ->
     Run env s w = Done (Some e) w1) /\
  (forall w1 w2, started = Done None w1 ->
     wait (logEvent (EvCall CbWait) w1) = Hang w2 ->
     Run env s w = Hang w2) /\
  (forall w1 w2, started = Done None w1 ->
     wait (logEvent (EvCall CbWait) w1) = Done tt w2 ->
     Run env s w = iStop (i s) (logEvent (EvCall CbStop) w2)) /\
  (keepsCalls (iStart (i s)) -> keepsCalls wait -> keepsCalls (iStop (i s)) ->
   callsIn (trace (stateOf (Run env s w)))
   = (callsIn (trace w) ++
      match started with
      | Done None w1 =>
          match wait (logEvent (EvCall CbWait) w1) with
          | Done _ _ => [CbStart; CbWait; CbStop]
          | _ => [CbStart; CbWait]
          end
      | _ => [CbStart]
      end)%list).
Proof.
  intros Hopt started.
  assert (Hwait : getFuncSingle (Option (config s)) optionRunWait (runWait env) = wait).
  { unfold getFuncSingle. rewrite Hopt. reflexivity. }
  unfold Run, bind, ret. rewrite Hwait.
  change (call CbStart (iStart (i s)) w) with started.
  repeat apply conj.
  - intros e w1 ->. reflexivity.
  - intros w1 w2 -> Hhang. unfold call. rewrite Hhang. reflexivity.
  - intros w1 w2 -> Hdone. unfold call. rewrite Hdone. reflexivity.
  - intros Hstart Hw Hstop.
    assert (Hs : callsIn (trace (stateOf started)) = (callsIn (trace w) ++ [CbStart])%list).
    { apply (callsIn_call CbStart (iStart (i s)) w Hstart). }
    destruct started as [[e |] w1 | msg w1 | w1]; cbn [stateOf] in Hs; try exact Hs.
    pose proof (callsIn_call CbWait wait w1 Hw) as Hwt.
    pose proof (callsIn_call CbStop (iStop (i s))) as Hst.
    unfold call in Hwt, Hst |- *.
    destruct (wait (logEvent (EvCall CbWait) w1)) as [[] w2 | msg w2 | w2];
      cbn [stateOf] in Hwt |- *.
    + rewrite (Hst w2 Hstop), Hwt, Hs, <- !app_assoc. reflexivity.
    + rewrite Hwt, Hs, <- app_assoc. reflexivity.
    + rewrite Hwt, Hs, <- app_assoc. reflexivity.
Qed.

Lemma Run_sequence_witness :
  Run quietEnv (serviceWaiting failingStart (ret tt)) emptyWorld
    = Done (Some (ErrFmt "listen: address already in use"))
           (logEvent (EvCall CbStart) emptyWorld) /\
  callsIn (trace (stateOf (Run quietEnv (serviceWaiting noCallbacks (ret tt)) emptyWorld)))
    = [CbStart; CbWait; CbStop].
Proof.
  split.
  - apply (Run_sequence quietEnv (serviceWaiting failingStart (ret tt)) (ret tt) emptyWorld).
    + reflexivity.
    + reflexivity.
  - apply (Run_sequence quietEnv (serviceWaiting noCallbacks (ret tt)) (ret tt) emptyWorld).
    + reflexivity.
    + intros w. reflexivity.
    + intros w. reflexivity.
    + intros w. reflexivity.
Defined.

(** ** Installing *)

(** [os.Stat] always returns, having recorded the call and nothing
    else. *)
Lemma Stat_returns (env : Env) (p : string) (w : World) :
  exists err, Os.Stat env p w = Done err (logEvent (EvStat p) w).
Proof.
  unfold Os.Stat. cbn [logEvent fs].
  destruct (envFault env SysStat p); [eexists; reflexivity |].
  destruct (fs w !! p); eexists; reflexivity.
Qed.

Lemma Stat_existing (env : Env) (p : string) (w : World) :
  envFault env SysStat p = None -> is_Some (fs w !! p) ->
  Os.Stat env p w = Done None (logEvent (EvStat p) w).
Proof.
  intros Hfault [n Hn]. unfold Os.Stat. cbn [logEvent fs].
  rewrite Hfault, Hn. reflexivity.
Qed.

(** The check of [writeScript]: anything but a not-exist error from
    [os.Stat] ends the installation. *)
Lemma Install_collides (env : Env) (s : openbsdRunComService) (w w1 : World)
    (p : string) (err : option error) :
  scriptPath s = (p, None) ->
  Os.Stat env p w = Done err w1 ->
  Errors.Is err Os.ErrNotExist = false ->
  Install env s w = Done (collision s p) w1.
Proof.
  intros Hpath Hstat Hnot.
  unfold Install, deferAnnotate, writeScript, bind, ret.
  rewrite Hpath. cbv beta iota. rewrite Hstat, Hnot. reflexivity.
Qed.

Lemma setNode_keeps (p q : string) (n : Node) (w : World) :
  is_Some (fs w !! p) -> is_Some (fs (setNode q n w) !! p).
Proof.
  intros H. unfold setNode. cbn [fs].
  destruct (decide (q = p)) as [-> | Hne].
  - rewrite lookup_insert_eq. eexists; reflexivity.
  - rewrite lookup_insert_ne by exact Hne. exact H.
Qed.

Lemma store_keeps (p : string) (f : File) (w : World) :
  is_Some (fs w !! p) -> is_Some (fs (Os.store f w) !! p).
Proof.
  intros H. unfold Os.store.
  destruct (fs w !! fname f) as [[data mode |] |]; try exact H.
  apply setNode_keeps. exact H.
Qed.

(** Registering in the startup list removes no file. *)
Lemma configureSysStartup_keeps (env : Env) (s : openbsdRunComService) (p : string) (w : World) :
  is_Some (fs w !! p) ->
  is_Some (fs (stateOf (configureSysStartup env s w)) !! p).
Proof.
  intros H.
  unfold configureSysStartup, bind, ret, Os.OpenFile, Os.onFile, Os.Close.
  cbv zeta. set (w0 := logEvent (EvOpenFile rcConfLocal) w).
  assert (H0 : is_Some (fs w0 !! p)) by exact H.
  destruct (envFault env SysOpenFile rcConfLocal); [exact H0 |].
  destruct (fs w0 !! rcConfLocal) as [[data mode |] |]; cbn [Os.openAt Os.FileStat infoIsDir].
  - destruct (modifyRCConfLocal s _) as [err f | msg f | f]; cbn [stateOf];
      apply store_keeps; exact H0.
  - exact H0.
  - destruct (modifyRCConfLocal s _) as [err f | msg f | f]; cbn [stateOf];
      apply store_keeps, setNode_keeps; exact H0.
Qed.

Lemma Chmod_keeps (env : Env) (p q : string) (mode : Z) (w : World) :
  is_Some (fs w !! p) -> is_Some (fs (stateOf (Os.Chmod env q mode w)) !! p).
Proof.
  intros H. unfold Os.Chmod. cbv zeta.
  assert (H0 : is_Some (fs (logEvent (EvChmod q mode) w) !! p)) by exact H.
  destruct (envFault env SysChmod q); [exact H0 |].
  destruct (fs (logEvent (EvChmod q mode) w) !! q) as [[data m |] |]; cbn [stateOf];
    try exact H0.
  apply setNode_keeps. exact H0.
Qed.

(** [os.Create] returns a file exactly when it returns no error, and the
    file is then in the file system. *)
Lemma Create_returns (env : Env) (p : string) (w : World) :
  exists fo err w1,
    Os.Create env p w = Done (fo, err) w1 /\
    match fo, err with
    | Some _, None => is_Some (fs w1 !! p)
    | None, Some _ => True
    | _, _ => False
    end.
Proof.
  unfold Os.Create. cbv zeta.
  destruct (envFault env SysCreate p).
  { eexists _, _, _. split; [reflexivity | exact I]. }
  destruct (fs (logEvent (EvCreate p) w) !! p) as [[data mode |] |].
  - eexists _, _, _. split; [reflexivity |]. cbn [Os.openAt].
    unfold setNode. cbn [fs]. rewrite lookup_insert_eq. eexists; reflexivity.
  - eexists _, _, _. split; [reflexivity | exact I].
  - eexists _, _, _. split; [reflexivity |]. cbn [Os.openAt].
    unfold setNode. cbn [fs]. rewrite lookup_insert_eq. eexists; reflexivity.
Qed.

(** A script that was written is there. *)
Lemma writeScript_creates (env : Env) (s : openbsdRunComService) (p : string) (w w' : World) :
  scriptPath s = (p, None) ->
  writeScript env s w = Done None w' ->
  is_Some (fs w' !! p).
Proof.
  intros Hpath. unfold writeScript, bind, ret. rewrite Hpath. cbv beta iota.
  destruct (Stat_returns env p w) as [serr ->].
  destruct (negb (Errors.Is serr Os.ErrNotExist)); [discriminate |].
  destruct (execPath env s) as [path [e |]]; [discriminate |].
  destruct (template env s _) as [msg | written xerr]; [discriminate |].
  destruct (Create_returns env p (logEvent (EvStat p) w)) as (fo & cerr & w1 & -> & Hc).
  destruct fo as [f |], cerr as [e |]; try contradiction; try discriminate.
  unfold Os.onFile, Os.Close, ret.
  destruct xerr as [e |]; [discriminate |].
  set (w2 := Os.store _ w1).
  assert (H2 : is_Some (fs w2 !! p)) by (apply store_keeps; exact Hc).
  pose proof (Chmod_keeps env p p 493 w2 H2) as H3.
  destruct (Os.Chmod env p 493 w2) as [cherr w3 | msg w3 | w3]; try discriminate.
  intros Heq. apply (f_equal stateOf) in Heq. cbn [stateOf] in Heq, H3. subst w'. exact H3.
Qed.

Lemma Install_installs (env : Env) (s : openbsdRunComService) (p : string) (w w1 : World) :
  scriptPath s = (p, None) ->
  Install env s w = Done None w1 ->
  is_Some (fs w1 !! p).
Proof.
  intros Hpath. unfold Install, deferAnnotate, bind, ret.
  destruct (writeScript env s w) as [[e |] w' | msg w' | w'] eqn:Hwrite; try discriminate.
  pose proof (writeScript_creates env s p w w' Hpath Hwrite) as Hthere.
  pose proof (configureSysStartup_keeps env s p w' Hthere) as Hkept.
  destruct (configureSysStartup env s w') as [err w2 | msg w2 | w2]; try discriminate.
  intros Heq. apply (f_equal stateOf) in Heq. cbn [stateOf] in Heq, Hkept.
  subst w1. exact Hkept.
Qed.

(** C3.  Where the script of the service is at its path, and [os.Stat]
    can see it, [Install] fails with the error that the script already
    exists, having done nothing but the [os.Stat]: the file system, and
    with it the startup-configuration file, is as it was.  That is where
    a successful [Install] leaves the system, so a second [Install] after
    it fails in this way. *)
Theorem Install_twice_collides (env : Env) (s : openbsdRunComService) (w : World) (p : string) :
  scriptPath s = (p, None) ->
  envFault env SysStat p = None ->
  (is_Some (fs w !! p) ->
     exists w',
       Install env s w = Done (collision s p) w' /\
       fs w' = fs w /\ trace w' = (trace w ++ [EvStat p])%list) /\
  (forall w1, Install env s w = Done None w1 ->
     exists w2,
       Install env s w1 = Done (collision s p) w2 /\
       fs w2 = fs w1 /\ trace w2 = (trace w1 ++ [EvStat p])%list) /\
  Errors.Is (collision s p) Os.ErrNotExist = false.
Proof.
  intros Hpath Hfault.
  assert (Hcollide : forall w0, is_Some (fs w0 !! p) ->
            exists w',
              Install env s w0 = Done (collision s p) w' /\
              fs w' = fs w0 /\ trace w' = (trace w0 ++ [EvStat p])%list).
  { intros w0 Hthere. exists (logEvent (EvStat p) w0). split; [| split; reflexivity].
    apply (Install_collides env s w0 _ p None Hpath).
    - apply Stat_existing; assumption.
    - reflexivity. }
  repeat apply conj.
  - apply Hcollide.
  - intros w1 Hfirst. apply Hcollide. exact (Install_installs env s p w w1 Hpath Hfirst).
  - reflexivity.
Qed.

Lemma Install_twice_collides_witness :
  exists w1 w2,
    Install quietEnv (serviceNamed "AdGuardHome") emptyWorld = Done None w1 /\
    Install quietEnv (serviceNamed "AdGuardHome") w1
      = Done (Some (ErrWrap "installing openbsd-runcom AdGuardHome service: "
                      (ErrFmt "script already exists at /etc/rc.d/AdGuardHome"))) w2 /\
    fs w2 = fs w1.
Proof.
  pose (w1 := stateOf (Install quietEnv (serviceNamed "AdGuardHome") emptyWorld)).
  assert (Hfirst : Install quietEnv (serviceNamed "AdGuardHome") emptyWorld = Done None w1)
    by (vm_compute; reflexivity).
  assert (Hpath : scriptPath (serviceNamed "AdGuardHome") = ("/etc/rc.d/AdGuardHome", None))
    by reflexivity.
  assert (Hfault : envFault quietEnv SysStat "/etc/rc.d/AdGuardHome" = None)
    by reflexivity.
  destruct (Install_twice_collides quietEnv (serviceNamed "AdGuardHome") emptyWorld
              "/etc/rc.d/AdGuardHome" Hpath Hfault) as (_ & Hsecond & _).
  destruct (Hsecond w1 Hfirst) as (w2 & Hrun & Hfs & _).
  exists w1, w2. split; [exact Hfirst | split; [exact Hrun | exact Hfs]].
Defined.

Lemma store_trace (f : File) (w : World) : trace (Os.store f w) = trace w.
Proof. unfold Os.store. destruct (fs w !! fname f) as [[data mode |] |]; reflexivity. Qed.

Lemma Chmod_trace (env : Env) (q : string) (mode : Z) (w : World) (ev : Event) :
  In ev (trace w) -> In ev (trace (stateOf (Os.Chmod env q mode w))).
Proof.
  intros H. unfold Os.Chmod. cbv zeta.
  assert (H0 : In ev (trace (logEvent (EvChmod q mode) w))).
  { cbn [logEvent trace]. apply in_or_app. left. exact H. }
  destruct (envFault env SysChmod q); [exact H0 |].
  destruct (fs (logEvent (EvChmod q mode) w) !! q) as [[data m |] |]; exact H0.
Qed.

Lemma Create_trace (env : Env) (p : string) (w : World) :
  In (EvCreate p) (trace (stateOf (Os.Create env p w))).
Proof.
  unfold Os.Create. cbv zeta.
  assert (H0 : In (EvCreate p) (trace (logEvent (EvCreate p) w))).
  { cbn [logEvent trace]. apply in_or_app. right. left. reflexivity. }
  destruct (envFault env SysCreate p); [exact H0 |].
  destruct (fs (logEvent (EvCreate p) w) !! p) as [[data m |] |]; exact H0.
Qed.

(** Past the check, with the path of the executable found and the
    template parsed, [writeScript] creates the script. *)
Lemma writeScript_proceeds (env : Env) (s : openbsdRunComService) (w w1 : World)
    (p path written : string) (err xerr : option error) :
  scriptPath s = (p, None) ->
  Os.Stat env p w = Done err w1 ->
  Errors.Is err Os.ErrNotExist = true ->
  execPath env s = (path, None) ->
  template env s (scriptData s path) = Executes written xerr ->
  In (EvCreate p) (trace (stateOf (writeScript env s w))).
Proof.
  intros Hpath Hstat Hnot Hexec Htmpl.
  unfold writeScript, bind, ret. rewrite Hpath. cbv beta iota.
  rewrite Hstat, Hnot, Hexec. cbv beta iota. cbn [negb].
  change {| tdConfig := config s; tdPath := path;
            tdSvcInfo := getString (Option (config s)) "SvcInfo" (String_ s) |}
    with (scriptData s path).
  rewrite Htmpl.
  pose proof (Create_trace env p w1) as Hcreated.
  destruct (Os.Create env p w1) as [[fo cerr] w2 | msg w2 | w2]; cbn [stateOf] in *;
    try exact Hcreated.
  destruct fo as [f |], cerr as [e |]; cbn [stateOf]; try exact Hcreated.
  unfold Os.onFile, Os.Close, ret.
  set (w3 := Os.store _ w2).
  assert (H3 : In (EvCreate p) (trace w3)).
  { unfold w3. rewrite store_trace. exact Hcreated. }
  destruct xerr as [e |]; [exact H3 |].
  pose proof (Chmod_trace env p 493 w3 _ H3) as H4.
  destruct (Os.Chmod env p 493 w3) as [cherr w4 | msg w4 | w4]; exact H4.
Qed.

(** C10.  The existence check of [Install]: whatever [os.Stat] returns
    for the path of the script that is not an error of the not-exist
    kind, be it success or another error such as a denied permission, ends
    [Install] with the error that the script already exists, after the
    [os.Stat] alone: no script is created and the startup list is not
    opened.  Only after a not-exist error does [writeScript] go on to
    create the script. *)
Theorem Install_existence_check (env : Env) (s : openbsdRunComService) (w w1 : World)
    (p : string) (err : option error) :
  scriptPath s = (p, None) ->
  Os.Stat env p w = Done err w1 ->
  (Errors.Is err Os.ErrNotExist = false ->
     Install env s w = Done (collision s p) w1 /\
     fs w1 = fs w /\ trace w1 = (trace w ++ [EvStat p])%list) /\
  (Errors.Is err Os.ErrNotExist = true ->
     forall path written xerr,
       execPath env s = (path, None) ->
       template env s (scriptData s path) = Executes written xerr ->
       In (EvCreate p) (trace (stateOf (writeScript env s w)))) /\
  Errors.Is None Os.ErrNotExist = false /\
  (forall e, e <> ENOENT -> Errors.Is (Os.pathError "stat" p e) Os.ErrNotExist = false) /\
  Errors.Is (Os.pathError "stat" p ENOENT) Os.ErrNotExist = true.
Proof.
  intros Hpath Hstat.
  destruct (Stat_returns env p w) as [err' Hstat'].
  assert (Hw1 : w1 = logEvent (EvStat p) w).
  { rewrite Hstat in Hstat'. apply (f_equal stateOf) in Hstat'. exact Hstat'. }
  repeat apply conj.
  - intros Hnot. repeat apply conj.
    + apply (Install_collides env s w w1 p err Hpath Hstat Hnot).
    + rewrite Hw1. reflexivity.
    + rewrite Hw1. reflexivity.
  - intros Hnot path written xerr Hexec Htmpl.
    exact (writeScript_proceeds env s w w1 p path written err xerr
             Hpath Hstat Hnot Hexec Htmpl).
  - reflexivity.
  - intros e He. destruct e; try reflexivity. congruence.
  - reflexivity.
Qed.

Lemma Install_existence_check_witness :
  Install deniedEnv (serviceNamed "AdGuardHome") emptyWorld
    = Done (Some (ErrWrap "installing openbsd-runcom AdGuardHome service: "
                    (ErrFmt "script already exists at /etc/rc.d/AdGuardHome")))
           (logEvent (EvStat "/etc/rc.d/AdGuardHome") emptyWorld) /\
  In (EvCreate "/etc/rc.d/AdGuardHome")
     (trace (stateOf (writeScript quietEnv (serviceNamed "AdGuardHome") emptyWorld))).
Proof.
  split.
  - apply (Install_existence_check deniedEnv (serviceNamed "AdGuardHome") emptyWorld
             (logEvent (EvStat "/etc/rc.d/AdGuardHome") emptyWorld)
             "/etc/rc.d/AdGuardHome"
             (Os.pathError "stat" "/etc/rc.d/AdGuardHome" EACCES));
      reflexivity.
  - apply (Install_existence_check quietEnv (serviceNamed "AdGuardHome") emptyWorld
             (logEvent (EvStat "/etc/rc.d/AdGuardHome") emptyWorld)
             "/etc/rc.d/AdGuardHome"
             (Os.pathError "stat" "/etc/rc.d/AdGuardHome" ENOENT)
             eq_refl eq_refl)
      with (path := "/usr/local/bin/AdGuardHome")
           (written := scriptText (template quietEnv (serviceNamed "AdGuardHome")
                         (scriptData (serviceNamed "AdGuardHome") "/usr/local/bin/AdGuardHome")))
           (xerr := None);
      reflexivity.
Defined.

(** ** The script template *)


Lemma allChars_append (test : ascii -> bool) (a b : string) :
  allChars test (a +:+ b) = allChars test a && allChars test b.
Proof.
  induction a as [|c a IH]; [reflexivity |].
  rewrite append_cons. cbn [allChars]. rewrite IH, andb_assoc. reflexivity.
Qed.









(** A backquote and a dollar sign are written as they are as well, and
    the shell keeps both special between double quotes: the value of
    [daemon_flags] is then not taken as it is written.  A dollar sign
    after a backslash is. *)
Example template_expansion_in_argument :
  let s := serviceWith "AdGuardHome" backquoteArguments ∅ in
  let t := serviceWith "AdGuardHome" dollarArguments ∅ in
  daemonFlags (scriptText (template quietEnv s (scriptData s "/usr/local/bin/AdGuardHome")))
  = Some (dq +:+ "-c a`b" +:+ dq) /\
  oneQuotedToken (dq +:+ "-c a`b" +:+ dq) = false /\
  daemonFlags (scriptText (template quietEnv t (scriptData t "/usr/local/bin/AdGuardHome")))
  = Some (dq +:+ "-c $(reboot)" +:+ dq) /\
  oneQuotedToken (dq +:+ "-c $(reboot)" +:+ dq) = false /\
  oneQuotedToken (dq +:+ "-c \$HOME" +:+ dq) = true.
Proof. cbv zeta. repeat apply conj; vm_compute; reflexivity. Qed.

(** ** The scanner and the editor always return *)

Lemma length_str_drop (n : nat) (s : string) :
  String.length (str_drop n s) = String.length s - n.
Proof.
  revert s. induction n as [|n IH]; intros s.
  - cbn [str_drop]. lia.
  - destruct s as [|c s]; [reflexivity |]. cbn [str_drop String.length]. apply IH.
Qed.

Lemma length_str_take (n : nat) (s : string) :
  String.length (str_take n s) = Nat.min n (String.length s).
Proof.
  revert s. induction n as [|n IH]; intros s; [reflexivity |].
  destruct s as [|c s]; [reflexivity |].
  cbn [str_take String.length]. rewrite IH. reflexivity.
Qed.

Lemma length_zero (s : string) : String.length s = 0 -> s = "".
Proof. destruct s; [reflexivity | discriminate]. Qed.

Lemma indexNL_lt (data : string) (n : nat) :
  Bufio.indexNL data = Some n -> n < String.length data.
Proof.
  revert n. induction data as [|c data IH]; intros n; [discriminate |].
  cbn [Bufio.indexNL String.length].
  destruct (Nat.eqb (nat_of_ascii c) 10).
  - intros [= <-]. lia.
  - destruct (Bufio.indexNL data) as [m |]; [| discriminate].
    intros [= <-]. specialize (IH m eq_refl). lia.
Qed.

(** What [ScanLines] consumes is pending, is something when there is a
    line, and is nothing when there is none; and at the end of the file
    there is a line as long as a byte is pending. *)
Lemma ScanLines_spec (data : string) (atEOF : bool) (advance : nat) (tok : option string) :
  Bufio.ScanLines data atEOF = (advance, tok) ->
  advance <= String.length data /\
  (tok = None -> advance = 0) /\
  (tok <> None -> 1 <= advance) /\
  (tok = None -> atEOF = true -> data = "").
Proof.
  unfold Bufio.ScanLines.
  destruct (atEOF && (data =? "")%string) eqn:Hend.
  - intros [= <- <-]. apply andb_prop in Hend as [-> Hempty].
    apply String.eqb_eq in Hempty. repeat apply conj; try lia; congruence.
  - destruct (Bufio.indexNL data) as [n |] eqn:Hnl.
    + intros [= <- <-]. apply indexNL_lt in Hnl.
      repeat apply conj; try lia; try congruence; discriminate.
    + destruct atEOF.
      * intros [= <- <-]. cbn [andb] in Hend. apply String.eqb_neq in Hend.
        repeat apply conj; try lia; try discriminate.
        intros _. destruct data; [congruence | cbn [String.length]; lia].
      * intros [= <- <-]. repeat apply conj; try lia; try congruence; discriminate.
Qed.

Lemma hasErr_setErr (e : error) (s : Bufio.Scanner) :
  Bufio.hasErr (Bufio.setErr e s) = true.
Proof.
  unfold Bufio.setErr, Bufio.hasErr.
  destruct (Bufio.err s) as [[[] | | | | |] |] eqn:He; cbn [Bufio.err]; rewrite ?He; reflexivity.
Qed.

Lemma buffer_setErr (e : error) (s : Bufio.Scanner) :
  Bufio.bufLen (Bufio.setErr e s) = Bufio.bufLen s /\
  Bufio.start (Bufio.setErr e s) = Bufio.start s /\
  Bufio.pending (Bufio.setErr e s) = Bufio.pending s.
Proof.
  unfold Bufio.setErr.
  destruct (Bufio.err s) as [[[] | | | | |] |]; repeat split; reflexivity.
Qed.

Lemma bufOk_setErr (e : error) (s : Bufio.Scanner) : bufOk s -> bufOk (Bufio.setErr e s).
Proof.
  unfold bufOk, Bufio.bufEnd.
  destruct (buffer_setErr e s) as (-> & -> & ->). exact (fun H => H).
Qed.

(** The split step keeps the buffer and the error, and the pending bytes
    fitting; a line found takes at least one pending byte; without a line
    nothing moves, and nothing was pending if the end of the file had been
    met. *)
Lemma trySplit_spec (s s' : Bufio.Scanner) (found : bool) :
  Bufio.trySplit s = (s', found) ->
  Bufio.err s' = Bufio.err s /\
  (bufOk s -> bufOk s') /\
  (found = true ->
     String.length (Bufio.pending s') + 1 <= String.length (Bufio.pending s)) /\
  (found = false ->
     Bufio.pending s' = Bufio.pending s /\
     (Bufio.hasErr s = true -> Bufio.pending s = "")).
Proof.
  unfold Bufio.trySplit.
  destruct (negb (Bufio.pending s =? "")%string || Bufio.hasErr s) eqn:Hsplit.
  - destruct (Bufio.ScanLines (Bufio.pending s) (Bufio.hasErr s)) as [advance tok] eqn:Hlines.
    apply ScanLines_spec in Hlines as (Hle & Hnone & Hsome & Hend).
    intros [= <- <-]. cbn [Bufio.err Bufio.pending].
    repeat apply conj.
    + reflexivity.
    + unfold bufOk, Bufio.bufEnd. cbn [Bufio.start Bufio.pending Bufio.bufLen].
      rewrite length_str_drop. lia.
    + intros Hfound. rewrite length_str_drop.
      destruct tok as [t |]; [| discriminate]. specialize (Hsome ltac:(discriminate)). lia.
    + destruct tok as [t |]; [discriminate |]. intros _. split.
      * rewrite (Hnone eq_refl). reflexivity.
      * intros Herr. exact (Hend eq_refl Herr).
  - intros [= <- <-]. apply orb_false_elim in Hsplit as [Hpend Herr].
    repeat apply conj; try reflexivity; try discriminate; try exact (fun H => H).
    intros _. split; [reflexivity |]. rewrite Herr. discriminate.
Qed.

Lemma shift_spec (s : Bufio.Scanner) :
  Bufio.err (Bufio.shift s) = Bufio.err s /\
  Bufio.pending (Bufio.shift s) = Bufio.pending s /\
  (bufOk s -> bufOk (Bufio.shift s)).
Proof.
  unfold Bufio.shift.
  destruct (_ && _); repeat split; try exact (fun H => H).
  unfold bufOk, Bufio.bufEnd, Bufio.withBuf. cbn [Bufio.start Bufio.pending Bufio.bufLen]. lia.
Qed.

Lemma sizes_positive : 0 < Bufio.startBufSize /\ 0 < Bufio.MaxScanTokenSize.
Proof. unfold Bufio.startBufSize, Bufio.MaxScanTokenSize. lia. Qed.

(** After the buffer was grown where it was full, there is room in it. *)
Lemma room_to_read (s : Bufio.Scanner) :
  bufOk s ->
  Bufio.full s && Nat.leb Bufio.MaxScanTokenSize (Bufio.bufLen s) = false ->
  let s' := if Bufio.full s then Bufio.grow s else s in
  Bufio.err s' = Bufio.err s /\ Bufio.pending s' = Bufio.pending s /\
  Bufio.bufEnd s' < Bufio.bufLen s'.
Proof.
  intros Hok Hroom. unfold Bufio.full in *.
  destruct (Nat.eqb (Bufio.bufEnd s) (Bufio.bufLen s)) eqn:Hfull; cbv zeta.
  - cbn [andb] in Hroom. apply Nat.leb_gt in Hroom. apply Nat.eqb_eq in Hfull.
    unfold Bufio.grow, Bufio.withBuf, Bufio.bufEnd in *.
    cbn [Bufio.err Bufio.pending Bufio.start Bufio.bufLen].
    repeat split.
    destruct sizes_positive as [Hstart Hmax].
    destruct (Nat.eqb (Bufio.bufLen s * 2) 0) eqn:Hzero.
    + apply Nat.eqb_eq in Hzero. lia.
    + apply Nat.eqb_neq in Hzero. lia.
  - apply Nat.eqb_neq in Hfull. unfold bufOk in Hok. repeat split. lia.
Qed.

(** A read into a buffer with room: the end of the file, or some bytes
    of it. *)
Lemma Read_spec (n : nat) (f f' : File) (got : string) (e : option error) :
  0 < n ->
  Os.Read n f = (got, e, f') ->
  (remaining f = 0 /\ got = "" /\ e = Some Bufio.EOF /\ f' = f) \/
  (0 < String.length got <= n /\ e = None /\
   remaining f' + String.length got = remaining f /\ fdata f' = fdata f).
Proof.
  intros Hn. unfold Os.Read, remaining.
  pose proof (length_str_drop (foff f) (fdata f)) as Hlen.
  destruct (str_drop (foff f) (fdata f)) as [|c rest] eqn:Hrest.
  - intros [= <- <- <-]. left. cbn [String.length] in Hlen.
    repeat split. lia.
  - intros [= <- <- <-]. right. unfold Os.withOff. cbn [fdata foff].
    rewrite length_str_take. rewrite Hlen. cbn [String.length] in Hlen |- *.
    repeat split; lia.
Qed.

Lemma fill_spec (s : Bufio.Scanner) (got : string) (e : option error) :
  Bufio.pending (Bufio.fill s got e) = Bufio.pending s +:+ got /\
  Bufio.bufLen (Bufio.fill s got e) = Bufio.bufLen s /\
  Bufio.start (Bufio.fill s got e) = Bufio.start s /\
  (e <> None -> Bufio.hasErr (Bufio.fill s got e) = true) /\
  (e = None -> Bufio.err (Bufio.fill s got e) = Bufio.err s).
Proof.
  unfold Bufio.fill. cbv zeta. destruct e as [e |].
  - destruct (buffer_setErr e (Bufio.withBuf s (Bufio.bufLen s) (Bufio.start s)
                                 (Bufio.pending s +:+ got))) as (-> & -> & ->).
    repeat split. intros _. apply hasErr_setErr. discriminate.
  - repeat split. congruence.
Qed.

(** [Scanner.Scan] returns when it is given as many turns as bytes remain
    in the file and two more, one more when the end of the file was met.
    It leaves the file as it is, and what is pending and unread shrinks by
    a byte at least when a line is handed out. *)
Lemma scanLoop_returns (fuel : nat) (s : Bufio.Scanner) (f : File) :
  bufOk s ->
  remaining f + (if Bufio.hasErr s then 1 else 2) <= fuel ->
  exists b s' f',
    Bufio.scanLoop fuel s f = Done (b, s') f' /\
    bufOk s' /\ fdata f' = fdata f /\
    String.length (Bufio.pending s') + remaining f' + (if b then 1 else 0)
    <= String.length (Bufio.pending s) + remaining f.
Proof.
  revert s f. induction fuel as [|fuel IH]; intros s f Hok Hfuel.
  { destruct (Bufio.hasErr s); lia. }
  cbn [Bufio.scanLoop].
  destruct (Bufio.trySplit s) as [s1 found] eqn:Hsplit.
  apply trySplit_spec in Hsplit as (Herr1 & Hok1 & Hfound & Hnone).
  specialize (Hok1 Hok).
  destruct found.
  { exists true, s1, f. specialize (Hfound eq_refl). repeat split; try assumption. lia. }
  destruct (Hnone eq_refl) as [Hpend1 Hended].
  assert (Hhas1 : Bufio.hasErr s1 = Bufio.hasErr s).
  { unfold Bufio.hasErr. rewrite Herr1. reflexivity. }
  destruct (Bufio.hasErr s1) eqn:Hherr.
  { eexists false, _, f. split; [reflexivity |].
    unfold bufOk, Bufio.bufEnd, Bufio.withBuf.
    cbn [Bufio.start Bufio.pending Bufio.bufLen String.length]. repeat split; lia. }
  destruct (shift_spec s1) as (Herr2 & Hpend2 & Hok2). specialize (Hok2 Hok1).
  set (s2 := Bufio.shift s1) in *.
  destruct (Bufio.full s2 && Nat.leb Bufio.MaxScanTokenSize (Bufio.bufLen s2)) eqn:Hroom.
  { eexists false, _, f. split; [reflexivity |].
    split; [apply bufOk_setErr; exact Hok2 |].
    destruct (buffer_setErr Bufio.ErrTooLong s2) as (_ & _ & ->).
    split; [reflexivity |]. rewrite Hpend2, Hpend1. lia. }
  destruct (room_to_read s2 Hok2 Hroom) as (Herr3 & Hpend3 & Hspace).
  set (s3 := if Bufio.full s2 then Bufio.grow s2 else s2) in *.
  destruct (Os.Read (Bufio.bufLen s3 - Bufio.bufEnd s3) f) as [[got e] f1] eqn:Hread.
  destruct (fill_spec s3 got e) as (Hpend4 & Hlen4 & Hstart4 & Hherr4 & Herr4).
  assert (Hs : Bufio.hasErr s = false) by (rewrite <- Hhas1; reflexivity).
  rewrite Hs in Hfuel.
  apply Read_spec in Hread; [| lia].
  destruct Hread as [(Hrem & -> & -> & ->) | (Hgot & -> & Hrem & Hdata)].
  - destruct (IH (Bufio.fill s3 "" (Some Bufio.EOF)) f) as (b & s' & f' & Hrun & Hok' & Hdata' & Hmeasure).
    + unfold bufOk, Bufio.bufEnd. rewrite Hpend4, Hlen4, Hstart4, append_empty_r.
      unfold Bufio.bufEnd in Hspace. lia.
    + rewrite (Hherr4 ltac:(discriminate)). lia.
    + exists b, s', f'. split; [exact Hrun |]. split; [exact Hok' |].
      split; [exact Hdata' |].
      rewrite Hpend4, append_empty_r, Hpend3, Hpend2, Hpend1 in Hmeasure. exact Hmeasure.
  - destruct (IH (Bufio.fill s3 got None) f1) as (b & s' & f' & Hrun & Hok' & Hdata' & Hmeasure).
    + unfold bufOk, Bufio.bufEnd. rewrite Hpend4, Hlen4, Hstart4, length_append.
      unfold Bufio.bufEnd in Hspace, Hgot. lia.
    + assert (Hh : Bufio.hasErr (Bufio.fill s3 got None) = false).
      { unfold Bufio.hasErr. rewrite (Herr4 eq_refl), Herr3, Herr2.
        unfold Bufio.hasErr in Hherr. exact Hherr. }
      rewrite Hh. lia.
    + exists b, s', f'. split; [exact Hrun |]. split; [exact Hok' |].
      split; [congruence |].
      rewrite Hpend4, length_append, Hpend3, Hpend2, Hpend1 in Hmeasure. lia.
Qed.

Lemma Scan_returns (s : Bufio.Scanner) (f : File) :
  bufOk s ->
  exists b s' f',
    Bufio.Scan s f = Done (b, s') f' /\
    bufOk s' /\ fdata f' = fdata f /\
    String.length (Bufio.pending s') + remaining f' + (if b then 1 else 0)
    <= String.length (Bufio.pending s) + remaining f.
Proof.
  intros Hok. unfold Bufio.Scan. apply scanLoop_returns; [exact Hok |].
  unfold remaining. destruct (Bufio.hasErr s); lia.
Qed.

(** The scanning loop of [modifyRCConfLocal] returns when it is given one
    turn more than bytes are pending and unread. *)
Lemma scanLines_returns (fuel : nat) (prefIdx : Z) (ln : string) (scn : Bufio.Scanner)
    (f : File) :
  bufOk scn ->
  String.length (Bufio.pending scn) + remaining f + 1 <= fuel ->
  exists r f', scanLines fuel prefIdx ln scn f = Done r f' /\ fdata f' = fdata f.
Proof.
  revert prefIdx ln scn f.
  induction fuel as [|fuel IH]; intros prefIdx ln scn f Hok Hfuel; [lia |].
  cbn [scanLines]. unfold bind.
  destruct (Scan_returns scn f Hok) as (b & scn' & f' & -> & Hok' & Hdata & Hmeasure).
  destruct b; cbn [negb].
  - assert (Hnext : String.length (Bufio.pending scn') + remaining f' + 1 <= fuel) by lia.
    destruct (String.eqb (Strings.TrimSpace (Bufio.Text scn')) "").
    + destruct (IH prefIdx (Strings.TrimSpace (Bufio.Text scn')) scn' f' Hok' Hnext)
        as (r & f'' & Hrun & Hdata'').
      exists r, f''. split; [exact Hrun | congruence].
    + destruct (Strings.Index (Strings.TrimSpace (Bufio.Text scn')) pref =? 0)%Z.
      * eexists _, f'. split; [reflexivity | exact Hdata].
      * destruct (IH (Strings.Index (Strings.TrimSpace (Bufio.Text scn')) pref)
                    (Strings.TrimSpace (Bufio.Text scn')) scn' f' Hok' Hnext)
          as (r & f'' & Hrun & Hdata'').
        exists r, f''. split; [exact Hrun | congruence].
  - eexists _, f'. split; [reflexivity | exact Hdata].
Qed.

(** [modifyRCConfLocal] returns, whatever the file and the offset it is
    opened at. *)
Lemma modifyRCConfLocal_returns (s : openbsdRunComService) (f : File) :
  exists err f', modifyRCConfLocal s f = Done err f'.
Proof.
  unfold modifyRCConfLocal, bind, ret.
  destruct (scanLines_returns (String.length (fdata f) + 2) (-2) "" Bufio.NewScanner f)
    as ([[prefIdx ln] scn] & f' & -> & _).
  - unfold bufOk, Bufio.bufEnd. cbn. lia.
  - unfold remaining. cbn [Bufio.NewScanner Bufio.pending String.length]. lia.
  - destruct (Bufio.Err scn); [eexists _, _; reflexivity |].
    destruct (prefIdx =? -2)%Z.
    { unfold Os.WriteString. eexists _, _; reflexivity. }
    destruct (prefIdx =? 0)%Z.
    + destruct (Stringutil.InSlice _ _); [eexists _, _; reflexivity |].
      destruct (Os.SeekCur (-1) f') as [[e |] f''].
      * eexists _, _; reflexivity.
      * unfold Os.WriteString. eexists _, _; reflexivity.
    + unfold Os.WriteString. eexists _, _; reflexivity.
Qed.

(** Registering in the startup list returns. *)
Lemma configureSysStartup_returns (env : Env) (s : openbsdRunComService) (w : World) :
  exists err w', configureSysStartup env s w = Done err w'.
Proof.
  unfold configureSysStartup, bind, ret, Os.OpenFile, Os.onFile, Os.Close.
  cbv zeta.
  destruct (envFault env SysOpenFile rcConfLocal); [eexists _, _; reflexivity |].
  destruct (fs (logEvent (EvOpenFile rcConfLocal) w) !! rcConfLocal) as [[data mode |] |];
    cbn [Os.openAt Os.FileStat infoIsDir].
  - destruct (modifyRCConfLocal_returns s {| fname := rcConfLocal; fdata := data; foff := 0 |})
      as (err & f' & ->).
    eexists _, _; reflexivity.
  - eexists _, _; reflexivity.
  - destruct (modifyRCConfLocal_returns s {| fname := rcConfLocal; fdata := ""; foff := 0 |})
      as (err & f' & ->).
    eexists _, _; reflexivity.
Qed.

(** ** The editor on a file that is the line of the list alone *)

Lemma str_rev_append (a b : string) : str_rev (a +:+ b) = str_rev b +:+ str_rev a.
Proof.
  unfold str_rev. revert b. induction a as [|c a IH]; intros b.
  - rewrite append_nil, append_empty_r. reflexivity.
  - rewrite append_cons. cbn [str_rev_onto].
    rewrite (str_rev_onto_append (a +:+ b)), (str_rev_onto_append a (String c "")).
    unfold str_rev. rewrite IH, append_assoc. reflexivity.
Qed.

Lemma str_rev_involutive (s : string) : str_rev (str_rev s) = s.
Proof.
  induction s as [|c s IH]; [reflexivity |].
  change (String c s) with (String c "" +:+ s) at 1.
  rewrite str_rev_append, str_rev_append, IH. reflexivity.
Qed.

Lemma prefix_append (a b : string) : String.prefix a (a +:+ b) = true.
Proof.
  induction a as [|c a IH]; [apply prefix_nil |].
  rewrite append_cons. cbn [String.prefix].
  destruct (ascii_dec c c) as [_ | Hne]; [exact IH | congruence].
Qed.

Lemma str_drop_append (a b : string) : str_drop (String.length a) (a +:+ b) = b.
Proof. induction a as [|c a IH]; [reflexivity | exact IH]. Qed.

Lemma str_take_append (a b : string) : str_take (String.length a) (a +:+ b) = a.
Proof.
  induction a as [|c a IH]; [reflexivity |].
  rewrite append_cons. cbn [String.length str_take]. rewrite IH. reflexivity.
Qed.

Lemma str_take_all (n : nat) (s : string) : String.length s <= n -> str_take n s = s.
Proof.
  revert n. induction s as [|c s IH]; intros n Hn; [apply str_take_empty |].
  cbn [String.length] in Hn. destruct n as [|n]; [lia |].
  cbn [str_take]. rewrite IH by lia. reflexivity.
Qed.

Lemma str_drop_all (n : nat) (s : string) : String.length s <= n -> str_drop n s = "".
Proof.
  intros Hn. apply length_zero. rewrite length_str_drop. lia.
Qed.

Lemma allChars_weaken (p q : ascii -> bool) (s : string) :
  (forall c, p c = true -> q c = true) -> allChars p s = true -> allChars q s = true.
Proof.
  intros Hpq. induction s as [|c s IH]; [reflexivity |].
  cbn [allChars]. intros H. apply andb_prop in H as [Hc Hs].
  rewrite (Hpq c Hc), (IH Hs). reflexivity.
Qed.

(** A string that is not empty ends in a character, which has what all
    its characters have. *)
Lemma last_char (p : ascii -> bool) (s : string) :
  s <> "" -> allChars p s = true ->
  exists body c, s = body +:+ String c "" /\ p c = true.
Proof.
  induction s as [|c s IH]; [congruence |].
  intros _ H. cbn [allChars] in H. apply andb_prop in H as [Hc Hs].
  destruct s as [|c' s'].
  - exists "", c. split; [reflexivity | exact Hc].
  - destruct (IH ltac:(discriminate) Hs) as (body & d & Heq & Hd).
    exists (String c body), d. split; [| exact Hd].
    rewrite append_cons, <- Heq. reflexivity.
Qed.

Lemma not_space_from_33 (n : nat) :
  33 <= n ->
  match n with
  | 9 | 10 | 11 | 12 | 13 | 32 => true
  | _ => false
  end = false.
Proof.
  intros H. do 33 (destruct n as [|n]; [lia |]). reflexivity.
Qed.

Lemma wordChar_plain (c : ascii) :
  wordChar c = true ->
  Nat.ltb (nat_of_ascii c) Strings.RuneSelf = true /\ Strings.asciiSpace c = false /\
  Nat.eqb (nat_of_ascii c) 13 = false /\ Nat.eqb (nat_of_ascii c) 32 = false.
Proof.
  unfold wordChar, Strings.RuneSelf, Strings.asciiSpace. intros H.
  apply andb_prop in H as [Hlo Hhi].
  apply Nat.leb_le in Hlo. apply Nat.ltb_lt in Hhi.
  repeat split.
  - apply Nat.ltb_lt. lia.
  - apply not_space_from_33. exact Hlo.
  - apply Nat.eqb_neq. lia.
  - apply Nat.eqb_neq. lia.
Qed.

Lemma wordChar_lineChar (c : ascii) : wordChar c = true -> lineChar c = true.
Proof.
  unfold wordChar, lineChar. intros H. apply andb_prop in H as [Hlo Hhi].
  apply Nat.leb_le in Hlo. rewrite Hhi, andb_true_r. apply Nat.leb_le. lia.
Qed.

(** A line that begins and ends with a visible ASCII character is what
    [TrimSpace] returns for it. *)
Lemma TrimSpace_word_ends (c d : ascii) (r body : string) :
  wordChar c = true -> wordChar d = true ->
  String c r = body +:+ String d "" ->
  Strings.TrimSpace (String c r) = String c r.
Proof.
  intros Hc Hd Hshape.
  destruct (wordChar_plain c Hc) as (Hc1 & Hc2 & _).
  destruct (wordChar_plain d Hd) as (Hd1 & Hd2 & _).
  unfold Strings.TrimSpace.
  assert (Hleft : Strings.TrimLeftSpace (String c r) = String c r).
  { unfold Strings.TrimLeftSpace. cbn [String.length Strings.trimLeftLoop].
    unfold Strings.spaceWidth. rewrite Hc1, Hc2. reflexivity. }
  rewrite Hleft, Hshape. unfold Strings.TrimRightSpace.
  rewrite str_rev_append, length_append. cbn [String.length].
  rewrite Nat.add_1_r.
  change (str_rev (String d "") +:+ str_rev body) with (String d (str_rev body)).
  cbn [Strings.trimLeftLoop]. unfold Strings.spaceWidth. rewrite Hd1, Hd2.
  change (String d (str_rev body)) with (String d "" +:+ str_rev body).
  rewrite str_rev_append, str_rev_involutive. reflexivity.
Qed.

Lemma dropCR_word_end (d : ascii) (body : string) :
  wordChar d = true ->
  Bufio.dropCR (body +:+ String d "") = body +:+ String d "".
Proof.
  intros Hd. destruct (wordChar_plain d Hd) as (_ & _ & Hcr & _).
  unfold Bufio.dropCR. rewrite str_rev_append.
  change (str_rev (String d "") +:+ str_rev body) with (String d (str_rev body)).
  cbv beta iota. rewrite Hcr. reflexivity.
Qed.

Lemma indexNL_line (line rest : string) :
  allChars lineChar line = true ->
  Bufio.indexNL (line +:+ nl +:+ rest) = Some (String.length line).
Proof.
  induction line as [|c line IH]; [reflexivity |].
  cbn [allChars]. intros H. apply andb_prop in H as [Hc Hline].
  rewrite append_cons. cbn [Bufio.indexNL String.length].
  assert (Hnl : Nat.eqb (nat_of_ascii c) 10 = false).
  { unfold lineChar in Hc. apply andb_prop in Hc as [Hlo _].
    apply Nat.leb_le in Hlo. apply Nat.eqb_neq. lia. }
  rewrite Hnl, (IH Hline). reflexivity.
Qed.

Lemma append_not_empty (a : string) (c : ascii) (b : string) :
  (a +:+ String c b =? "")%string = false.
Proof.
  apply String.eqb_neq. destruct a; [rewrite append_nil | rewrite append_cons]; discriminate.
Qed.

(** The first turn of [Scan] on a fresh scanner allocates the buffer and
    reads 4096 bytes. *)
Lemma scanLoop_fresh (fuel : nat) (f : File) :
  Bufio.scanLoop (S fuel) Bufio.NewScanner f
  = let '(got, e, f') := Os.Read 4096 f in
    Bufio.scanLoop fuel (Bufio.fill firstBuffer got e) f'.
Proof. reflexivity. Qed.

Lemma Read_whole (n : nat) (path data : string) :
  data <> "" -> String.length data <= n ->
  Os.Read n {| fname := path; fdata := data; foff := 0 |}
  = (data, None, {| fname := path; fdata := data; foff := String.length data |}).
Proof.
  intros Hne Hlen. unfold Os.Read, Os.withOff. cbn [foff fdata fname str_drop Nat.add].
  destruct data as [|c data]; [congruence |].
  rewrite (str_take_all n _ Hlen). reflexivity.
Qed.

(** Scanning a file that is one line and its line feed, shorter than the
    buffer: the line is handed out, and the file has been read to its
    end. *)
Lemma Scan_sole_line (path line : string) :
  allChars lineChar line = true ->
  String.length line < 4096 ->
  Bufio.Scan Bufio.NewScanner {| fname := path; fdata := line +:+ nl; foff := 0 |}
  = Done (true,
          {| Bufio.bufLen := 4096; Bufio.start := String.length line + 1;
             Bufio.pending := ""; Bufio.token := Bufio.dropCR line; Bufio.err := None |})
         {| fname := path; fdata := line +:+ nl; foff := String.length line + 1 |}.
Proof.
  intros Hline Hlen. unfold Bufio.Scan. cbn [fdata foff].
  rewrite Nat.sub_0_r, length_append. change (String.length nl) with 1.
  replace (String.length line + 1 + 3) with (S (S (String.length line + 2))) by lia.
  rewrite scanLoop_fresh.
  rewrite (Read_whole 4096 path (line +:+ nl)).
  2: { apply String.eqb_neq. apply append_not_empty. }
  2: { rewrite length_append. change (String.length nl) with 1. lia. }
  rewrite length_append. change (String.length nl) with 1.
  change (Bufio.fill firstBuffer (line +:+ nl) None)
    with {| Bufio.bufLen := 4096; Bufio.start := 0; Bufio.pending := line +:+ nl;
            Bufio.token := ""; Bufio.err := None |}.
  cbn [Bufio.scanLoop]. unfold Bufio.trySplit.
  cbn [Bufio.pending Bufio.hasErr Bufio.err Bufio.bufLen Bufio.start].
  assert (Hne : (line +:+ nl =? "")%string = false) by apply append_not_empty.
  rewrite Hne. cbn [negb orb].
  unfold Bufio.ScanLines. cbn [andb].
  rewrite <- (append_empty_r (line +:+ nl)), append_assoc, (indexNL_line line "" Hline).
  rewrite append_empty_r.
  rewrite str_take_append, str_drop_all.
  2: { rewrite length_append. change (String.length nl) with 1. lia. }
  reflexivity.
Qed.

Lemma prefix_space_word (c : ascii) (s : string) :
  wordChar c = true -> String.prefix " " (String c s) = false.
Proof.
  intros Hc. destruct (wordChar_plain c Hc) as (_ & _ & _ & Hsp).
  cbn [String.prefix]. destruct (ascii_dec " " c) as [<- | Hne]; [discriminate Hsp | reflexivity].
Qed.

Lemma prefix_space_space (s : string) : String.prefix " " (String " " s) = true.
Proof.
  cbn [String.prefix]. destruct (ascii_dec " " " ") as [_ | Hne]; [apply prefix_nil | congruence].
Qed.

Lemma splitLoop_word (w t cur : string) :
  allChars wordChar w = true ->
  Strings.splitLoop " " (w +:+ t) 0 cur = Strings.splitLoop " " t 0 (str_rev_onto w cur).
Proof.
  revert cur. induction w as [|c w IH]; intros cur Hw; [reflexivity |].
  cbn [allChars] in Hw. apply andb_prop in Hw as [Hc Hw].
  rewrite append_cons. cbn [Strings.splitLoop str_rev_onto].
  rewrite (prefix_space_word c _ Hc). apply IH. exact Hw.
Qed.

Lemma isWord_spec (w : string) :
  isWord w = true -> allChars wordChar w = true /\ w <> "".
Proof.
  unfold isWord. intros H. apply andb_prop in H as [Hall Hne].
  split; [exact Hall |]. apply negb_true_iff, String.eqb_neq in Hne. exact Hne.
Qed.

(** Cutting at the spaces a list of words joined by spaces gives the
    words back. *)
Lemma Split_Join (names : list string) :
  names <> [] -> forallb isWord names = true ->
  Strings.Split (Strings.Join names " ") " " = names.
Proof.
  unfold Strings.Split.
  induction names as [|w names IH]; [congruence |].
  intros _ H. cbn [forallb] in H. apply andb_prop in H as [Hw Hnames].
  destruct (isWord_spec w Hw) as [Hall _].
  destruct names as [|w' names].
  - cbn [Strings.Join]. rewrite <- (append_empty_r w) at 1.
    rewrite (splitLoop_word w "" "" Hall). cbn [Strings.splitLoop].
    change (str_rev_onto w "") with (str_rev w). rewrite str_rev_involutive. reflexivity.
  - change (Strings.Join (w :: w' :: names) " ")
      with (w +:+ String " " (Strings.Join (w' :: names) " ")).
    rewrite (splitLoop_word w _ "" Hall). cbn [Strings.splitLoop].
    rewrite prefix_space_space.
    change (str_rev_onto w "") with (str_rev w). rewrite str_rev_involutive.
    cbn [String.length Nat.sub]. rewrite (IH ltac:(discriminate) Hnames). reflexivity.
Qed.

Lemma Join_snoc (names : list string) (n : string) :
  names <> [] ->
  Strings.Join (names ++ [n]) " " = Strings.Join names " " +:+ " " +:+ n.
Proof.
  induction names as [|w names IH]; [congruence |]. intros _.
  destruct names as [|w' names]; [reflexivity |].
  change (Strings.Join ((w :: w' :: names) ++ [n]) " ")
    with (w +:+ " " +:+ Strings.Join ((w' :: names) ++ [n]) " ").
  rewrite (IH ltac:(discriminate)).
  change (Strings.Join (w :: w' :: names) " ")
    with (w +:+ " " +:+ Strings.Join (w' :: names) " ").
  rewrite !append_assoc. reflexivity.
Qed.

(** Words joined by spaces make a line that ends in a visible
    character. *)
Lemma Join_words (names : list string) :
  names <> [] -> forallb isWord names = true ->
  allChars lineChar (Strings.Join names " ") = true /\
  exists body d, Strings.Join names " " = body +:+ String d "" /\ wordChar d = true.
Proof.
  induction names as [|w names IH]; [congruence |].
  intros _ H. cbn [forallb] in H. apply andb_prop in H as [Hw Hnames].
  destruct (isWord_spec w Hw) as [Hall Hne].
  destruct names as [|w' names].
  - cbn [Strings.Join]. split.
    + exact (allChars_weaken _ _ _ wordChar_lineChar Hall).
    + exact (last_char wordChar w Hne Hall).
  - destruct (IH ltac:(discriminate) Hnames) as (Hline & body & d & Heq & Hd).
    change (Strings.Join (w :: w' :: names) " ")
      with (w +:+ " " +:+ Strings.Join (w' :: names) " ").
    split.
    + rewrite !allChars_append, Hline, (allChars_weaken _ _ _ wordChar_lineChar Hall).
      reflexivity.
    + exists (w +:+ " " +:+ body), d. split; [| exact Hd].
      rewrite Heq, !append_assoc. reflexivity.
Qed.

(** The scan of a file that is the line of the list alone stops at that
    line, with the file read to its end. *)
Lemma scanLines_sole_line (fuel : nat) (names : list string) :
  names <> [] -> forallb isWord names = true ->
  String.length (pref +:+ Strings.Join names " ") < 4096 ->
  scanLines (S fuel) (-2) "" Bufio.NewScanner (rcFile (soleLine names))
  = Done (0%Z, pref +:+ Strings.Join names " ",
          {| Bufio.bufLen := 4096;
             Bufio.start := String.length (pref +:+ Strings.Join names " ") + 1;
             Bufio.pending := "";
             Bufio.token := pref +:+ Strings.Join names " ";
             Bufio.err := None |})
         {| fname := rcConfLocal; fdata := soleLine names;
            foff := String.length (pref +:+ Strings.Join names " ") + 1 |}.
Proof.
  intros Hne Hwords Hlen.
  destruct (Join_words names Hne Hwords) as (Hline & body & d & Hshape & Hd).
  set (line := pref +:+ Strings.Join names " ") in *.
  assert (Hchars : allChars lineChar line = true).
  { unfold line. rewrite allChars_append, Hline. reflexivity. }
  assert (Hend : line = (pref +:+ body) +:+ String d "").
  { unfold line. rewrite Hshape, append_assoc. reflexivity. }
  assert (Hdata : soleLine names = line +:+ nl).
  { unfold soleLine, line. rewrite append_assoc. reflexivity. }
  assert (Hcr : Bufio.dropCR line = line).
  { rewrite Hend. apply dropCR_word_end. exact Hd. }
  assert (Htrim : Strings.TrimSpace line = line).
  { apply (TrimSpace_word_ends "p" d _ (pref +:+ body)); [reflexivity | exact Hd | exact Hend]. }
  cbn [scanLines]. unfold bind, rcFile. rewrite Hdata.
  rewrite (Scan_sole_line rcConfLocal line Hchars Hlen).
  cbn [negb]. unfold Bufio.Text. cbn [Bufio.token]. rewrite Hcr, Htrim.
  assert (Hnonempty : (line =? "")%string = false) by reflexivity.
  rewrite Hnonempty.
  assert (Hindex : Strings.Index line pref = 0%Z).
  { unfold Strings.Index. unfold line.
    destruct (pref +:+ Strings.Join names " ") eqn:Heq; [discriminate Heq |].
    cbn [Strings.indexFrom]. rewrite <- Heq, prefix_append. reflexivity. }
  rewrite Hindex. reflexivity.
Qed.

Lemma soleLine_length (names : list string) :
  String.length (soleLine names) = String.length (pref +:+ Strings.Join names " ") + 1.
Proof.
  unfold soleLine. rewrite <- append_assoc, length_append. reflexivity.
Qed.

Lemma first_word (names : list string) :
  names <> [] -> forallb isWord names = true ->
  Nat.ltb 0 (length names) && negb (String.eqb (hd "" names) "") = true.
Proof.
  destruct names as [|w names]; [congruence |].
  intros _ H. cbn [forallb] in H. apply andb_prop in H as [Hw _].
  destruct (isWord_spec w Hw) as [_ Hne].
  cbn [length hd]. apply String.eqb_neq in Hne. rewrite Hne. reflexivity.
Qed.

Lemma soleLine_cut (names : list string) :
  names <> [] -> forallb isWord names = true ->
  Strings.Split (str_drop (String.length pref) (pref +:+ Strings.Join names " ")) " " = names.
Proof. intros Hne Hwords. rewrite str_drop_append. apply Split_Join; assumption. Qed.

Lemma soleLine_read (names : list string) :
  names <> [] -> forallb isWord names = true ->
  String.length (pref +:+ Strings.Join names " ") < 4096 ->
  pkgScripts (soleLine names) = Some names.
Proof.
  intros Hne Hwords Hlen.
  pose proof (fun fuel => scanLines_sole_line fuel names Hne Hwords Hlen) as Hscan.
  assert (Hfuel : forall k, k + 2 = S (k + 1)) by (intros; lia).
  unfold pkgScripts. rewrite Hfuel, Hscan. cbn [Z.eqb].
  rewrite (soleLine_cut names Hne Hwords). reflexivity.
Qed.

Lemma soleLine_listed (s : openbsdRunComService) (names : list string) :
  names <> [] -> forallb isWord names = true ->
  String.length (pref +:+ Strings.Join names " ") < 4096 ->
  Stringutil.InSlice names (Name (config s)) = true ->
  modifyRCConfLocal s (rcFile (soleLine names))
  = Done None {| fname := rcConfLocal; fdata := soleLine names;
                 foff := String.length (soleLine names) |}.
Proof.
  intros Hne Hwords Hlen Hin.
  pose proof (fun fuel => scanLines_sole_line fuel names Hne Hwords Hlen) as Hscan.
  assert (Hfuel : forall k, k + 2 = S (k + 1)) by (intros; lia).
  unfold modifyRCConfLocal, bind, ret. cbn [fdata rcFile].
  rewrite Hfuel. fold (rcFile (soleLine names)). rewrite Hscan.
  cbn [Bufio.Err Bufio.err Z.eqb].
  rewrite (soleLine_cut names Hne Hwords), Hin, soleLine_length. reflexivity.
Qed.

Lemma soleLine_append (s : openbsdRunComService) (names : list string) :
  names <> [] -> forallb isWord names = true ->
  String.length (pref +:+ Strings.Join names " ") < 4096 ->
  Stringutil.InSlice names (Name (config s)) = false ->
  modifyRCConfLocal s (rcFile (soleLine names))
  = Done None {| fname := rcConfLocal; fdata := soleLine (names ++ [Name (config s)]);
                 foff := String.length (soleLine (names ++ [Name (config s)])) |}.
Proof.
  intros Hne Hwords Hlen Hout.
  pose proof (fun fuel => scanLines_sole_line fuel names Hne Hwords Hlen) as Hscan.
  assert (Hfuel : forall k, k + 2 = S (k + 1)) by (intros; lia).
  unfold modifyRCConfLocal, bind, ret. cbn [fdata rcFile].
  rewrite Hfuel. fold (rcFile (soleLine names)). rewrite Hscan.
  cbn [Bufio.Err Bufio.err Z.eqb].
  rewrite (soleLine_cut names Hne Hwords), Hout, (first_word names Hne Hwords).
  set (line := pref +:+ Strings.Join names " ") in *.
  assert (Hseek : Os.SeekCur (-1) {| fname := rcConfLocal; fdata := soleLine names;
                                     foff := String.length line + 1 |}
                  = (None, {| fname := rcConfLocal; fdata := soleLine names;
                              foff := String.length line |})).
  { unfold Os.SeekCur, Os.withOff. cbn [foff fdata fname].
    replace (Z.of_nat (String.length line + 1) + -1)%Z with (Z.of_nat (String.length line))
      by lia.
    destruct (Z.ltb_spec (Z.of_nat (String.length line)) 0) as [Hneg | _]; [lia |].
    rewrite Nat2Z.id. reflexivity. }
  rewrite Hseek. unfold Os.WriteString, Stringutil.WriteToBuilder.
  cbn [foff fdata fname str_concat]. rewrite !append_nil, !append_empty_r.
  assert (Hdata : soleLine names = line +:+ nl).
  { unfold soleLine, line. rewrite append_assoc. reflexivity. }
  assert (Hnew : soleLine (names ++ [Name (config s)])
                 = line +:+ " " +:+ Name (config s) +:+ nl).
  { unfold soleLine, line. rewrite (Join_snoc names _ Hne), !append_assoc. reflexivity. }
  rewrite Hnew, Hdata, str_take_append.
  rewrite (str_drop_all _ (line +:+ nl)).
  2: { rewrite !length_append. change (String.length nl) with 1.
       change (String.length " ") with 1. lia. }
  replace (String.length line - String.length (line +:+ nl)) with 0
    by (rewrite length_append; lia).
  cbn [str_repeat]. rewrite !append_empty_r, (length_append line). reflexivity.
Qed.

(** Where the startup-configuration file is the line of the startup list
    alone, ended by a line feed and shorter than the buffer of the
    scanner, the list is read as it is written; a name that is listed
    leaves the file as it is, and a name that is not is appended to the
    line, after a space, the names before it kept in their order. *)
Theorem modifyRCConfLocal_sole_line (s : openbsdRunComService) (names : list string) :
  names <> [] -> forallb isWord names = true ->
  String.length (pref +:+ Strings.Join names " ") < 4096 ->
  pkgScripts (soleLine names) = Some names /\
  (Stringutil.InSlice names (Name (config s)) = true ->
   modifyRCConfLocal s (rcFile (soleLine names))
   = Done None {| fname := rcConfLocal; fdata := soleLine names;
                  foff := String.length (soleLine names) |}) /\
  (Stringutil.InSlice names (Name (config s)) = false ->
   modifyRCConfLocal s (rcFile (soleLine names))
   = Done None {| fname := rcConfLocal; fdata := soleLine (names ++ [Name (config s)]);
                  foff := String.length (soleLine (names ++ [Name (config s)])) |}).
Proof.
  intros Hne Hwords Hlen. repeat apply conj.
  - exact (soleLine_read names Hne Hwords Hlen).
  - exact (soleLine_listed s names Hne Hwords Hlen).
  - exact (soleLine_append s names Hne Hwords Hlen).
Qed.

Lemma modifyRCConfLocal_sole_line_witness :
  pkgScripts ("pkg_scripts=a b" +:+ nl) = Some ["a"; "b"] /\
  modifyRCConfLocal (serviceNamed "c") (rcFile ("pkg_scripts=a b" +:+ nl))
  = Done None {| fname := rcConfLocal; fdata := "pkg_scripts=a b c" +:+ nl; foff := 18 |}.
Proof.
  assert (Hne : ["a"; "b"] <> @nil string) by discriminate.
  assert (Hwords : forallb isWord ["a"; "b"] = true) by reflexivity.
  assert (Hlen : String.length (pref +:+ Strings.Join ["a"; "b"] " ") < 4096)
    by (vm_compute; lia).
  destruct (modifyRCConfLocal_sole_line (serviceNamed "c") ["a"; "b"] Hne Hwords Hlen)
    as (Hread & _ & Hadd).
  split; [exact Hread | exact (Hadd eq_refl)].
Defined.

Lemma InSlice_In (strs : list string) (str : string) :
  Stringutil.InSlice strs str = true <-> In str strs.
Proof.
  induction strs as [|x strs IH]; cbn [Stringutil.InSlice In]; [split; [discriminate | tauto] |].
  destruct (String.eqb_spec x str) as [-> | Hne].
  - split; [left; reflexivity | reflexivity].
  - rewrite IH. split; [right; assumption | intros [Heq | Hin]; [congruence | assumption]].
Qed.

Lemma InSlice_last (strs : list string) (str : string) :
  Stringutil.InSlice (strs ++ [str])%list str = true.
Proof. apply InSlice_In, in_or_app. right. left. reflexivity. Qed.

Lemma count_new (strs : list string) (str : string) :
  Stringutil.InSlice strs str = false ->
  count_occ string_dec (strs ++ [str])%list str = 1.
Proof.
  intros Hout. rewrite count_occ_app.
  assert (Hnot : ~ In str strs).
  { intros Hin. apply InSlice_In in Hin. congruence. }
  apply (count_occ_not_In string_dec) in Hnot. rewrite Hnot.
  cbn [count_occ]. destruct (string_dec str str); [reflexivity | congruence].
Qed.

(** On such a file, registering a word twice leaves it once in the list:
    the first run appends it, the second finds it and writes nothing. *)
Theorem modifyRCConfLocal_sole_line_twice (s : openbsdRunComService) (names : list string) :
  let n := Name (config s) in
  names <> [] -> forallb isWord names = true -> isWord n = true ->
  Stringutil.InSlice names n = false ->
  String.length (pref +:+ Strings.Join (names ++ [n])%list " ") < 4096 ->
  let once := dataOf (modifyRCConfLocal s (rcFile (soleLine names))) in
  once = soleLine (names ++ [n])%list /\
  modifyRCConfLocal s (rcFile once)
    = Done None {| fname := rcConfLocal; fdata := once; foff := String.length once |} /\
  pkgScripts once = Some (names ++ [n])%list /\
  count_occ string_dec (names ++ [n])%list n = 1.
Proof.
  intros n Hne Hwords Hn Hout Hlen once.
  assert (Hshort : String.length (pref +:+ Strings.Join names " ") < 4096).
  { rewrite (Join_snoc names n Hne), <- append_assoc, length_append in Hlen. lia. }
  assert (Hne' : (names ++ [n])%list <> []).
  { intros Heq. apply app_eq_nil in Heq as [_ Heq]. discriminate Heq. }
  assert (Hwords' : forallb isWord (names ++ [n])%list = true).
  { rewrite forallb_app, Hwords. cbn [forallb]. rewrite Hn. reflexivity. }
  pose proof (soleLine_append s names Hne Hwords Hshort) as Hadd.
  pose proof (soleLine_read (names ++ [n])%list Hne' Hwords' Hlen) as Hread.
  pose proof (soleLine_listed s (names ++ [n])%list Hne' Hwords' Hlen) as Hkeep.
  assert (Honce : once = soleLine (names ++ [n])%list).
  { unfold once, dataOf. rewrite (Hadd Hout). reflexivity. }
  rewrite Honce. repeat apply conj.
  - reflexivity.
  - apply Hkeep. apply InSlice_last.
  - exact Hread.
  - apply count_new. exact Hout.
Qed.

Lemma modifyRCConfLocal_sole_line_twice_witness :
  modifyRCConfLocal (serviceNamed "c") (rcFile ("pkg_scripts=a b c" +:+ nl))
  = Done None {| fname := rcConfLocal; fdata := "pkg_scripts=a b c" +:+ nl; foff := 18 |}.
Proof.
  assert (Hne : ["a"; "b"] <> @nil string) by discriminate.
  assert (Hlen : String.length (pref +:+ Strings.Join (["a"; "b"] ++ ["c"])%list " ") < 4096)
    by (vm_compute; lia).
  destruct (modifyRCConfLocal_sole_line_twice (serviceNamed "c") ["a"; "b"]
              Hne eq_refl eq_refl eq_refl Hlen) as (_ & Hsecond & _).
  exact Hsecond.
Defined.

(** The same from an empty file: the first run writes the line of the
    list with the word alone, the second finds it there and writes
    nothing. *)
Theorem modifyRCConfLocal_bootstrap_twice (s : openbsdRunComService) :
  let n := Name (config s) in
  isWord n = true -> String.length (pref +:+ n) < 4096 ->
  let once := dataOf (modifyRCConfLocal s (rcFile "")) in
  once = pref +:+ n +:+ nl /\
  modifyRCConfLocal s (rcFile once)
    = Done None {| fname := rcConfLocal; fdata := once; foff := String.length once |} /\
  pkgScripts once = Some [n].
Proof.
  intros n Hn Hlen once.
  assert (Honce : once = soleLine [n]).
  { unfold once, dataOf, rcFile. rewrite modifyRCConfLocal_empty_file. reflexivity. }
  assert (Hwords : forallb isWord [n] = true) by (cbn [forallb]; rewrite Hn; reflexivity).
  pose proof (soleLine_read [n] ltac:(discriminate) Hwords Hlen) as Hread.
  pose proof (soleLine_listed s [n] ltac:(discriminate) Hwords Hlen) as Hkeep.
  rewrite Honce. repeat apply conj.
  - reflexivity.
  - apply Hkeep. cbn [Stringutil.InSlice]. fold n. rewrite String.eqb_refl. reflexivity.
  - exact Hread.
Qed.

Lemma modifyRCConfLocal_bootstrap_twice_witness :
  pkgScripts (dataOf (modifyRCConfLocal (serviceNamed "AdGuardHome") (rcFile "")))
  = Some ["AdGuardHome"].
Proof.
  assert (Hlen : String.length (pref +:+ "AdGuardHome") < 4096) by (vm_compute; lia).
  destruct (modifyRCConfLocal_bootstrap_twice (serviceNamed "AdGuardHome") eq_refl Hlen)
    as (_ & _ & Hread).
  exact Hread.
Defined.

(** ** The editor on every file *)

Lemma Read_offset (n : nat) (f f' : File) (got : string) (e : option error) :
  Os.Read n f = (got, e, f') ->
  foff f' = foff f + String.length got /\ fname f' = fname f.
Proof.
  unfold Os.Read.
  destruct (str_drop (foff f) (fdata f)) as [|c rest].
  - intros [= <- <- <-]. cbn [String.length]. split; [lia | reflexivity].
  - intros [= <- <- <-]. split; reflexivity.
Qed.

Lemma err_setErr_fresh (e : error) (s : Bufio.Scanner) :
  Bufio.err s = None -> Bufio.err (Bufio.setErr e s) = Some e.
Proof. intros H. unfold Bufio.setErr. rewrite H. reflexivity. Qed.

(** A call of [Scan] that starts in order leaves the file as it is; when
    it hands out a line, things are in order still, and when it does not,
    the end of the file was met with nothing left unread, or a line was too
    long. *)
Lemma scanLoop_outcome (fuel : nat) (s s' : Bufio.Scanner) (f f' : File) (b : bool) :
  scanOk s f ->
  Bufio.scanLoop fuel s f = Done (b, s') f' ->
  fdata f' = fdata f /\ fname f' = fname f /\
  (b = true -> scanOk s' f') /\
  (b = false ->
     (Bufio.err s' = Some Bufio.EOF /\ foff f' = String.length (fdata f')) \/
     Bufio.err s' = Some Bufio.ErrTooLong).
Proof.
  revert s f. induction fuel as [|fuel IH]; intros s f (Hok & Herr & Hend & Hoff);
    [discriminate |].
  cbn [Bufio.scanLoop].
  destruct (Bufio.trySplit s) as [s1 found] eqn:Hsplit.
  apply trySplit_spec in Hsplit as (Herr1 & Hok1 & _ & Hnone).
  specialize (Hok1 Hok).
  destruct found.
  { intros [= <- <- <-]. repeat apply conj; try reflexivity; try discriminate.
    intros _. unfold scanOk. rewrite Herr1. repeat apply conj; assumption. }
  destruct (Bufio.hasErr s1) eqn:Hherr.
  { intros [= <- <- <-]. repeat apply conj; try reflexivity; try discriminate.
    intros _. left. unfold Bufio.withBuf. cbn [Bufio.err]. rewrite Herr1.
    unfold Bufio.hasErr in Hherr. rewrite Herr1 in Hherr.
    destruct Herr as [Hnoerr | Heof]; [rewrite Hnoerr in Hherr; discriminate |].
    split; [exact Heof |]. specialize (Hend Heof). unfold remaining in Hend. lia. }
  assert (Hnoerr : Bufio.err s1 = None).
  { unfold Bufio.hasErr in Hherr. destruct (Bufio.err s1); [discriminate | reflexivity]. }
  destruct (shift_spec s1) as (Herr2 & Hpend2 & Hok2). specialize (Hok2 Hok1).
  set (s2 := Bufio.shift s1) in *.
  destruct (Bufio.full s2 && Nat.leb Bufio.MaxScanTokenSize (Bufio.bufLen s2)) eqn:Hroom.
  { intros [= <- <- <-]. repeat apply conj; try reflexivity; try discriminate.
    intros _. right. apply err_setErr_fresh. congruence. }
  destruct (room_to_read s2 Hok2 Hroom) as (Herr3 & Hpend3 & Hspace).
  set (s3 := if Bufio.full s2 then Bufio.grow s2 else s2) in *.
  destruct (Os.Read (Bufio.bufLen s3 - Bufio.bufEnd s3) f) as [[got e] f1] eqn:Hread.
  destruct (fill_spec s3 got e) as (Hpend4 & Hlen4 & Hstart4 & Hherr4 & Herr4).
  destruct (Read_offset _ _ _ _ _ Hread) as [Hoff1 Hname1].
  apply Read_spec in Hread; [| lia].
  intros Hrun.
  assert (Hnext : scanOk (Bufio.fill s3 got e) f1 /\ fdata f1 = fdata f).
  { destruct Hread as [(Hrem & -> & -> & ->) | (Hgot & -> & Hrem & Hdata)].
    - split; [| reflexivity]. unfold scanOk, bufOk, Bufio.bufEnd, Bufio.fill.
      cbv zeta. rewrite err_setErr_fresh by (cbn [Bufio.withBuf Bufio.err]; congruence).
      destruct (buffer_setErr Bufio.EOF
                  (Bufio.withBuf s3 (Bufio.bufLen s3) (Bufio.start s3)
                     (Bufio.pending s3 +:+ ""))) as (-> & -> & ->).
      cbn [Bufio.withBuf Bufio.bufLen Bufio.start Bufio.pending].
      rewrite append_empty_r. unfold Bufio.bufEnd in Hspace.
      repeat apply conj; try assumption; try lia;
        try (right; reflexivity); try (intros _; exact Hrem).
    - split; [| exact Hdata]. unfold scanOk, bufOk, Bufio.bufEnd.
      rewrite Hpend4, Hlen4, Hstart4, (Herr4 eq_refl), Herr3, Herr2, Hnoerr, length_append.
      unfold Bufio.bufEnd in Hspace, Hgot. unfold remaining in Hrem. rewrite Hdata in *.
      repeat apply conj; try lia; try (left; reflexivity); try discriminate. }
  destruct Hnext as [Hnext Hdata1].
  destruct (IH _ _ Hnext Hrun) as (Hdata' & Hname' & Htrue & Hfalse).
  repeat apply conj; try congruence; assumption.
Qed.

(** The scanning loop of [modifyRCConfLocal], started in order with an
    index that is not zero, leaves the file as it is.  It ends with index
    zero at the line of the list and no error of the scanner; or with
    another index, the file read to its end, or a line too long. *)
Lemma scanLines_outcome (fuel : nat) (prefIdx idx : Z) (ln ln' : string)
    (scn scn' : Bufio.Scanner) (f f' : File) :
  scanOk scn f -> prefIdx <> 0%Z ->
  scanLines fuel prefIdx ln scn f = Done (idx, ln', scn') f' ->
  fdata f' = fdata f /\ fname f' = fname f /\
  ((idx = 0%Z /\ Bufio.Err scn' = None) \/
   (idx <> 0%Z /\
    ((Bufio.Err scn' = None /\ foff f' = String.length (fdata f')) \/
     Bufio.Err scn' = Some Bufio.ErrTooLong))).
Proof.
  revert prefIdx ln scn f.
  induction fuel as [|fuel IH]; intros prefIdx ln scn f Hok Hidx; [discriminate |].
  cbn [scanLines]. unfold bind, Bufio.Scan.
  destruct (Bufio.scanLoop _ scn f) as [[b scn1] f1 | msg f1 | f1] eqn:Hscan;
    try discriminate.
  destruct (scanLoop_outcome _ _ _ _ _ _ Hok Hscan) as (Hdata & Hname & Htrue & Hfalse).
  destruct b; cbn [negb].
  - specialize (Htrue eq_refl).
    destruct (String.eqb (Strings.TrimSpace (Bufio.Text scn1)) "").
    + intros Hrun. destruct (IH _ _ _ _ Htrue Hidx Hrun) as (Hd & Hn & Hcases).
      repeat apply conj; solve [congruence | exact Hcases].
    + destruct (Strings.Index (Strings.TrimSpace (Bufio.Text scn1)) pref =? 0)%Z eqn:Hzero.
      * unfold ret. intros [= <- <- <- <-]. apply Z.eqb_eq in Hzero.
        repeat apply conj; try assumption. left. split; [exact Hzero |].
        destruct Htrue as (_ & [Hnone | Heof] & _); unfold Bufio.Err;
          [rewrite Hnone | rewrite Heof]; reflexivity.
      * apply Z.eqb_neq in Hzero. intros Hrun.
        destruct (IH _ _ _ _ Htrue Hzero Hrun) as (Hd & Hn & Hcases).
        repeat apply conj; solve [congruence | exact Hcases].
  - unfold ret. intros [= <- <- <- <-].
    repeat apply conj; try assumption. right. split; [exact Hidx |].
    destruct (Hfalse eq_refl) as [[Heof Hoff] | Hlong]; unfold Bufio.Err.
    + left. rewrite Heof. split; [reflexivity | exact Hoff].
    + right. rewrite Hlong. reflexivity.
Qed.

Lemma scanOk_fresh (data : string) : scanOk Bufio.NewScanner (rcFile data).
Proof.
  unfold scanOk, bufOk, Bufio.bufEnd. cbn.
  repeat apply conj; try lia; try discriminate. left. reflexivity.
Qed.

(** The scan of the editor, on a file opened at its beginning. *)
Lemma scan_of_file (data : string) :
  exists idx ln scn f',
    scanLines (String.length data + 2) (-2) "" Bufio.NewScanner (rcFile data)
      = Done (idx, ln, scn) f' /\
    fdata f' = data /\ fname f' = rcConfLocal /\
    ((idx = 0%Z /\ Bufio.Err scn = None) \/
     (idx <> 0%Z /\
      ((Bufio.Err scn = None /\ foff f' = String.length data) \/
       Bufio.Err scn = Some Bufio.ErrTooLong))).
Proof.
  destruct (scanLines_returns (String.length data + 2) (-2) "" Bufio.NewScanner (rcFile data))
    as ([[idx ln] scn] & f' & Hrun & _).
  - unfold bufOk, Bufio.bufEnd. cbn. lia.
  - unfold remaining. cbn [Bufio.NewScanner Bufio.pending String.length rcFile fdata foff]. lia.
  - assert (Hidx : (-2)%Z <> 0%Z) by discriminate.
    destruct (scanLines_outcome _ _ _ _ _ _ _ _ _ (scanOk_fresh data) Hidx Hrun)
      as (Hdata & Hname & Hcases).
    exists idx, ln, scn, f'. rewrite Hdata in Hcases. repeat apply conj; assumption.
Qed.

Lemma WriteString_at_end (b : string) (f : File) :
  foff f = String.length (fdata f) ->
  Os.WriteString b f
  = (None, {| fname := fname f; fdata := fdata f +:+ b;
              foff := String.length (fdata f) + String.length b |}).
Proof.
  intros Hoff. unfold Os.WriteString. rewrite Hoff, Nat.sub_diag.
  rewrite (str_take_all _ _ (Nat.le_refl _)), str_drop_all by lia.
  cbn [str_repeat]. rewrite !append_empty_r. reflexivity.
Qed.

Lemma WriteString_length (b : string) (f : File) :
  String.length (fdata f) <= String.length (fdata (snd (Os.WriteString b f))).
Proof.
  unfold Os.WriteString. cbn [snd fdata].
  rewrite !length_append, length_str_take, length_str_drop.
  assert (Hzeros : forall c n, String.length (str_repeat c n) = n).
  { intros c n. induction n as [|n IH]; [reflexivity |]. cbn [str_repeat String.length].
    rewrite IH. reflexivity. }
  rewrite Hzeros. lia.
Qed.

(** Whatever the file, a name that the recognised line lists already makes
    [modifyRCConfLocal] return without error and without writing. *)
Theorem modifyRCConfLocal_no_write_when_listed (s : openbsdRunComService) (data : string)
    (svcs : list string) :
  pkgScripts data = Some svcs ->
  Stringutil.InSlice svcs (Name (config s)) = true ->
  exists off,
    modifyRCConfLocal s (rcFile data)
    = Done None {| fname := rcConfLocal; fdata := data; foff := off |}.
Proof.
  intros Hlist Hin.
  destruct (scan_of_file data) as (idx & ln & scn & f' & Hrun & Hdata & Hname & Hcases).
  unfold pkgScripts in Hlist. rewrite Hrun in Hlist.
  destruct (idx =? 0)%Z eqn:Hzero; [| discriminate].
  assert (Hsvcs : Strings.Split (str_drop (String.length pref) ln) " " = svcs) by congruence.
  apply Z.eqb_eq in Hzero.
  destruct Hcases as [[_ Herr] | [Hnz _]]; [| congruence].
  unfold modifyRCConfLocal, bind, ret. cbn [rcFile fdata]. fold (rcFile data).
  rewrite Hrun, Herr, Hzero. cbn [Z.eqb]. rewrite Hsvcs, Hin.
  destruct f' as [name' data' off']. cbn [fdata fname] in Hdata, Hname. subst.
  exists off'. reflexivity.
Qed.

Lemma modifyRCConfLocal_no_write_when_listed_witness :
  exists off,
    modifyRCConfLocal (serviceNamed "b") (rcFile ("# daemons" +:+ nl +:+ twoNamesThenFlags))
    = Done None {| fname := rcConfLocal; fdata := "# daemons" +:+ nl +:+ twoNamesThenFlags;
                   foff := off |}.
Proof.
  apply (modifyRCConfLocal_no_write_when_listed (serviceNamed "b")
           ("# daemons" +:+ nl +:+ twoNamesThenFlags) ["a"; "b"]).
  - vm_compute. reflexivity.
  - reflexivity.
Defined.

(** How [modifyRCConfLocal] ends: with the file as it was, or without
    error after one write to it. *)
Lemma modifyRCConfLocal_result (s : openbsdRunComService) (data : string) :
  exists err f',
    modifyRCConfLocal s (rcFile data) = Done err f' /\
    ((fdata f' = data /\ fname f' = rcConfLocal) \/
     (err = None /\
      exists b f1, fdata f1 = data /\ fname f1 = rcConfLocal /\
                   f' = snd (Os.WriteString b f1))).
Proof.
  destruct (scan_of_file data) as (idx & ln & scn & f' & Hrun & Hdata & Hname & _).
  unfold modifyRCConfLocal, bind, ret. cbn [rcFile fdata]. fold (rcFile data).
  rewrite Hrun.
  assert (Hfinish : forall b f1, fdata f1 = data -> fname f1 = rcConfLocal ->
            exists err f2,
              (let '(err, file) := Os.WriteString
                                      (Stringutil.WriteToBuilder b [Name (config s); nl]) f1 in
               Done err file) = Done err f2 /\
              ((fdata f2 = data /\ fname f2 = rcConfLocal) \/
               (err = None /\
                exists b' f1', fdata f1' = data /\ fname f1' = rcConfLocal /\
                               f2 = snd (Os.WriteString b' f1')))).
  { intros b f1 Hd Hn. eexists _, _. split; [reflexivity |]. right.
    split; [reflexivity |]. eexists _, f1. repeat apply conj; try assumption. reflexivity. }
  destruct (Bufio.Err scn).
  { eexists _, f'. split; [reflexivity |]. left. split; assumption. }
  destruct (idx =? -2)%Z; [apply Hfinish; assumption |].
  destruct (idx =? 0)%Z; [| apply Hfinish; assumption].
  destruct (Stringutil.InSlice _ _).
  { eexists _, f'. split; [reflexivity |]. left. split; assumption. }
  unfold Os.SeekCur.
  destruct (Z.of_nat (foff f') + -1 <? 0)%Z.
  - eexists _, f'. split; [reflexivity |]. left. split; assumption.
  - apply Hfinish; assumption.
Qed.

(** ** What installing and uninstalling touch *)

Lemma setNode_other (p q : string) (n : Node) (w : World) :
  q <> p -> fs (setNode p n w) !! q = fs w !! q.
Proof. intros Hne. unfold setNode. cbn [fs]. apply lookup_insert_ne. congruence. Qed.

Lemma store_other (f : File) (q : string) (w : World) :
  q <> fname f -> fs (Os.store f w) !! q = fs w !! q.
Proof.
  intros Hne. unfold Os.store.
  destruct (fs w !! fname f) as [[data mode |] |]; try reflexivity.
  apply setNode_other. exact Hne.
Qed.

Lemma modifyRCConfLocal_name (s : openbsdRunComService) (data : string) :
  fname (stateOf (modifyRCConfLocal s (rcFile data))) = rcConfLocal.
Proof.
  destruct (modifyRCConfLocal_result s data)
    as (err & f' & -> & [[_ Hname] | (_ & b & f1 & _ & Hname & ->)]); exact Hname.
Qed.

Lemma configureSysStartup_other (env : Env) (s : openbsdRunComService) (w : World) :
  exists err w',
    configureSysStartup env s w = Done err w' /\
    forall q, q <> rcConfLocal -> fs w' !! q = fs w !! q.
Proof.
  unfold configureSysStartup, bind, ret, Os.OpenFile, Os.onFile, Os.Close. cbv zeta.
  destruct (envFault env SysOpenFile rcConfLocal).
  { eexists _, _. split; [reflexivity |]. intros q _. reflexivity. }
  set (w0 := logEvent (EvOpenFile rcConfLocal) w).
  destruct (fs w0 !! rcConfLocal) as [[data mode |] |];
    cbn [Os.openAt Os.FileStat infoIsDir].
  - pose proof (modifyRCConfLocal_name s data) as Hname. unfold rcFile in Hname.
    destruct (modifyRCConfLocal_returns s {| fname := rcConfLocal; fdata := data; foff := 0 |})
      as (err & f' & Hrun).
    rewrite Hrun in Hname |- *. cbn [stateOf] in Hname.
    eexists _, _. split; [reflexivity |].
    intros q Hq. rewrite store_other by congruence. reflexivity.
  - eexists _, _. split; [reflexivity |]. intros q _. reflexivity.
  - pose proof (modifyRCConfLocal_name s "") as Hname. unfold rcFile in Hname.
    destruct (modifyRCConfLocal_returns s {| fname := rcConfLocal; fdata := ""; foff := 0 |})
      as (err & f' & Hrun).
    rewrite Hrun in Hname |- *. cbn [stateOf] in Hname.
    eexists _, _. split; [reflexivity |].
    intros q Hq. rewrite store_other by congruence.
    rewrite setNode_other by exact Hq. reflexivity.
Qed.

(** Registering in the startup list returns, and changes no file but
    [/etc/rc.conf.local].  When that file cannot be opened, or is a
    directory, the error of [os.OpenFile] is returned and nothing is
    changed at all. *)
Theorem configureSysStartup_touches_only_rc_conf (env : Env) (s : openbsdRunComService)
    (w : World) :
  (exists err w',
     configureSysStartup env s w = Done err w' /\
     forall q, q <> rcConfLocal -> fs w' !! q = fs w !! q) /\
  (forall e, envFault env SysOpenFile rcConfLocal = Some e ->
     configureSysStartup env s w
     = Done (Os.pathError "open" rcConfLocal e) (logEvent (EvOpenFile rcConfLocal) w)) /\
  (envFault env SysOpenFile rcConfLocal = None -> fs w !! rcConfLocal = Some NDir ->
     configureSysStartup env s w
     = Done (Os.pathError "open" rcConfLocal EISDIR) (logEvent (EvOpenFile rcConfLocal) w)).
Proof.
  repeat apply conj.
  - apply configureSysStartup_other.
  - intros e Hfault. unfold configureSysStartup, bind, ret, Os.OpenFile. cbv zeta.
    rewrite Hfault. reflexivity.
  - intros Hfault Hdir. unfold configureSysStartup, bind, ret, Os.OpenFile. cbv zeta.
    rewrite Hfault. cbn [logEvent fs]. rewrite Hdir. reflexivity.
Qed.

Lemma configureSysStartup_touches_only_rc_conf_witness :
  configureSysStartup quietEnv (serviceNamed "AdGuardHome")
    {| fs := {[ rcConfLocal := NDir ]}; trace := [] |}
  = Done (Some (ErrPath "open" "/etc/rc.conf.local" (ErrErrno EISDIR)))
         {| fs := {[ rcConfLocal := NDir ]}; trace := [EvOpenFile rcConfLocal] |}.
Proof.
  destruct (configureSysStartup_touches_only_rc_conf quietEnv (serviceNamed "AdGuardHome")
              {| fs := {[ rcConfLocal := NDir ]}; trace := [] |}) as (_ & _ & Hdir).
  apply Hdir; reflexivity.
Defined.

Lemma WriteString_fresh (written path : string) :
  Os.WriteString written {| fname := path; fdata := ""; foff := 0 |}
  = (None, {| fname := path; fdata := written; foff := String.length written |}).
Proof.
  rewrite WriteString_at_end by reflexivity. cbn [fname fdata String.length Nat.add].
  rewrite append_nil. reflexivity.
Qed.

(** Where no script is at the path and the system calls on it succeed,
    [writeScript] leaves there the text the template gave, with mode 0755,
    changes no other file, and has called [os.Stat], [os.Create] and
    [os.Chmod] on the path, in that order. *)
Lemma writeScript_writes (env : Env) (s : openbsdRunComService) (w : World)
    (p path written : string) :
  scriptPath s = (p, None) ->
  fs w !! p = None ->
  envFault env SysStat p = None -> envFault env SysCreate p = None ->
  envFault env SysChmod p = None ->
  execPath env s = (path, None) ->
  template env s (scriptData s path) = Executes written None ->
  exists w',
    writeScript env s w = Done None w' /\
    fs w' = <[p := NFile written 493]> (fs w) /\
    trace w' = (trace w ++ [EvStat p; EvCreate p; EvChmod p 493])%list.
Proof.
  intros Hpath Habsent Hstat Hcreate Hchmod Hexec Htmpl.
  unfold writeScript, bind, ret. rewrite Hpath. cbv beta iota.
  unfold Os.Stat. cbv zeta. rewrite Hstat. cbn [logEvent fs]. rewrite Habsent.
  cbn [Os.pathError Errors.Is Errors.IsErr error_eqb Os.ErrNotExist Errors.Errno_Is
       Errno_eqb orb negb].
  rewrite Hexec. cbv beta iota.
  change {| tdConfig := config s; tdPath := path;
            tdSvcInfo := getString (Option (config s)) "SvcInfo" (String_ s) |}
    with (scriptData s path).
  rewrite Htmpl.
  unfold Os.Create. cbv zeta. rewrite Hcreate. cbn [logEvent fs]. rewrite Habsent.
  cbn [Os.openAt]. unfold Os.onFile. rewrite WriteString_fresh. cbn [snd].
  unfold Os.store, setNode. cbn [fname fdata fs]. rewrite lookup_insert_eq.
  unfold Os.Close, ret, Os.Chmod. cbv zeta. rewrite Hchmod. cbn [logEvent fs trace].
  rewrite lookup_insert_eq. unfold setNode. cbn [fs trace Errors.Annotate].
  eexists. split; [reflexivity |]. unfold logEvent. cbn [fs trace].
  rewrite !insert_insert_eq, <- !app_assoc. split; reflexivity.
Qed.


(** A script text that does not parse makes [Install] panic, once the
    existence check has passed and before the script is created: the file
    system is as it was. *)
Theorem Install_panics_on_unparsed_template (env : Env) (s : openbsdRunComService)
    (w w1 : World) (p path msg : string) (err : option error) :
  scriptPath s = (p, None) ->
  Os.Stat env p w = Done err w1 ->
  Errors.Is err Os.ErrNotExist = true ->
  execPath env s = (path, None) ->
  template env s (scriptData s path) = ParseFails msg ->
  Install env s w = Panic msg w1 /\ fs w1 = fs w /\
  trace w1 = (trace w ++ [EvStat p])%list.
Proof.
  intros Hpath Hstat Hnot Hexec Htmpl.
  destruct (Stat_returns env p w) as [err' Hstat'].
  assert (Hw1 : w1 = logEvent (EvStat p) w).
  { rewrite Hstat in Hstat'. apply (f_equal stateOf) in Hstat'. exact Hstat'. }
  split; [| rewrite Hw1; split; reflexivity].
  unfold Install, deferAnnotate, writeScript, bind, ret. rewrite Hpath. cbv beta iota.
  rewrite Hstat, Hnot, Hexec. cbv beta iota. cbn [negb].
  change {| tdConfig := config s; tdPath := path;
            tdSvcInfo := getString (Option (config s)) "SvcInfo" (String_ s) |}
    with (scriptData s path).
  rewrite Htmpl. reflexivity.
Qed.

Lemma Install_panics_on_unparsed_template_witness :
  Install quietEnv (serviceWith "AdGuardHome" [] {[ optionRunComScript := VString "{{ .Nope" ]})
    emptyWorld
  = Panic "template: unexpected action" (logEvent (EvStat "/etc/rc.d/AdGuardHome") emptyWorld).
Proof.
  apply (Install_panics_on_unparsed_template quietEnv
           (serviceWith "AdGuardHome" [] {[ optionRunComScript := VString "{{ .Nope" ]})
           emptyWorld (logEvent (EvStat "/etc/rc.d/AdGuardHome") emptyWorld)
           "/etc/rc.d/AdGuardHome" "/usr/local/bin/AdGuardHome" "template: unexpected action"
           (Os.pathError "stat" "/etc/rc.d/AdGuardHome" ENOENT)); reflexivity.
Defined.

(** [Install] is not atomic: when the script was written and the
    startup-configuration file cannot be opened, [Install] returns the
    error of [os.OpenFile] under its annotation and the script stays where
    it was written. *)
Theorem Install_leaves_script_when_registration_fails (env : Env) (s : openbsdRunComService)
    (w w1 : World) (p : string) (e : Errno) :
  scriptPath s = (p, None) ->
  writeScript env s w = Done None w1 ->
  envFault env SysOpenFile rcConfLocal = Some e ->
  Install env s w
  = Done (annotate s "installing" (Os.pathError "open" rcConfLocal e))
         (logEvent (EvOpenFile rcConfLocal) w1) /\
  is_Some (fs (logEvent (EvOpenFile rcConfLocal) w1) !! p).
Proof.
  intros Hpath Hwrite Hfault. split.
  - unfold Install, deferAnnotate, bind, ret. rewrite Hwrite.
    unfold configureSysStartup, bind, ret, Os.OpenFile. cbv zeta.
    rewrite Hfault. reflexivity.
  - exact (writeScript_creates env s p w w1 Hpath Hwrite).
Qed.

Lemma Install_leaves_script_when_registration_fails_witness :
  exists w1,
    Install noRcConfEnv (serviceNamed "AdGuardHome") emptyWorld
    = Done (Some (ErrWrap "installing openbsd-runcom AdGuardHome service: "
                    (ErrPath "open" "/etc/rc.conf.local" (ErrErrno EACCES))))
           (logEvent (EvOpenFile rcConfLocal) w1) /\
    is_Some (fs (logEvent (EvOpenFile rcConfLocal) w1) !! "/etc/rc.d/AdGuardHome").
Proof.
  pose (w1 := stateOf (writeScript noRcConfEnv (serviceNamed "AdGuardHome") emptyWorld)).
  assert (Hwrite : writeScript noRcConfEnv (serviceNamed "AdGuardHome") emptyWorld = Done None w1)
    by (vm_compute; reflexivity).
  exists w1.
  exact (Install_leaves_script_when_registration_fails noRcConfEnv (serviceNamed "AdGuardHome")
           emptyWorld w1 "/etc/rc.d/AdGuardHome" EACCES eq_refl Hwrite eq_refl).
Defined.

Lemma Create_spec (env : Env) (p : string) (w : World) :
  exists fo err w1,
    Os.Create env p w = Done (fo, err) w1 /\
    (forall q, q <> p -> fs w1 !! q = fs w !! q) /\
    match fo, err with
    | Some f, None => fname f = p
    | None, Some _ => True
    | _, _ => False
    end.
Proof.
  unfold Os.Create. cbv zeta.
  destruct (envFault env SysCreate p).
  { eexists _, _, _. split; [reflexivity |]. split; [intros q _; reflexivity | exact I]. }
  destruct (fs (logEvent (EvCreate p) w) !! p) as [[data mode |] |].
  - eexists _, _, _. split; [reflexivity |]. split; [| reflexivity].
    intros q Hq. rewrite setNode_other by exact Hq. reflexivity.
  - eexists _, _, _. split; [reflexivity |]. split; [intros q _; reflexivity | exact I].
  - eexists _, _, _. split; [reflexivity |]. split; [| reflexivity].
    intros q Hq. rewrite setNode_other by exact Hq. reflexivity.
Qed.

Lemma Chmod_other (env : Env) (p q : string) (mode : Z) (w : World) :
  q <> p -> fs (stateOf (Os.Chmod env p mode w)) !! q = fs w !! q.
Proof.
  intros Hne. unfold Os.Chmod. cbv zeta.
  destruct (envFault env SysChmod p); [reflexivity |].
  destruct (fs (logEvent (EvChmod p mode) w) !! p) as [[data m |] |]; cbn [stateOf];
    try reflexivity; rewrite setNode_other by exact Hne; reflexivity.
Qed.

(** However [writeScript] ends, it has changed no file but the script. *)
Lemma writeScript_other (env : Env) (s : openbsdRunComService) (w : World) (q : string) :
  q <> fst (scriptPath s) ->
  fs (stateOf (writeScript env s w)) !! q = fs w !! q.
Proof.
  unfold writeScript, bind, ret.
  destruct (scriptPath s) as [p [e |]]; cbn [fst]; [reflexivity |]. intros Hne.
  destruct (Stat_returns env p w) as [serr ->].
  destruct (negb (Errors.Is serr Os.ErrNotExist)); [reflexivity |].
  destruct (execPath env s) as [path [e |]]; [reflexivity |].
  destruct (template env s _) as [msg | written xerr]; [reflexivity |].
  destruct (Create_spec env p (logEvent (EvStat p) w)) as (fo & cerr & w1 & -> & Hcreate & Hfile).
  specialize (Hcreate q Hne). cbn [logEvent fs] in Hcreate.
  destruct fo as [f |], cerr as [e |]; try contradiction; cbn [stateOf]; try exact Hcreate.
  unfold Os.onFile, Os.Close, ret.
  set (w2 := Os.store _ w1).
  assert (H2 : fs w2 !! q = fs w !! q).
  { unfold w2. rewrite store_other; [exact Hcreate |].
    unfold Os.WriteString. cbn [snd fname]. congruence. }
  destruct xerr as [e |]; cbn [stateOf]; [exact H2 |].
  pose proof (Chmod_other env p q 493 w2 Hne) as H3.
  destruct (Os.Chmod env p 493 w2) as [cherr w3 | msg w3 | w3]; cbn [stateOf] in *;
    congruence.
Qed.

(** However [Install] ends, it has changed no file but the script and
    [/etc/rc.conf.local]. *)
Theorem Install_touches_only_its_files (env : Env) (s : openbsdRunComService) (w : World)
    (q : string) :
  q <> fst (scriptPath s) -> q <> rcConfLocal ->
  fs (stateOf (Install env s w)) !! q = fs w !! q.
Proof.
  intros Hscript Hrc.
  pose proof (writeScript_other env s w q Hscript) as Hwrite.
  unfold Install, deferAnnotate, bind, ret.
  destruct (writeScript env s w) as [[e |] w1 | msg w1 | w1]; cbn [stateOf] in *;
    try exact Hwrite.
  destruct (configureSysStartup_other env s w1) as (err & w2 & -> & Hframe).
  cbn [stateOf]. rewrite (Hframe q Hrc). exact Hwrite.
Qed.

Lemma Install_touches_only_its_files_witness :
  fs (stateOf (Install quietEnv (serviceNamed "AdGuardHome")
                 {| fs := {[ "/etc/rc.d/sshd" := NFile "#!/bin/ksh" 365 ]}; trace := [] |}))
    !! "/etc/rc.d/sshd"
  = Some (NFile "#!/bin/ksh" 365).
Proof.
  rewrite (Install_touches_only_its_files quietEnv (serviceNamed "AdGuardHome")
             {| fs := {[ "/etc/rc.d/sshd" := NFile "#!/bin/ksh" 365 ]}; trace := [] |}
             "/etc/rc.d/sshd").
  - reflexivity.
  - vm_compute. discriminate.
  - discriminate.
Defined.

Lemma configureSysStartup_creates (env : Env) (s : openbsdRunComService) (w : World) :
  envFault env SysOpenFile rcConfLocal = None ->
  fs w !! rcConfLocal = None ->
  configureSysStartup env s w
  = Done None
      {| fs := <[rcConfLocal := NFile (pref +:+ Name (config s) +:+ nl) (Os.newMode env 420)]>
                 (fs w);
         trace := trace w ++ [EvOpenFile rcConfLocal] |}.
Proof.
  intros Hfault Habsent.
  assert (Hedit := modifyRCConfLocal_empty_file s rcConfLocal).
  unfold configureSysStartup, bind, Os.OpenFile, Os.onFile, Os.Close, ret.
  cbv zeta. rewrite Hfault. cbn [fs logEvent]. rewrite Habsent.
  cbn [Os.openAt Os.FileStat infoIsDir fst snd]. rewrite Hedit.
  unfold Os.store, setNode. cbn [fs fname fdata trace]. rewrite lookup_insert_eq.
  cbn [fs trace Errors.WithDeferred]. rewrite insert_insert_eq. reflexivity.
Qed.

(** [Install] on a system that has neither the script nor the
    startup-configuration file, where the system calls succeed: it returns
    without error, the script holds the text of the template with mode
    0755, the startup-configuration file holds the line of the list with
    the name alone, no other file is changed, and the calls made are
    [os.Stat], [os.Create] and [os.Chmod] on the script and [os.OpenFile]
    on the startup-configuration file, in that order. *)
Theorem Install_on_fresh_system (env : Env) (s : openbsdRunComService) (w : World)
    (p path written : string) :
  scriptPath s = (p, None) -> p <> rcConfLocal ->
  fs w !! p = None -> fs w !! rcConfLocal = None ->
  (forall call, envFault env call p = None) ->
  envFault env SysOpenFile rcConfLocal = None ->
  execPath env s = (path, None) ->
  template env s (scriptData s path) = Executes written None ->
  Install env s w
  = Done None
      {| fs := <[rcConfLocal := NFile (pref +:+ Name (config s) +:+ nl) (Os.newMode env 420)]>
                 (<[p := NFile written 493]> (fs w));
         trace := trace w ++ [EvStat p; EvCreate p; EvChmod p 493; EvOpenFile rcConfLocal] |}.
Proof.
  intros Hpath Hne Hscript Hrc Hfault Hopen Hexec Htmpl.
  destruct (writeScript_writes env s w p path written Hpath Hscript
              (Hfault SysStat) (Hfault SysCreate) (Hfault SysChmod) Hexec Htmpl)
    as (w1 & Hwrite & Hfs & Htrace).
  unfold Install, deferAnnotate, bind, ret. rewrite Hwrite.
  rewrite (configureSysStartup_creates env s w1 Hopen).
  - rewrite Hfs, Htrace, <- app_assoc. reflexivity.
  - rewrite Hfs, lookup_insert_ne by exact Hne. exact Hrc.
Qed.

Lemma Install_on_fresh_system_witness :
  Install quietEnv (serviceWith "AdGuardHome" ["-s"; "run"] ∅) emptyWorld
  = Done None
      {| fs := <[rcConfLocal := NFile ("pkg_scripts=AdGuardHome" +:+ nl) 420]>
                 (<["/etc/rc.d/AdGuardHome" :=
                      NFile (builtinScript "AdGuardHome" "/usr/local/bin/AdGuardHome"
                               (dq +:+ "-s run" +:+ dq)) 493]> ∅);
         trace := [EvStat "/etc/rc.d/AdGuardHome"; EvCreate "/etc/rc.d/AdGuardHome";
                   EvChmod "/etc/rc.d/AdGuardHome" 493; EvOpenFile rcConfLocal] |}.
Proof.
  apply (Install_on_fresh_system quietEnv (serviceWith "AdGuardHome" ["-s"; "run"] ∅) emptyWorld
           "/etc/rc.d/AdGuardHome" "/usr/local/bin/AdGuardHome"
           (builtinScript "AdGuardHome" "/usr/local/bin/AdGuardHome" (dq +:+ "-s run" +:+ dq)));
    try reflexivity.
  discriminate.
Defined.

(** ** Uninstalling *)

Lemma Remove_result (env : Env) (p : string) (w : World) :
  envFault env SysRemove p = None ->
  Os.Remove env p w
  = match fs w !! p with
    | Some _ => Done None (delNode p (logEvent (EvRemove p) w))
    | None => Done (Os.pathError "remove" p ENOENT) (logEvent (EvRemove p) w)
    end.
Proof.
  intros Hfault. unfold Os.Remove. cbv zeta. rewrite Hfault. cbn [logEvent fs].
  destruct (fs w !! p); reflexivity.
Qed.

(** [Uninstall] where the script is a file removes the script and nothing
    else: every other file, the startup-configuration file with the name
    in its list among them, is as it was, and [os.Remove] on the script
    is the only call made. *)
Theorem Uninstall_removes_only_script (env : Env) (s : openbsdRunComService) (w : World)
    (p data : string) (mode : Z) :
  scriptPath s = (p, None) ->
  envFault env SysRemove p = None ->
  fs w !! p = Some (NFile data mode) ->
  exists w',
    Uninstall env s w = Done None w' /\
    fs w' !! p = None /\
    (forall q, q <> p -> fs w' !! q = fs w !! q) /\
    trace w' = (trace w ++ [EvRemove p])%list.
Proof.
  intros Hpath Hfault Hn.
  unfold Uninstall, deferAnnotate, bind, ret. rewrite Hpath. cbv beta iota.
  rewrite (Remove_result env p w Hfault), Hn.
  eexists. split; [reflexivity |]. unfold delNode, logEvent. cbn [fs trace].
  repeat apply conj.
  - apply lookup_delete_eq.
  - intros q Hq. apply lookup_delete_ne. congruence.
  - reflexivity.
Qed.

Lemma Uninstall_removes_only_script_witness :
  exists w',
    Uninstall quietEnv (serviceNamed "AdGuardHome")
      (stateOf (Install quietEnv (serviceNamed "AdGuardHome") emptyWorld)) = Done None w' /\
    fs w' !! "/etc/rc.d/AdGuardHome" = None /\
    fs w' !! rcConfLocal = Some (NFile ("pkg_scripts=AdGuardHome" +:+ nl) 420).
Proof.
  destruct (Uninstall_removes_only_script quietEnv (serviceNamed "AdGuardHome")
              (stateOf (Install quietEnv (serviceNamed "AdGuardHome") emptyWorld))
              "/etc/rc.d/AdGuardHome"
              (builtinScript "AdGuardHome" "/usr/local/bin/AdGuardHome" (dq +:+ dq)) 493)
    as (w' & Hrun & Hgone & Hother & _).
  - reflexivity.
  - reflexivity.
  - vm_compute. reflexivity.
  - exists w'. split; [exact Hrun |]. split; [exact Hgone |].
    rewrite (Hother rcConfLocal) by discriminate. vm_compute. reflexivity.
Defined.

(** [Uninstall] where there is no script fails: the not-exist error of
    [os.Remove] comes back under the annotations of the removal and of
    [Uninstall], where [errors.Is] still finds it, and no file is
    changed. *)
Theorem Uninstall_without_script (env : Env) (s : openbsdRunComService) (w : World)
    (p : string) :
  scriptPath s = (p, None) ->
  envFault env SysRemove p = None ->
  fs w !! p = None ->
  Uninstall env s w
  = Done (annotate s "uninstalling"
            (Some (ErrWrap "removing rc.d script: " (ErrPath "remove" p (ErrErrno ENOENT)))))
         (logEvent (EvRemove p) w) /\
  Errors.Is (annotate s "uninstalling"
               (Some (ErrWrap "removing rc.d script: " (ErrPath "remove" p (ErrErrno ENOENT)))))
            Os.ErrNotExist = true.
Proof.
  intros Hpath Hfault Habsent. split; [| reflexivity].
  unfold Uninstall, deferAnnotate, bind, ret. rewrite Hpath. cbv beta iota.
  rewrite (Remove_result env p w Hfault), Habsent. reflexivity.
Qed.

Lemma Uninstall_without_script_witness :
  Uninstall quietEnv (serviceNamed "AdGuardHome") emptyWorld
  = Done (Some (ErrWrap "uninstalling openbsd-runcom AdGuardHome service: "
                  (ErrWrap "removing rc.d script: "
                     (ErrPath "remove" "/etc/rc.d/AdGuardHome" (ErrErrno ENOENT)))))
         (logEvent (EvRemove "/etc/rc.d/AdGuardHome") emptyWorld).
Proof.
  apply (Uninstall_without_script quietEnv (serviceNamed "AdGuardHome") emptyWorld
           "/etc/rc.d/AdGuardHome"); reflexivity.
Defined.



(** ** Failures while the script is written *)

Ltac script_checked Hpath Hstat Habsent Hexec :=
  unfold Install, deferAnnotate, writeScript, bind, ret; rewrite Hpath; cbv beta iota;
  unfold Os.Stat; cbv zeta; rewrite Hstat; cbn [logEvent fs]; rewrite Habsent;
  cbn [Os.pathError Errors.Is Errors.IsErr error_eqb Os.ErrNotExist Errors.Errno_Is
       Errno_eqb orb negb];
  rewrite Hexec; cbv beta iota.

Ltac script_rendered s path Htmpl :=
  change {| tdConfig := config s; tdPath := path;
            tdSvcInfo := getString (Option (config s)) "SvcInfo" (String_ s) |}
    with (scriptData s path);
  rewrite Htmpl.

(** When the path of the executable cannot be found, [Install] returns
    that error under its annotation after the existence check alone: no
    file is created or changed, and the startup-configuration file is not
    opened. *)
Theorem Install_without_executable (env : Env) (s : openbsdRunComService) (w : World)
    (p path : string) (e : error) :
  scriptPath s = (p, None) ->
  fs w !! p = None -> envFault env SysStat p = None ->
  execPath env s = (path, Some e) ->
  Install env s w
  = Done (annotate s "installing" (Some e))
         {| fs := fs w; trace := trace w ++ [EvStat p] |}.
Proof.
  intros Hpath Habsent Hstat Hexec.
  script_checked Hpath Hstat Habsent Hexec. reflexivity.
Qed.

Lemma Install_without_executable_witness :
  Install noExecutableEnv (serviceNamed "AdGuardHome") emptyWorld
  = Done (Some (ErrWrap "installing openbsd-runcom AdGuardHome service: "
                  (ErrPath "readlink" "/proc/curproc/file" (ErrErrno ENOENT))))
         {| fs := ∅; trace := [EvStat "/etc/rc.d/AdGuardHome"] |}.
Proof.
  apply (Install_without_executable noExecutableEnv (serviceNamed "AdGuardHome") emptyWorld
           "/etc/rc.d/AdGuardHome" ""); reflexivity.
Defined.

(** When the script cannot be created, [Install] returns the error of
    [os.Create] under the annotations of the creation and of [Install]:
    no file is created or changed, and the startup-configuration file is
    not opened. *)
Theorem Install_create_fails (env : Env) (s : openbsdRunComService) (w : World)
    (p path written : string) (xerr : option error) (e : Errno) :
  scriptPath s = (p, None) ->
  fs w !! p = None -> envFault env SysStat p = None ->
  envFault env SysCreate p = Some e ->
  execPath env s = (path, None) ->
  template env s (scriptData s path) = Executes written xerr ->
  Install env s w
  = Done (annotate s "installing"
            (Some (ErrWrap "creating rc.d script file: " (ErrPath "open" p (ErrErrno e)))))
         {| fs := fs w; trace := trace w ++ [EvStat p; EvCreate p] |}.
Proof.
  intros Hpath Habsent Hstat Hcreate Hexec Htmpl.
  script_checked Hpath Hstat Habsent Hexec. script_rendered s path Htmpl.
  unfold Os.Create. cbv zeta. rewrite Hcreate. unfold logEvent. cbn [fs trace Os.pathError].
  rewrite <- app_assoc. reflexivity.
Qed.

Lemma Install_create_fails_witness :
  Install noCreateEnv (serviceNamed "AdGuardHome") emptyWorld
  = Done (Some (ErrWrap "installing openbsd-runcom AdGuardHome service: "
                  (ErrWrap "creating rc.d script file: "
                     (ErrPath "open" "/etc/rc.d/AdGuardHome" (ErrErrno EACCES)))))
         {| fs := ∅;
            trace := [EvStat "/etc/rc.d/AdGuardHome"; EvCreate "/etc/rc.d/AdGuardHome"] |}.
Proof.
  apply (Install_create_fails noCreateEnv (serviceNamed "AdGuardHome") emptyWorld
           "/etc/rc.d/AdGuardHome" "/usr/local/bin/AdGuardHome"
           (builtinScript "AdGuardHome" "/usr/local/bin/AdGuardHome" (dq +:+ dq)) None);
    reflexivity.
Defined.

(** When the mode of the script cannot be changed, [Install] returns the
    error of [os.Chmod] under the annotations of the change and of
    [Install].  The script stays, complete, with the mode [os.Create] gave
    it (0666 less the umask, so not executable); the
    startup-configuration file is not opened. *)
Theorem Install_chmod_fails (env : Env) (s : openbsdRunComService) (w : World)
    (p path written : string) (e : Errno) :
  scriptPath s = (p, None) ->
  fs w !! p = None -> envFault env SysStat p = None ->
  envFault env SysCreate p = None -> envFault env SysChmod p = Some e ->
  execPath env s = (path, None) ->
  template env s (scriptData s path) = Executes written None ->
  Install env s w
  = Done (annotate s "installing"
            (Some (ErrWrap "changing rc.d script file permissions: "
                     (ErrPath "chmod" p (ErrErrno e)))))
         {| fs := <[p := NFile written (Os.newMode env 438)]> (fs w);
            trace := trace w ++ [EvStat p; EvCreate p; EvChmod p 493] |}.
Proof.
  intros Hpath Habsent Hstat Hcreate Hchmod Hexec Htmpl.
  script_checked Hpath Hstat Habsent Hexec. script_rendered s path Htmpl.
  unfold Os.Create. cbv zeta. rewrite Hcreate. cbn [logEvent fs]. rewrite Habsent.
  cbn [Os.openAt]. unfold Os.onFile. rewrite WriteString_fresh. cbn [snd].
  unfold Os.store, setNode. cbn [fname fdata fs]. rewrite lookup_insert_eq.
  unfold Os.Close, ret, Os.Chmod. cbv zeta. rewrite Hchmod.
  unfold logEvent. cbn [fs trace Errors.Annotate Os.pathError].
  rewrite !insert_insert_eq, <- !app_assoc. reflexivity.
Qed.

Lemma Install_chmod_fails_witness :
  Install noChmodEnv (serviceNamed "AdGuardHome") emptyWorld
  = Done (Some (ErrWrap "installing openbsd-runcom AdGuardHome service: "
                  (ErrWrap "changing rc.d script file permissions: "
                     (ErrPath "chmod" "/etc/rc.d/AdGuardHome" (ErrErrno EPERM)))))
         {| fs := {[ "/etc/rc.d/AdGuardHome" :=
                       NFile (builtinScript "AdGuardHome" "/usr/local/bin/AdGuardHome"
                                (dq +:+ dq)) 420 ]};
            trace := [EvStat "/etc/rc.d/AdGuardHome"; EvCreate "/etc/rc.d/AdGuardHome";
                      EvChmod "/etc/rc.d/AdGuardHome" 493] |}.
Proof.
  apply (Install_chmod_fails noChmodEnv (serviceNamed "AdGuardHome") emptyWorld
           "/etc/rc.d/AdGuardHome" "/usr/local/bin/AdGuardHome"
           (builtinScript "AdGuardHome" "/usr/local/bin/AdGuardHome" (dq +:+ dq)));
    reflexivity.
Defined.

(** When the execution of the template stops with an error, [Install]
    returns that error under its annotation.  The script stays with the
    part of the text that was written and the mode [os.Create] gave it:
    [os.Chmod] is not called and the startup-configuration file is not
    opened. *)
Theorem Install_template_stops (env : Env) (s : openbsdRunComService) (w : World)
    (p path written : string) (xe : error) :
  scriptPath s = (p, None) ->
  fs w !! p = None -> envFault env SysStat p = None ->
  envFault env SysCreate p = None ->
  execPath env s = (path, None) ->
  template env s (scriptData s path) = Executes written (Some xe) ->
  Install env s w
  = Done (annotate s "installing" (Some xe))
         {| fs := <[p := NFile written (Os.newMode env 438)]> (fs w);
            trace := trace w ++ [EvStat p; EvCreate p] |}.
Proof.
  intros Hpath Habsent Hstat Hcreate Hexec Htmpl.
  script_checked Hpath Hstat Habsent Hexec. script_rendered s path Htmpl.
  unfold Os.Create. cbv zeta. rewrite Hcreate. cbn [logEvent fs]. rewrite Habsent.
  cbn [Os.openAt]. unfold Os.onFile. rewrite WriteString_fresh. cbn [snd].
  unfold Os.store, setNode. cbn [fname fdata fs]. rewrite lookup_insert_eq.
  unfold Os.Close, ret, logEvent. cbn [fs trace].
  rewrite !insert_insert_eq, <- !app_assoc. reflexivity.
Qed.

Lemma Install_template_stops_witness :
  Install halfScriptEnv
    (serviceWith "AdGuardHome" [] {[ optionRunComScript := VString halfScript ]}) emptyWorld
  = Done (Some (ErrWrap "installing openbsd-runcom AdGuardHome service: " noFieldError))
         {| fs := {[ "/etc/rc.d/AdGuardHome" := NFile ("#!/bin/sh" +:+ nl +:+ "daemon=") 420 ]};
            trace := [EvStat "/etc/rc.d/AdGuardHome"; EvCreate "/etc/rc.d/AdGuardHome"] |}.
Proof.
  apply (Install_template_stops halfScriptEnv
           (serviceWith "AdGuardHome" [] {[ optionRunComScript := VString halfScript ]})
           emptyWorld "/etc/rc.d/AdGuardHome" "/usr/local/bin/AdGuardHome"
           ("#!/bin/sh" +:+ nl +:+ "daemon=") noFieldError);
    reflexivity.
Defined.

(** ** Running, restarting, and the errors of the actions *)

(** Without a function under [RunWait] in the option bag (no value, or a
    value of another type), [Run] waits for a termination signal after
    the daemon has started: when none arrives [Run] never returns, and the
    daemon is not asked to stop; when one arrives, [Run] goes on to stop
    the daemon. *)
Theorem Run_default_wait (env : Env) (s : openbsdRunComService) (w w1 : World) :
  (forall f, Option (config s) !! optionRunWait <> Some (VFunc f)) ->
  iStart (i s) (logEvent (EvCall CbStart) w) = Done None w1 ->
  let waiting :=
    {| fs := fs w1; trace := trace w1 ++ [EvCall CbWait; EvSignalWait] |} in
  (envSignalArrives env (trace w1 ++ [EvCall CbWait]) = false ->
     Run env s w = Hang waiting) /\
  (envSignalArrives env (trace w1 ++ [EvCall CbWait]) = true ->
     Run env s w = iStop (i s) (logEvent (EvCall CbStop) waiting)).
Proof.
  intros Hopt Hstart waiting.
  assert (Hwait : getFuncSingle (Option (config s)) optionRunWait (runWait env) = runWait env).
  { unfold getFuncSingle. destruct (Option (config s) !! optionRunWait) as [[| | f | |] |] eqn:Hv;
      try reflexivity.
    exfalso. exact (Hopt f eq_refl). }
  assert (Hwaiting : logEvent EvSignalWait (logEvent (EvCall CbWait) w1) = waiting).
  { unfold waiting, logEvent. cbn [fs trace]. rewrite <- app_assoc. reflexivity. }
  split; intros Hsignal.
  - unfold Run, bind, call. rewrite Hstart, Hwait. unfold runWait.
    cbn [logEvent trace]. rewrite Hsignal, Hwaiting. reflexivity.
  - unfold Run, bind, call. rewrite Hstart, Hwait. unfold runWait.
    cbn [logEvent trace]. rewrite Hsignal, Hwaiting. reflexivity.
Qed.

Lemma Run_default_wait_witness :
  Run noSignalEnv (serviceWith "AdGuardHome" [] {[ optionRunWait := VBool true ]}) emptyWorld
  = Hang {| fs := ∅; trace := [EvCall CbStart; EvCall CbWait; EvSignalWait] |}.
Proof.
  assert (Hopt : forall f,
             Option (config (serviceWith "AdGuardHome" [] {[ optionRunWait := VBool true ]}))
               !! optionRunWait <> Some (VFunc f)) by (intros f; discriminate).
  destruct (Run_default_wait noSignalEnv
              (serviceWith "AdGuardHome" [] {[ optionRunWait := VBool true ]})
              emptyWorld (logEvent (EvCall CbStart) emptyWorld) Hopt eq_refl) as [Hhang _].
  exact (Hhang eq_refl).
Defined.

Lemma runCom_runs (env : Env) (s : openbsdRunComService) (w : World) (p cmd : string) :
  scriptPath s = (p, None) ->
  runCom env s cmd w
  = Done (snd (fst (envRunCommand env p [cmd] (trace w))),
          snd (envRunCommand env p [cmd] (trace w)))
         (logEvent (EvRunCommand p [cmd]) w).
Proof.
  intros Hpath. unfold runCom, bind, ret, RunCommand. rewrite Hpath. cbv beta iota.
  destruct (envRunCommand env p [cmd] (trace w)) as [[code out] err]. reflexivity.
Qed.

(** [Restart] where the script stops the daemon without error: the script
    is run twice, with [stop] and then with [start], nothing else is
    done, and the result is the error of the start under the annotation
    of starting ([nil] when there is none), whatever the script printed
    and whatever its exit codes. *)
Theorem Restart_stop_then_start (env : Env) (s : openbsdRunComService) (w : World)
    (p out1 out2 : string) (code1 code2 : Z) (err2 : option error) :
  scriptPath s = (p, None) ->
  envRunCommand env p ["stop"] (trace w) = (code1, out1, None) ->
  envRunCommand env p ["start"] (trace w ++ [EvRunCommand p ["stop"]]) = (code2, out2, err2) ->
  Restart env s w
  = Done (annotate s "starting" err2)
         {| fs := fs w;
            trace := trace w ++ [EvRunCommand p ["stop"]; EvRunCommand p ["start"]] |}.
Proof.
  intros Hpath Hstop Hstart.
  unfold Restart, Stop, Start, bind, ret.
  rewrite (runCom_runs env s w p "stop" Hpath), Hstop. cbn [fst snd annotate Errors.Annotate].
  rewrite (runCom_runs env s _ p "start" Hpath). cbn [logEvent trace fs].
  rewrite Hstart. cbn [fst snd]. unfold logEvent. cbn [fs trace].
  rewrite <- app_assoc. reflexivity.
Qed.

Lemma Restart_stop_then_start_witness :
  Restart noStartEnv (serviceNamed "AdGuardHome") emptyWorld
  = Done (Some (ErrWrap "starting openbsd-runcom AdGuardHome service: " (ErrFmt "exit status 1")))
         {| fs := ∅;
            trace := [EvRunCommand "/etc/rc.d/AdGuardHome" ["stop"];
                      EvRunCommand "/etc/rc.d/AdGuardHome" ["start"]] |}.
Proof.
  apply (Restart_stop_then_start noStartEnv (serviceNamed "AdGuardHome") emptyWorld
           "/etc/rc.d/AdGuardHome" ("AdGuardHome(ok)" +:+ nl) ("AdGuardHome(failed)" +:+ nl)
           0%Z 1%Z (Some (ErrFmt "exit status 1"))); reflexivity.
Defined.

Lemma annotate_names (s : openbsdRunComService) (action : string) (err : option error) :
  namesAction s action (annotate s action err).
Proof.
  intros e He. destruct err as [cause |]; [| discriminate].
  exists cause. unfold annotate, Errors.Annotate in He.
  assert (Heq : e = ErrWrap (actionPrefix s action) cause) by (unfold actionPrefix; congruence).
  split; [exact Heq |]. rewrite Heq. reflexivity.
Qed.

Lemma deferAnnotate_names (s : openbsdRunComService) (action : string)
    (body : M World (option error)) (w w' : World) (err : option error) :
  deferAnnotate s action body w = Done err w' -> namesAction s action err.
Proof.
  unfold deferAnnotate, bind, ret.
  destruct (body w) as [err0 w0 | msg w0 | w0]; try discriminate.
  intros Heq. assert (Herr : err = annotate s action err0) by congruence.
  rewrite Herr. apply annotate_names.
Qed.

(** Every error that [Install], [Uninstall], [Start], [Stop] or [Status]
    returns is an annotation that names the action and the service: it
    wraps the cause, and its text is
    [<action> openbsd-runcom <name> service: ] followed by the text of
    the cause.  An error of [Restart] names the stopping or the
    starting. *)
Theorem errors_name_the_action (env : Env) (s : openbsdRunComService) (w w' : World)
    (err : option error) :
  (Install env s w = Done err w' -> namesAction s "installing" err) /\
  (Uninstall env s w = Done err w' -> namesAction s "uninstalling" err) /\
  (Start env s w = Done err w' -> namesAction s "starting" err) /\
  (Stop env s w = Done err w' -> namesAction s "stopping" err) /\
  (forall status, Status env s w = Done (status, err) w' ->
     namesAction s "getting status of" err) /\
  (Restart env s w = Done err w' ->
     namesAction s "stopping" err \/ namesAction s "starting" err).
Proof.
  assert (Hstart : forall w0 w1 err1, Start env s w0 = Done err1 w1 ->
                                      namesAction s "starting" err1).
  { intros w0 w1 err1. unfold Start, bind, ret.
    destruct (runCom env s "start" w0) as [[out err0] w2 | msg w2 | w2]; try discriminate.
    intros Heq. assert (Herr : err1 = annotate s "starting" err0) by congruence.
    rewrite Herr. apply annotate_names. }
  assert (Hstop : forall w0 w1 err1, Stop env s w0 = Done err1 w1 ->
                                     namesAction s "stopping" err1).
  { intros w0 w1 err1. unfold Stop, bind, ret.
    destruct (runCom env s "stop" w0) as [[out err0] w2 | msg w2 | w2]; try discriminate.
    intros Heq. assert (Herr : err1 = annotate s "stopping" err0) by congruence.
    rewrite Herr. apply annotate_names. }
  repeat apply conj.
  - apply deferAnnotate_names.
  - apply deferAnnotate_names.
  - apply Hstart.
  - apply Hstop.
  - intros status. unfold Status. unfold bind at 1.
    match goal with |- context [match ?inner w with _ => _ end] =>
      destruct (inner w) as [[status0 err0] w2 | msg w2 | w2] end; try discriminate.
    unfold ret. intros Heq.
    assert (Herr : err = annotate s "getting status of" err0) by congruence.
    rewrite Herr. apply annotate_names.
  - unfold Restart, bind, ret.
    destruct (Stop env s w) as [[e1 |] w1 | msg w1 | w1] eqn:Hs; try discriminate.
    + intros Heq. left. assert (Herr : err = Some e1) by congruence.
      rewrite Herr. exact (Hstop _ _ _ Hs).
    + intros Heq. right. exact (Hstart _ _ _ Heq).
Qed.

Lemma errors_name_the_action_witness :
  namesAction (serviceNamed "AdGuardHome") "installing"
    (collision (serviceNamed "AdGuardHome") "/etc/rc.d/AdGuardHome").
Proof.
  destruct (errors_name_the_action quietEnv (serviceNamed "AdGuardHome") installedWorld
              (logEvent (EvStat "/etc/rc.d/AdGuardHome") installedWorld)
              (collision (serviceNamed "AdGuardHome") "/etc/rc.d/AdGuardHome"))
    as (Hinstall & _).
  apply Hinstall. reflexivity.
Defined.

(** ** The path of the executable *)

Lemma IsAbs_cons (p : string) :
  Filepath.IsAbs p = true -> exists rest, p = String "/" rest.
Proof.
  unfold Filepath.IsAbs. destruct p as [|c rest]; [discriminate |].
  cbn [String.prefix]. destruct (ascii_dec "/" c) as [<- | Hne]; [| discriminate].
  intros _. exists rest. reflexivity.
Qed.

Lemma IsAbs_slash (rest : string) : Filepath.IsAbs (String "/" rest) = true.
Proof. unfold Filepath.IsAbs. rewrite prefix_slash. reflexivity. Qed.

Lemma Clean_rooted (p : string) :
  Filepath.IsAbs p = true -> Filepath.IsAbs (Filepath.Clean p) = true.
Proof.
  intros Habs. unfold Filepath.Clean. rewrite Habs. cbv zeta.
  rewrite append_cons, append_nil. apply IsAbs_slash.
Qed.

Lemma Abs_rooted (getwd : string * option error) (p path : string) :
  (forall wd, getwd = (wd, None) -> Filepath.IsAbs wd = true) ->
  (Filepath.Abs getwd p = (path, None) -> Filepath.IsAbs path = true) /\
  (forall e, Filepath.Abs getwd p = (path, Some e) -> path = "").
Proof.
  intros Hwd. unfold Filepath.Abs.
  destruct (Filepath.IsAbs p) eqn:Hp.
  - split; [| discriminate].
    intros Heq. assert (Hpath : path = Filepath.Clean p) by congruence.
    rewrite Hpath. exact (Clean_rooted p Hp).
  - destruct getwd as [wd [e |]].
    + split; [discriminate |]. intros e' Heq. congruence.
    + split; [| discriminate].
      intros Heq. assert (Hpath : path = Filepath.Join [wd; p]) by congruence.
      destruct (IsAbs_cons wd (Hwd wd eq_refl)) as [rest Hrest].
      rewrite Hpath, Hrest. unfold Filepath.Join. cbn [Filepath.dropEmpty String.eqb].
      apply Clean_rooted. cbn [Strings.Join]. rewrite append_cons. apply IsAbs_slash.
Qed.

(** [execPath] returns an absolute path and no error, or the empty path
    and an error: whether the executable is given in the configuration or
    found by [os.Executable], its path is made absolute against the
    working directory (itself absolute, as [os.Getwd] gives it) and
    cleaned. *)
Theorem execPath_absolute_or_error (env : Env) (s : openbsdRunComService) (path : string) :
  (forall wd, envGetwd env = (wd, None) -> Filepath.IsAbs wd = true) ->
  (execPath env s = (path, None) -> Filepath.IsAbs path = true) /\
  (forall e, execPath env s = (path, Some e) -> path = "").
Proof.
  intros Hwd. unfold execPath.
  destruct (negb (Nat.eqb (String.length (Executable (config s))) 0)).
  - exact (Abs_rooted (envGetwd env) (Executable (config s)) path Hwd).
  - destruct (envExecutable env) as [found [e |]].
    + split; [discriminate |]. intros e' Heq. congruence.
    + exact (Abs_rooted (envGetwd env) found path Hwd).
Qed.

Lemma execPath_absolute_or_error_witness :
  execPath quietEnv (serviceAt "AdGuardHome" "bin/../AdGuardHome") = ("/root/AdGuardHome", None) /\
  Filepath.IsAbs "/root/AdGuardHome" = true.
Proof.
  split; [reflexivity |].
  assert (Hwd : forall wd, envGetwd quietEnv = (wd, None) -> Filepath.IsAbs wd = true).
  { intros wd Heq. assert (Hroot : wd = "/root") by (cbn in Heq; congruence).
    rewrite Hroot. reflexivity. }
  destruct (execPath_absolute_or_error quietEnv (serviceAt "AdGuardHome" "bin/../AdGuardHome")
              "/root/AdGuardHome" Hwd) as [Habs _].
  apply Habs. reflexivity.
Defined.

(** ** Script texts and names that the source does not check *)

Lemma exec_text (args0 : list string -> string) (text : string) (data : TemplateData) :
  Template.exec args0 [Template.PText text] data = text.
Proof. cbn [Template.exec]. apply append_empty_r. Qed.

(** A script text given under [RunComScript] that has no action in it (no
    pair of opening braces) is the script as it is written: nothing is
    added to it or taken from it, whatever the service is. *)
Theorem template_without_actions (env : Env) (s : openbsdRunComService) (text : string)
    (data : TemplateData) :
  Option (config s) !! optionRunComScript = Some (VString text) ->
  Strings.Index text "{{" = (-1)%Z ->
  template env s data = Executes text None.
Proof.
  intros Hopt Hindex.
  unfold template, Template.render, Template.Parse, getString. rewrite Hopt.
  cbn [Template.parseLoop]. rewrite Hindex. cbn [Z.ltb Z.compare].
  rewrite exec_text. reflexivity.
Qed.

Lemma template_without_actions_witness :
  let text := "#!/bin/ksh" +:+ nl +:+ "daemon=${daemon:-/usr/local/bin/AdGuardHome}" +:+ nl in
  let s := serviceWith "AdGuardHome" ["-s"; "run"] {[ optionRunComScript := VString text ]} in
  template quietEnv s (scriptData s "/usr/local/bin/AdGuardHome") = Executes text None.
Proof.
  intros text s.
  apply (template_without_actions quietEnv s text (scriptData s "/usr/local/bin/AdGuardHome"));
    reflexivity.
Defined.

(** The name of the service is joined to [/etc/rc.d] as it is, and the
    result cleaned: a name that begins with [../] gives a path outside
    [/etc/rc.d], next to it in [/etc]. *)
Theorem scriptPath_parent (s : openbsdRunComService) (name : string) :
  notUserService (Option (config s)) ->
  plainName name = true ->
  Name (config s) = "../" +:+ name ->
  scriptPath s = ("/etc/" +:+ name, None).
Proof.
  intros Huser Hname Heq.
  rewrite (scriptPath_system s Huser), Heq. f_equal.
  unfold plainName in Hname.
  apply andb_prop in Hname as [H Hdd]. apply andb_prop in H as [H Hd].
  apply andb_prop in H as [Hs He].
  apply negb_true_iff in Hdd, Hd, He.
  change (Filepath.Join [scriptPathPref; "../" +:+ name])
    with (Filepath.Clean (String "/" ("etc/rc.d/../" +:+ name))).
  unfold Filepath.Clean.
  rewrite IsAbs_slash.
  change (String "/" ("etc/rc.d/../" +:+ name))
    with (String "/" (String "e" (String "t" (String "c" (String "/"
           (String "r" (String "c" (String "." (String "d" (String "/"
           (String "." (String "." (String "/" name))))))))))))).
  unfold Strings.Split.
  repeat (rewrite splitLoop_at_slash || rewrite splitLoop_other by reflexivity).
  rewrite (splitLoop_one_element name "" Hs).
  change (str_rev "" +:+ name) with name.
  cbn [fold_left].
  change (Filepath.cleanStep true [] (str_rev "")) with (@nil string).
  change (Filepath.cleanStep true [] (str_rev "cte")) with ["etc"].
  change (Filepath.cleanStep true ["etc"] (str_rev "d.cr")) with ["rc.d"; "etc"].
  change (Filepath.cleanStep true ["rc.d"; "etc"] (str_rev "..")) with ["etc"].
  rewrite (cleanStep_element _ _ _ He Hd Hdd).
  reflexivity.
Qed.

Lemma scriptPath_parent_witness :
  scriptPath (serviceNamed "../rc.local") = ("/etc/rc.local", None).
Proof.
  apply (scriptPath_parent (serviceNamed "../rc.local") "rc.local").
  - left. reflexivity.
  - reflexivity.
  - reflexivity.
Defined.

Lemma allChars_rev_onto (test : ascii -> bool) (s acc : string) :
  allChars test (str_rev_onto s acc) = allChars test s && allChars test acc.
Proof.
  revert acc. induction s as [|c s IH]; intros acc; [reflexivity |].
  cbn [str_rev_onto allChars]. rewrite IH. cbn [allChars].
  destruct (test c), (allChars test s), (allChars test acc); reflexivity.
Qed.

Lemma prefix_space (c : ascii) (s : string) :
  String.prefix " " (String c s) = negb (noSpace c).
Proof.
  cbn [String.prefix]. unfold noSpace. rewrite negb_involutive.
  destruct (ascii_dec " " c) as [<- | Hne].
  - rewrite prefix_nil. reflexivity.
  - symmetry. apply Nat.eqb_neq. intros Heq. apply Hne.
    rewrite <- (ascii_nat_embedding c), Heq. reflexivity.
Qed.

Lemma Split_elements (s cur : string) :
  allChars noSpace cur = true ->
  Forall (fun e => allChars noSpace e = true) (Strings.splitLoop " " s 0 cur).
Proof.
  revert cur. induction s as [|c s IH]; intros cur Hcur.
  - cbn [Strings.splitLoop]. constructor; [| constructor].
    unfold str_rev. rewrite allChars_rev_onto, Hcur. reflexivity.
  - cbn [Strings.splitLoop]. rewrite prefix_space.
    destruct (noSpace c) eqn:Hc; cbn [negb].
    + apply IH. cbn [allChars]. rewrite Hc, Hcur. reflexivity.
    + constructor.
      * unfold str_rev. rewrite allChars_rev_onto, Hcur. reflexivity.
      * apply IH. reflexivity.
Qed.

(** A name with a space in it is never found in the startup list,
    whatever the file holds: the list is cut at its spaces, so no element
    of it has one, and the test of the editor for a listed name fails. *)
Theorem name_with_space_never_listed (s : openbsdRunComService) (data : string)
    (svcs : list string) :
  allChars noSpace (Name (config s)) = false ->
  pkgScripts data = Some svcs ->
  Stringutil.InSlice svcs (Name (config s)) = false.
Proof.
  intros Hspace Hlist.
  destruct (Stringutil.InSlice svcs (Name (config s))) eqn:Hin; [| reflexivity].
  exfalso. apply InSlice_In in Hin.
  assert (Hall : Forall (fun e => allChars noSpace e = true) svcs).
  { unfold pkgScripts in Hlist.
    destruct (scanLines _ _ _ _ _) as [[[idx ln] scn] f | msg f | f]; try discriminate.
    destruct (idx =? 0)%Z; [| discriminate].
    assert (Hsvcs : Strings.Split (str_drop (String.length pref) ln) " " = svcs) by congruence.
    rewrite <- Hsvcs. apply Split_elements. reflexivity. }
  rewrite (proj1 (List.Forall_forall _ _) Hall _ Hin) in Hspace. discriminate.
Qed.

Lemma name_with_space_never_listed_witness :
  let s := serviceNamed "Ad Guard" in
  let once := dataOf (modifyRCConfLocal s (rcFile "")) in
  once = "pkg_scripts=Ad Guard" +:+ nl /\
  Stringutil.InSlice ["Ad"; "Guard"] "Ad Guard" = false /\
  dataOf (modifyRCConfLocal s (rcFile once)) = "pkg_scripts=Ad Guard Ad Guard" +:+ nl.
Proof.
  intros s once.
  split; [vm_compute; reflexivity |].
  split; [| vm_compute; reflexivity].
  apply (name_with_space_never_listed s once ["Ad"; "Guard"]); vm_compute; reflexivity.
Defined.

(** ** The editor on a file that fits the buffer of the scanner *)

Lemma Read_at_end (n : nat) (f : File) :
  foff f = String.length (fdata f) -> Os.Read n f = ("", Some Bufio.EOF, f).
Proof.
  intros Hend. unfold Os.Read. rewrite Hend, str_drop_all by lia. reflexivity.
Qed.

Lemma scanLoop_at_end (fuel : nat) (s s' : Bufio.Scanner) (f f' : File) (b : bool) :
  foff f = String.length (fdata f) ->
  Bufio.scanLoop fuel s f = Done (b, s') f' -> f' = f.
Proof.
  intros Hend. revert s. induction fuel as [|fuel IH]; intros s; [discriminate |].
  cbn [Bufio.scanLoop].
  destruct (Bufio.trySplit s) as [s1 found].
  destruct found; [intros Heq; congruence |].
  destruct (Bufio.hasErr s1); [intros Heq; congruence |].
  cbv zeta.
  destruct (Bufio.full (Bufio.shift s1) &&
            Nat.leb Bufio.MaxScanTokenSize (Bufio.bufLen (Bufio.shift s1)));
    [intros Heq; congruence |].
  rewrite (Read_at_end _ f Hend). apply IH.
Qed.

Lemma scanLines_at_end (fuel : nat) (prefIdx idx : Z) (ln ln' : string)
    (scn scn' : Bufio.Scanner) (f f' : File) :
  foff f = String.length (fdata f) ->
  scanLines fuel prefIdx ln scn f = Done (idx, ln', scn') f' -> f' = f.
Proof.
  intros Hend. revert prefIdx ln scn.
  induction fuel as [|fuel IH]; intros prefIdx ln scn; [discriminate |].
  cbn [scanLines]. unfold bind, Bufio.Scan.
  destruct (Bufio.scanLoop _ scn f) as [[b scn1] f1 | msg f1 | f1] eqn:Hscan;
    try discriminate.
  apply (scanLoop_at_end _ _ _ _ _ _ Hend) in Hscan. subst f1.
  destruct b; cbn [negb]; [| unfold ret; intros Heq; congruence].
  destruct (String.eqb (Strings.TrimSpace (Bufio.Text scn1)) ""); [apply IH |].
  destruct (Strings.Index (Strings.TrimSpace (Bufio.Text scn1)) pref =? 0)%Z;
    [unfold ret; intros Heq; congruence | apply IH].
Qed.

(** The first read of the scanner takes in a file of at most 4096 bytes
    whole, so from the first line on the offset of the file is its
    end. *)
Lemma scanLines_short_file (fuel : nat) (data ln : string) (idx : Z)
    (scn : Bufio.Scanner) (f' : File) :
  String.length data <= 4096 ->
  scanLines fuel (-2) "" Bufio.NewScanner (rcFile data) = Done (idx, ln, scn) f' ->
  f' = {| fname := rcConfLocal; fdata := data; foff := String.length data |}.
Proof.
  intros Hshort. destruct fuel as [|fuel]; [discriminate |].
  cbn [scanLines]. unfold bind at 1. unfold Bufio.Scan.
  replace (String.length (fdata (rcFile data)) - foff (rcFile data) + 3)
    with (S (String.length data + 2)) by (cbn [rcFile fdata foff]; lia).
  rewrite scanLoop_fresh.
  assert (Hread : exists got e,
             Os.Read 4096 (rcFile data)
             = (got, e, {| fname := rcConfLocal; fdata := data;
                           foff := String.length data |})).
  { destruct data as [|c data].
    - exists "", (Some Bufio.EOF). reflexivity.
    - exists (String c data), None. apply Read_whole; [discriminate | exact Hshort]. }
  destruct Hread as (got & e & ->).
  set (whole := {| fname := rcConfLocal; fdata := data; foff := String.length data |}).
  assert (Hend : foff whole = String.length (fdata whole)) by reflexivity.
  destruct (Bufio.scanLoop _ _ whole) as [[b scn1] f1 | msg f1 | f1] eqn:Hscan;
    try discriminate.
  apply (scanLoop_at_end _ _ _ _ _ _ Hend) in Hscan. subst f1.
  destruct b; cbn [negb]; [| unfold ret; intros Heq; congruence].
  destruct (String.eqb (Strings.TrimSpace (Bufio.Text scn1)) "").
  { intros Hrun. exact (scanLines_at_end _ _ _ _ _ _ _ _ _ Hend Hrun). }
  destruct (Strings.Index (Strings.TrimSpace (Bufio.Text scn1)) pref =? 0)%Z.
  { unfold ret. intros Heq. congruence. }
  intros Hrun. exact (scanLines_at_end _ _ _ _ _ _ _ _ _ Hend Hrun).
Qed.

Lemma overwrite_at_end_of_file (s : openbsdRunComService) (data : string)
    (svcs : list string) :
  String.length data <= 4096 ->
  pkgScripts data = Some svcs ->
  Stringutil.InSlice svcs (Name (config s)) = false ->
  modifyRCConfLocal s (rcFile data)
  = Done None
      {| fname := rcConfLocal;
         fdata := str_take (String.length data - 1) data +:+
                  separator svcs +:+ Name (config s) +:+ nl;
         foff := String.length data - 1
                 + String.length (separator svcs +:+ Name (config s) +:+ nl) |}.
Proof.
  intros Hshort Hlist Hout.
  assert (Hlen : 1 <= String.length data).
  { destruct data; [vm_compute in Hlist; discriminate | cbn [String.length]; lia]. }
  unfold pkgScripts in Hlist. unfold modifyRCConfLocal, bind. cbn [fdata rcFile].
  fold (rcFile data).
  destruct (scanLines (String.length data + 2) (-2) "" Bufio.NewScanner (rcFile data))
    as [[[idx ln] scn] f' | msg f' | f'] eqn:Hscan; try discriminate.
  assert (Hidx : (-2)%Z <> 0%Z) by discriminate.
  destruct (scanLines_outcome _ _ _ _ _ _ _ _ _ (scanOk_fresh data) Hidx Hscan)
    as (_ & _ & Hcases).
  apply (scanLines_short_file _ _ _ _ _ _ Hshort) in Hscan. subst f'.
  destruct (idx =? 0)%Z eqn:Hzero; [| discriminate].
  apply Z.eqb_eq in Hzero. subst idx.
  destruct Hcases as [[_ Herr] | [Hne _]]; [| congruence].
  assert (Hsvcs : Strings.Split (str_drop (String.length pref) ln) " " = svcs) by congruence.
  rewrite Herr. cbn [Z.eqb]. rewrite Hsvcs, Hout.
  fold (separator svcs).
  assert (Hseek : Os.SeekCur (-1) {| fname := rcConfLocal; fdata := data;
                                     foff := String.length data |}
                  = (None, {| fname := rcConfLocal; fdata := data;
                              foff := String.length data - 1 |})).
  { unfold Os.SeekCur, Os.withOff. cbn [foff fdata fname].
    destruct (Z.ltb_spec (Z.of_nat (String.length data) + -1) 0) as [Hneg | _]; [lia |].
    replace (Z.to_nat (Z.of_nat (String.length data) + -1)) with (String.length data - 1)
      by lia.
    reflexivity. }
  rewrite Hseek.
  assert (Hb : Stringutil.WriteToBuilder
                 (if Nat.ltb 0 (length svcs) && negb (String.eqb (hd "" svcs) "")
                  then Stringutil.WriteToBuilder "" [" "] else "")
                 [Name (config s); nl]
               = separator svcs +:+ Name (config s) +:+ nl).
  { unfold separator, Stringutil.WriteToBuilder. cbn [str_concat].
    destruct (Nat.ltb 0 (length svcs) && negb (String.eqb (hd "" svcs) ""));
      rewrite ?append_nil, ?append_empty_r; reflexivity. }
  rewrite Hb. set (b := separator svcs +:+ Name (config s) +:+ nl).
  assert (Hblen : 1 <= String.length b).
  { unfold b. rewrite !length_append. change (String.length nl) with 1. lia. }
  unfold Os.WriteString. cbn [foff fdata fname].
  rewrite (str_drop_all _ data) by lia.
  replace (String.length data - 1 - String.length data) with 0 by lia.
  cbn [str_repeat]. rewrite !append_empty_r. reflexivity.
Qed.

Lemma separator_first (svcs : list string) :
  separator svcs = if String.eqb (hd "" svcs) "" then "" else " ".
Proof.
  unfold separator. destruct svcs as [|first svcs]; [reflexivity |].
  cbn [length hd Nat.ltb Nat.leb andb]. destruct (String.eqb first ""); reflexivity.
Qed.

(** In a file of at most 4096 bytes with a line of the startup list that
    lacks the name, the name is written over the last byte of the file,
    wherever in the file the line of the list is: the scanner has read the
    file to its end when the line is found, and the seek goes one byte
    back from there.  The file after the edit is the file before it less
    its last byte, followed by a space, the name and a line feed; the
    space is left out when the first element of the list is empty, as it
    is when nothing or a space comes right after [pkg_scripts=]. *)
Theorem modifyRCConfLocal_overwrites_last_byte (s : openbsdRunComService) (data : string)
    (svcs : list string) :
  String.length data <= 4096 ->
  pkgScripts data = Some svcs ->
  Stringutil.InSlice svcs (Name (config s)) = false ->
  let sep := if String.eqb (hd "" svcs) "" then "" else " " in
  modifyRCConfLocal s (rcFile data)
  = Done None
      {| fname := rcConfLocal;
         fdata := str_take (String.length data - 1) data +:+
                  sep +:+ Name (config s) +:+ nl;
         foff := String.length data - 1
                 + String.length (sep +:+ Name (config s) +:+ nl) |}.
Proof.
  intros Hshort Hlist Hout sep. unfold sep.
  rewrite <- (separator_first svcs).
  exact (overwrite_at_end_of_file s data svcs Hshort Hlist Hout).
Qed.

Lemma modifyRCConfLocal_overwrites_last_byte_witness :
  modifyRCConfLocal (serviceNamed "b") (rcFile ("pkg_scripts=a" +:+ nl +:+ "ntpd_flags=-s"))
  = Done None {| fname := rcConfLocal;
                 fdata := "pkg_scripts=a" +:+ nl +:+ "ntpd_flags=- b" +:+ nl;
                 foff := 29 |} /\
  modifyRCConfLocal (serviceNamed "x") (rcFile ("pkg_scripts= a" +:+ nl))
  = Done None {| fname := rcConfLocal; fdata := "pkg_scripts= ax" +:+ nl; foff := 16 |}.
Proof.
  split.
  - apply (modifyRCConfLocal_overwrites_last_byte (serviceNamed "b")
             ("pkg_scripts=a" +:+ nl +:+ "ntpd_flags=-s") ["a"]).
    + vm_compute. lia.
    + vm_compute. reflexivity.
    + reflexivity.
  - apply (modifyRCConfLocal_overwrites_last_byte (serviceNamed "x")
             ("pkg_scripts= a" +:+ nl) [""; "a"]).
    + vm_compute. lia.
    + vm_compute. reflexivity.
    + reflexivity.
Defined.

(** ** The editor when a read or the write fails *)

(** Without faults the scanner and the editor are those embedded
    first. *)
Lemma IO_scanLoop_quiet (fuel : nat) (s : Bufio.Scanner) (f : File) :
  IO.scanLoop noFaults fuel s f = Bufio.scanLoop fuel s f.
Proof.
  revert s f. induction fuel as [|fuel IH]; intros s f; [reflexivity |].
  cbn [IO.scanLoop Bufio.scanLoop].
  destruct (Bufio.trySplit s) as [s1 found].
  destruct found; [reflexivity |].
  destruct (Bufio.hasErr s1); [reflexivity |].
  cbv zeta.
  destruct (Bufio.full (Bufio.shift s1) &&
            Nat.leb Bufio.MaxScanTokenSize (Bufio.bufLen (Bufio.shift s1)));
    [reflexivity |].
  change (IO.Read noFaults) with Os.Read.
  destruct (Os.Read _ f) as [[got e] f1]. apply IH.
Qed.

Lemma IO_scanLines_quiet (fuel : nat) (prefIdx : Z) (ln : string) (scn : Bufio.Scanner)
    (f : File) :
  IO.scanLines noFaults fuel prefIdx ln scn f = scanLines fuel prefIdx ln scn f.
Proof.
  revert prefIdx ln scn f. induction fuel as [|fuel IH]; intros prefIdx ln scn f;
    [reflexivity |].
  cbn [IO.scanLines scanLines]. unfold bind, IO.Scan, Bufio.Scan.
  rewrite IO_scanLoop_quiet.
  destruct (Bufio.scanLoop _ scn f) as [[b scn1] f1 | msg f1 | f1]; try reflexivity.
  destruct b; cbn [negb]; [| reflexivity].
  destruct (String.eqb (Strings.TrimSpace (Bufio.Text scn1)) ""); [apply IH |].
  destruct (Strings.Index (Strings.TrimSpace (Bufio.Text scn1)) pref =? 0)%Z;
    [reflexivity | apply IH].
Qed.

Lemma IO_modifyRCConfLocal_quiet (s : openbsdRunComService) (f : File) :
  IO.modifyRCConfLocal noFaults s f = modifyRCConfLocal s f.
Proof.
  unfold IO.modifyRCConfLocal, modifyRCConfLocal, bind.
  rewrite IO_scanLines_quiet. reflexivity.
Qed.

(** A read into a buffer with room leaves the contents and the name of
    the file, and moves the offset by what it returns: nothing and an
    error, which is the end of the file only when nothing is left unread,
    or some bytes of the file. *)
Lemma IO_Read_spec (ft : FileFaults) (n : nat) (f f' : File) (got : string)
    (e : option error) :
  0 < n ->
  IO.Read ft n f = (got, e, f') ->
  fdata f' = fdata f /\ fname f' = fname f /\
  ((got = "" /\ f' = f /\ (exists x, e = Some x) /\
    (e = Some Bufio.EOF -> remaining f = 0)) \/
   (0 < String.length got <= n /\ e = None /\
    foff f' = foff f + String.length got /\
    remaining f' + String.length got = remaining f)).
Proof.
  intros Hn. unfold IO.Read.
  destruct (readFault ft (foff f)) as [errno |].
  - intros Heq. assert (Hgot : got = "") by congruence.
    assert (He : e = Os.pathError "read" (fname f) errno) by congruence.
    assert (Hf : f' = f) by congruence. subst got e f'.
    repeat apply conj; try reflexivity. left.
    repeat apply conj; try reflexivity; [eexists; reflexivity | discriminate].
  - intros Hread. destruct (Read_offset _ _ _ _ _ Hread) as [Hoff Hname].
    apply Read_spec in Hread; [| exact Hn].
    destruct Hread as [(Hrem & -> & -> & ->) | (Hgot & -> & Hrem & Hdata)].
    + repeat apply conj; try reflexivity. left.
      repeat apply conj; try reflexivity; [eexists; reflexivity | intros _; exact Hrem].
    + repeat apply conj; try assumption. right.
      repeat apply conj; try assumption; try reflexivity; lia.
Qed.

Lemma err_fill (s : Bufio.Scanner) (got : string) (x : error) :
  Bufio.err s = None -> Bufio.err (Bufio.fill s got (Some x)) = Some x.
Proof.
  intros Hnone. unfold Bufio.fill. cbv zeta. apply err_setErr_fresh. exact Hnone.
Qed.

(** [Scanner.Scan] over reads that may fail returns, given as many turns
    as bytes remain in the file and two more; it leaves the contents of
    the file, and hands out no line only with an error set. *)
Lemma IO_scanLoop_spec (ft : FileFaults) (fuel : nat) (s : Bufio.Scanner) (f : File) :
  scanInv s f ->
  remaining f + (if Bufio.hasErr s then 1 else 2) <= fuel ->
  exists b s' f',
    IO.scanLoop ft fuel s f = Done (b, s') f' /\
    scanInv s' f' /\ fdata f' = fdata f /\ fname f' = fname f /\
    String.length (Bufio.pending s') + remaining f' + (if b then 1 else 0)
    <= String.length (Bufio.pending s) + remaining f /\
    (b = false -> exists x, Bufio.err s' = Some x).
Proof.
  revert s f. induction fuel as [|fuel IH]; intros s f (Hok & Heof & Hoff) Hfuel.
  { destruct (Bufio.hasErr s); lia. }
  cbn [IO.scanLoop].
  destruct (Bufio.trySplit s) as [s1 found] eqn:Hsplit.
  apply trySplit_spec in Hsplit as (Herr1 & Hok1 & Hfound & Hnone).
  specialize (Hok1 Hok).
  destruct found.
  { exists true, s1, f. specialize (Hfound eq_refl).
    repeat apply conj; try reflexivity; try assumption; try lia; try discriminate.
    rewrite Herr1. exact Heof. }
  destruct (Hnone eq_refl) as [Hpend1 Hended].
  assert (Hhas1 : Bufio.hasErr s1 = Bufio.hasErr s).
  { unfold Bufio.hasErr. rewrite Herr1. reflexivity. }
  destruct (Bufio.hasErr s1) eqn:Hherr.
  { eexists false, _, f. split; [reflexivity |].
    unfold scanInv, bufOk, Bufio.bufEnd, Bufio.withBuf.
    cbn [Bufio.start Bufio.pending Bufio.bufLen Bufio.err String.length].
    rewrite Herr1.
    repeat apply conj; try reflexivity; try assumption; try lia.
    intros _. unfold Bufio.hasErr in Hherr. rewrite Herr1 in Hherr.
    destruct (Bufio.err s) as [x |]; [exists x; reflexivity | discriminate]. }
  assert (Hnoerr : Bufio.err s1 = None).
  { unfold Bufio.hasErr in Hherr. destruct (Bufio.err s1); [discriminate | reflexivity]. }
  destruct (shift_spec s1) as (Herr2 & Hpend2 & Hok2). specialize (Hok2 Hok1).
  set (s2 := Bufio.shift s1) in *.
  destruct (Bufio.full s2 && Nat.leb Bufio.MaxScanTokenSize (Bufio.bufLen s2)) eqn:Hroom.
  { eexists false, _, f. split; [reflexivity |].
    assert (Hlong : Bufio.err (Bufio.setErr Bufio.ErrTooLong s2) = Some Bufio.ErrTooLong)
      by (apply err_setErr_fresh; congruence).
    destruct (buffer_setErr Bufio.ErrTooLong s2) as (_ & _ & Hpend).
    unfold scanInv. rewrite Hlong, Hpend, Hpend2, Hpend1.
    repeat apply conj; try reflexivity; try assumption; try lia.
    - apply bufOk_setErr. exact Hok2.
    - discriminate.
    - intros _. eexists. reflexivity. }
  destruct (room_to_read s2 Hok2 Hroom) as (Herr3 & Hpend3 & Hspace).
  set (s3 := if Bufio.full s2 then Bufio.grow s2 else s2) in *.
  assert (Hnoerr3 : Bufio.err s3 = None) by congruence.
  destruct (IO.Read ft (Bufio.bufLen s3 - Bufio.bufEnd s3) f) as [[got e] f1] eqn:Hread.
  destruct (fill_spec s3 got e) as (Hpend4 & Hlen4 & Hstart4 & Hherr4 & Herr4).
  assert (Hs : Bufio.hasErr s = false) by (rewrite <- Hhas1; reflexivity).
  rewrite Hs in Hfuel.
  apply IO_Read_spec in Hread; [| lia].
  destruct Hread as (Hdata1 & Hname1 & [(-> & -> & [x ->] & Hend) | (Hgot & -> & Hoff1 & Hrem)]).
  - destruct (IH (Bufio.fill s3 "" (Some x)) f)
      as (b & s' & f' & Hrun & Hinv' & Hdata' & Hname' & Hmeasure & Hfalse).
    + unfold scanInv, bufOk, Bufio.bufEnd.
      rewrite Hpend4, Hlen4, Hstart4, append_empty_r, (err_fill s3 "" x Hnoerr3).
      unfold Bufio.bufEnd in Hspace.
      repeat apply conj; try assumption; try lia.
    + rewrite (Hherr4 ltac:(discriminate)). lia.
    + exists b, s', f'.
      rewrite Hpend4, append_empty_r, Hpend3, Hpend2, Hpend1 in Hmeasure.
      exact (conj Hrun (conj Hinv' (conj Hdata' (conj Hname' (conj Hmeasure Hfalse))))).
  - destruct (IH (Bufio.fill s3 got None) f1)
      as (b & s' & f' & Hrun & Hinv' & Hdata' & Hname' & Hmeasure & Hfalse).
    + unfold scanInv, bufOk, Bufio.bufEnd.
      rewrite Hpend4, Hlen4, Hstart4, length_append, (Herr4 eq_refl), Hnoerr3.
      unfold Bufio.bufEnd in Hspace, Hgot. unfold remaining in Hrem. rewrite Hdata1 in *.
      repeat apply conj; try lia; discriminate.
    + assert (Hh : Bufio.hasErr (Bufio.fill s3 got None) = false).
      { unfold Bufio.hasErr. rewrite (Herr4 eq_refl), Hnoerr3. reflexivity. }
      rewrite Hh. lia.
    + exists b, s', f'.
      rewrite Hpend4, length_append, Hpend3, Hpend2, Hpend1 in Hmeasure.
      refine (conj Hrun (conj Hinv' (conj _ (conj _ (conj _ Hfalse))))); try congruence; lia.
Qed.

Lemma IO_Scan_spec (ft : FileFaults) (s : Bufio.Scanner) (f : File) :
  scanInv s f ->
  exists b s' f',
    IO.Scan ft s f = Done (b, s') f' /\
    scanInv s' f' /\ fdata f' = fdata f /\ fname f' = fname f /\
    String.length (Bufio.pending s') + remaining f' + (if b then 1 else 0)
    <= String.length (Bufio.pending s) + remaining f /\
    (b = false -> exists x, Bufio.err s' = Some x).
Proof.
  intros Hinv. unfold IO.Scan. apply IO_scanLoop_spec; [exact Hinv |].
  unfold remaining. destruct (Bufio.hasErr s); lia.
Qed.

Lemma scanInv_fresh (data : string) : scanInv Bufio.NewScanner (rcFile data).
Proof.
  unfold scanInv, bufOk, Bufio.bufEnd. cbn.
  repeat apply conj; try lia; discriminate.
Qed.

(** The scanning loop of the editor returns and leaves the contents of
    the file, whatever reads fail. *)
Lemma IO_scanLines_spec (ft : FileFaults) (fuel : nat) (prefIdx : Z) (ln : string)
    (scn : Bufio.Scanner) (f : File) :
  scanInv scn f ->
  String.length (Bufio.pending scn) + remaining f + 1 <= fuel ->
  exists r f',
    IO.scanLines ft fuel prefIdx ln scn f = Done r f' /\
    fdata f' = fdata f /\ fname f' = fname f.
Proof.
  revert prefIdx ln scn f.
  induction fuel as [|fuel IH]; intros prefIdx ln scn f Hinv Hfuel; [lia |].
  cbn [IO.scanLines]. unfold bind.
  destruct (IO_Scan_spec ft scn f Hinv)
    as (b & scn' & f' & -> & Hinv' & Hdata & Hname & Hmeasure & _).
  destruct b; cbn [negb].
  - assert (Hnext : String.length (Bufio.pending scn') + remaining f' + 1 <= fuel) by lia.
    destruct (String.eqb (Strings.TrimSpace (Bufio.Text scn')) "").
    + destruct (IH prefIdx (Strings.TrimSpace (Bufio.Text scn')) scn' f' Hinv' Hnext)
        as (r & f'' & Hrun & Hdata'' & Hname'').
      exists r, f''. repeat apply conj; congruence.
    + destruct (Strings.Index (Strings.TrimSpace (Bufio.Text scn')) pref =? 0)%Z.
      * eexists _, f'. repeat apply conj; [reflexivity | exact Hdata | exact Hname].
      * destruct (IH (Strings.Index (Strings.TrimSpace (Bufio.Text scn')) pref)
                    (Strings.TrimSpace (Bufio.Text scn')) scn' f' Hinv' Hnext)
          as (r & f'' & Hrun & Hdata'' & Hname'').
        exists r, f''. repeat apply conj; congruence.
  - eexists _, f'. repeat apply conj; [reflexivity | exact Hdata | exact Hname].
Qed.

(** The lines of a file are handed out to the last, whatever reads fail;
    when the scanner ends without an error of its own, the file was read
    to its end. *)
Lemma IO_lines_spec (ft : FileFaults) (fuel : nat) (scn : Bufio.Scanner) (f : File) :
  scanInv scn f ->
  String.length (Bufio.pending scn) + remaining f + 1 <= fuel ->
  exists ls err f',
    IO.lines ft fuel scn f = Done (ls, err) f' /\
    fdata f' = fdata f /\ fname f' = fname f /\
    (err = None -> foff f' = String.length (fdata f')).
Proof.
  revert scn f. induction fuel as [|fuel IH]; intros scn f Hinv Hfuel; [lia |].
  cbn [IO.lines]. unfold bind.
  destruct (IO_Scan_spec ft scn f Hinv)
    as (b & scn' & f' & -> & Hinv' & Hdata & Hname & Hmeasure & Hfalse).
  destruct b; cbn [negb].
  - destruct (IH scn' f' Hinv' ltac:(lia)) as (ls & err & f'' & -> & Hdata'' & Hname'' & Hend).
    unfold ret. eexists _, _, f''.
    repeat apply conj; [reflexivity | congruence | congruence | exact Hend].
  - unfold ret. eexists _, _, f'.
    repeat apply conj; [reflexivity | exact Hdata | exact Hname |].
    destruct (Hfalse eq_refl) as [x Hx]. destruct Hinv' as (_ & Heof & Hoff).
    unfold Bufio.Err. rewrite Hx. intros Hnone.
    assert (Hend : x = Bufio.EOF).
    { destruct x as [[] | | | | |]; try discriminate Hnone. reflexivity. }
    rewrite Hend in Hx. specialize (Heof Hx). unfold remaining in Heof. lia.
Qed.

Lemma fileLines_total (ft : FileFaults) (data : string) :
  exists ls err, fileLines ft data = Some (ls, err).
Proof.
  unfold fileLines.
  destruct (IO_lines_spec ft (String.length data + 2) Bufio.NewScanner (rcFile data)
              (scanInv_fresh data)) as (ls & err & f' & -> & _).
  - unfold remaining. cbn [Bufio.NewScanner Bufio.pending String.length rcFile fdata foff]. lia.
  - exists ls, err. reflexivity.
Qed.

Lemma indexFrom_range (i : Z) (s substr : string) :
  (0 <= i)%Z ->
  Strings.indexFrom i s substr = (-1)%Z \/ (i <= Strings.indexFrom i s substr)%Z.
Proof.
  revert i. induction s as [|c s IH]; intros i Hi; cbn [Strings.indexFrom].
  - destruct (String.prefix substr ""); [right; lia | left; reflexivity].
  - destruct (String.prefix substr (String c s)); [right; lia |].
    destruct (IH (i + 1)%Z ltac:(lia)) as [Hnone | Hsome]; [left; exact Hnone | right; lia].
Qed.

(** [strings.Index] never returns the value that the index of the editor
    starts with. *)
Lemma Index_not_initial (s substr : string) : Strings.Index s substr <> (-2)%Z.
Proof.
  unfold Strings.Index.
  destruct (indexFrom_range 0 s substr ltac:(lia)) as [Hnone | Hsome]; lia.
Qed.

(** The scanning loop of the editor over a file none of whose lines is a
    line of the list: it reads the lines to the last, and its index is
    the one it starts with exactly when every line is blank. *)
Lemma IO_scanLines_of_lines (ft : FileFaults) (fuel : nat) (prefIdx : Z) (ln : string)
    (scn : Bufio.Scanner) (f f' : File) (ls : list string) (err : option error) :
  IO.lines ft fuel scn f = Done (ls, err) f' ->
  existsb listLine ls = false ->
  exists idx ln' scn',
    IO.scanLines ft fuel prefIdx ln scn f = Done (idx, ln', scn') f' /\
    Bufio.Err scn' = err /\
    (forallb blankLine ls = true -> idx = prefIdx) /\
    (forallb blankLine ls = false -> idx <> (-2)%Z /\ idx <> 0%Z).
Proof.
  revert prefIdx ln scn f ls.
  induction fuel as [|fuel IH]; intros prefIdx ln scn f ls; [discriminate |].
  cbn [IO.lines IO.scanLines]. unfold bind.
  destruct (IO.Scan ft scn f) as [[b scn1] f1 | msg f1 | f1]; try discriminate.
  destruct b; cbn [negb].
  - destruct (IO.lines ft fuel scn1 f1) as [[rest err1] f2 | msg f2 | f2] eqn:Hrest;
      try discriminate.
    unfold ret. intros Heq Hnone.
    assert (Hls : ls = Bufio.Text scn1 :: rest) by congruence.
    assert (Herr : err1 = err) by congruence.
    assert (Hf : f2 = f') by congruence. subst ls err1 f2.
    cbn [existsb forallb] in *. apply orb_false_elim in Hnone as [Hhead Hnone].
    unfold listLine in Hhead. unfold blankLine at 1 3.
    destruct (String.eqb (Strings.TrimSpace (Bufio.Text scn1)) "") eqn:Hblank.
    + cbn [andb]. exact (IH prefIdx _ scn1 f1 rest Hrest Hnone).
    + rewrite Hhead. cbn [andb].
      destruct (IH (Strings.Index (Strings.TrimSpace (Bufio.Text scn1)) pref)
                  (Strings.TrimSpace (Bufio.Text scn1)) scn1 f1 rest Hrest Hnone)
        as (idx & ln' & scn' & Hrun & Herr & Hsame & Hother).
      exists idx, ln', scn'.
      split; [exact Hrun |]. split; [exact Herr |]. split; [discriminate |].
      intros _. destruct (forallb blankLine rest).
      * rewrite (Hsame eq_refl).
        split; [apply Index_not_initial | apply Z.eqb_neq; exact Hhead].
      * apply Hother. reflexivity.
  - unfold ret. intros Heq _.
    assert (Hls : ls = []) by congruence.
    assert (Herr : Bufio.Err scn1 = err) by congruence.
    assert (Hf : f1 = f') by congruence. subst ls f1.
    exists prefIdx, ln, scn1. repeat apply conj; try reflexivity; try assumption.
    cbn [forallb]. discriminate.
Qed.

Lemma IO_WriteString_spec (ft : FileFaults) (b : string) (f f' : File) (err : option error) :
  IO.WriteString ft b f = (err, f') ->
  fname f' = fname f /\
  String.length (fdata f) <= String.length (fdata f') /\
  (forall e, err = Some e ->
     exists n errno, writeFault ft (foff f) = Some (n, errno) /\
                     e = ErrPath "write" (fname f) (ErrErrno errno)).
Proof.
  unfold IO.WriteString.
  assert (Hquiet : forall t, Os.WriteString t f = (err, f') ->
            fname f' = fname f /\
            String.length (fdata f) <= String.length (fdata f') /\
            err = None).
  { intros t Heq. pose proof (WriteString_length t f) as Hlen. rewrite Heq in Hlen.
    unfold Os.WriteString in Heq.
    assert (He : err = None) by congruence.
    assert (Hf : fname f' = fname f).
    { apply (f_equal snd) in Heq. cbn [snd] in Heq. rewrite <- Heq. reflexivity. }
    repeat apply conj; assumption. }
  destruct (writeFault ft (foff f)) as [[n errno] |].
  - destruct (Nat.ltb n (String.length b)).
    + intros Heq.
      assert (He : err = Os.pathError "write" (fname f) errno) by congruence.
      assert (Hf : f' = snd (Os.WriteString (str_take n b) f)) by congruence.
      repeat apply conj.
      * rewrite Hf. reflexivity.
      * rewrite Hf. apply WriteString_length.
      * intros e Herr. exists n, errno. split; [reflexivity |].
        rewrite He in Herr. unfold Os.pathError in Herr. congruence.
    + intros Heq. destruct (Hquiet b Heq) as (Hname & Hlen & Hnone).
      repeat apply conj; try assumption. intros e Herr. congruence.
  - intros Heq. destruct (Hquiet b Heq) as (Hname & Hlen & Hnone).
    repeat apply conj; try assumption. intros e Herr. congruence.
Qed.

(** Whatever the file holds and whichever read or write fails,
    [modifyRCConfLocal] returns and never makes the file shorter.  An
    error does not always mean that the file holds what it held: it does
    for every error but that of the write, which may have written a part
    of the text. *)
Theorem modifyRCConfLocal_never_shortens (ft : FileFaults) (s : openbsdRunComService)
    (data : string) :
  exists err f',
    IO.modifyRCConfLocal ft s (rcFile data) = Done err f' /\
    fname f' = rcConfLocal /\
    String.length data <= String.length (fdata f') /\
    (forall e, err = Some e ->
       fdata f' = data \/
       exists off n errno,
         writeFault ft off = Some (n, errno) /\
         e = ErrPath "write" rcConfLocal (ErrErrno errno)).
Proof.
  unfold IO.modifyRCConfLocal, bind, ret. cbn [fdata rcFile]. fold (rcFile data).
  destruct (IO_scanLines_spec ft (String.length data + 2) (-2) "" Bufio.NewScanner
              (rcFile data) (scanInv_fresh data))
    as ([[idx ln] scn] & f1 & -> & Hdata & Hname).
  { unfold remaining. cbn [Bufio.NewScanner Bufio.pending String.length rcFile fdata foff]. lia. }
  cbn [rcFile fdata fname] in Hdata, Hname.
  assert (Hwrite : forall b f2, fdata f2 = data -> fname f2 = rcConfLocal ->
            exists err f',
              (let '(err, file) := IO.WriteString ft b f2 in Done err file)
              = Done err f' /\
              fname f' = rcConfLocal /\
              String.length data <= String.length (fdata f') /\
              (forall e, err = Some e ->
                 fdata f' = data \/
                 exists off n errno,
                   writeFault ft off = Some (n, errno) /\
                   e = ErrPath "write" rcConfLocal (ErrErrno errno))).
  { intros b f2 Hd Hn.
    destruct (IO.WriteString ft b f2) as [err f'] eqn:Hw.
    apply IO_WriteString_spec in Hw as (Hname' & Hlen & Herr).
    exists err, f'. repeat apply conj; try reflexivity; try congruence.
    intros e He. right. destruct (Herr e He) as (n & errno & Hfault & Heq).
    exists (foff f2), n, errno. split; [exact Hfault | congruence]. }
  assert (Hkept : forall err f2, fdata f2 = data -> fname f2 = rcConfLocal ->
            exists err' f',
              Done err f2 = Done err' f' /\
              fname f' = rcConfLocal /\
              String.length data <= String.length (fdata f') /\
              (forall e, err' = Some e ->
                 fdata f' = data \/
                 exists off n errno,
                   writeFault ft off = Some (n, errno) /\
                   e = ErrPath "write" rcConfLocal (ErrErrno errno))).
  { intros err f2 Hd Hn. exists err, f2.
    repeat apply conj; try reflexivity; try assumption; [rewrite Hd; lia |].
    intros e _. left. exact Hd. }
  destruct (Bufio.Err scn); [apply Hkept; assumption |].
  destruct (idx =? -2)%Z; [apply Hwrite; assumption |].
  destruct (idx =? 0)%Z; [| apply Hwrite; assumption].
  destruct (Stringutil.InSlice _ _); [apply Hkept; assumption |].
  unfold Os.SeekCur.
  destruct (Z.of_nat (foff f1) + -1 <? 0)%Z; [apply Hkept; assumption |].
  apply Hwrite; assumption.
Qed.

(** A write that fails leaves the part it wrote and returns its error:
    on a disk with room for three bytes, the empty file has the first
    three bytes of the line afterwards.  A read that fails makes the
    editor return the error of the read with nothing written. *)
Example modifyRCConfLocal_failing_write_and_read :
  IO.modifyRCConfLocal (fullDisk 3) (serviceNamed "AdGuardHome") (rcFile "")
  = Done (Some (ErrPath "write" rcConfLocal (ErrErrno ENOSPC)))
         {| fname := rcConfLocal; fdata := "pkg"; foff := 3 |} /\
  IO.modifyRCConfLocal (badBlock 0) (serviceNamed "AdGuardHome")
    (rcFile ("pkg_scripts=a" +:+ nl))
  = Done (Some (ErrPath "read" rcConfLocal (ErrErrno EIO)))
         {| fname := rcConfLocal; fdata := "pkg_scripts=a" +:+ nl; foff := 0 |}.
Proof. split; vm_compute; reflexivity. Qed.

Lemma WriteString_appends (ft : FileFaults) (text data : string) :
  let f := {| fname := rcConfLocal; fdata := data; foff := String.length data |} in
  (forall n e, writeFault ft (String.length data) = Some (n, e) ->
     n < String.length text ->
     IO.WriteString ft text f
     = (Some (ErrPath "write" rcConfLocal (ErrErrno e)),
        {| fname := rcConfLocal; fdata := data +:+ str_take n text;
           foff := String.length data + n |})) /\
  ((forall n e, writeFault ft (String.length data) = Some (n, e) ->
      String.length text <= n) ->
   IO.WriteString ft text f
   = (None, {| fname := rcConfLocal; fdata := data +:+ text;
               foff := String.length data + String.length text |})).
Proof.
  intros f. unfold IO.WriteString. cbn [foff fname f]. split.
  - intros n e Hfault Hn. rewrite Hfault.
    destruct (Nat.ltb_spec n (String.length text)) as [_ | Hge]; [| lia].
    rewrite WriteString_at_end by reflexivity. cbn [snd fname fdata].
    rewrite length_str_take, Nat.min_l by lia. reflexivity.
  - intros Hroom.
    destruct (writeFault ft (String.length data)) as [[n e] |] eqn:Hfault.
    + specialize (Hroom n e eq_refl).
      destruct (Nat.ltb_spec n (String.length text)) as [Hlt | _]; [lia |].
      apply WriteString_at_end. reflexivity.
    + apply WriteString_at_end. reflexivity.
Qed.

(** Where the scanner hands out the lines of the file to the last without
    an error, and none of them is a line of the startup list, the editor
    writes at the end of the file: the line of the list with the name,
    after a line feed unless every line of the file is blank.  When the
    write succeeds the editor returns without error and the file is what
    it held followed by that text; when the write fails after some bytes
    of the text, the editor returns the error of the write and the file
    is what it held followed by those bytes. *)
Theorem modifyRCConfLocal_appends_new_list (ft : FileFaults) (s : openbsdRunComService)
    (data : string) (ls : list string) :
  fileLines ft data = Some (ls, None) ->
  existsb listLine ls = false ->
  let text := (if forallb blankLine ls then "" else nl) +:+ pref +:+ Name (config s) +:+ nl in
  (forall n e, writeFault ft (String.length data) = Some (n, e) ->
     n < String.length text ->
     IO.modifyRCConfLocal ft s (rcFile data)
     = Done (Some (ErrPath "write" rcConfLocal (ErrErrno e)))
            {| fname := rcConfLocal; fdata := data +:+ str_take n text;
               foff := String.length data + n |}) /\
  ((forall n e, writeFault ft (String.length data) = Some (n, e) ->
      String.length text <= n) ->
   IO.modifyRCConfLocal ft s (rcFile data)
   = Done None {| fname := rcConfLocal; fdata := data +:+ text;
                  foff := String.length data + String.length text |}).
Proof.
  intros Hlines Hnone text.
  unfold fileLines in Hlines.
  destruct (IO.lines ft (String.length data + 2) Bufio.NewScanner (rcFile data))
    as [[ls' err] f1 | msg f1 | f1] eqn:Hrun; try discriminate.
  assert (Hls : ls' = ls) by congruence. assert (Herr : err = None) by congruence.
  subst ls' err.
  destruct (IO_lines_spec ft (String.length data + 2) Bufio.NewScanner (rcFile data)
              (scanInv_fresh data))
    as (ls2 & err2 & f2 & Hrun2 & Hdata & Hname & Hend).
  { unfold remaining. cbn [Bufio.NewScanner Bufio.pending String.length rcFile fdata foff]. lia. }
  rewrite Hrun in Hrun2.
  assert (Hf : f2 = f1) by congruence. assert (Herr2 : err2 = None) by congruence.
  subst f2 err2. specialize (Hend eq_refl). cbn [rcFile fdata fname] in Hdata, Hname.
  assert (Hf1 : f1 = {| fname := rcConfLocal; fdata := data; foff := String.length data |}).
  { destruct f1 as [n d o]. cbn [fdata fname foff] in *. congruence. }
  destruct (IO_scanLines_of_lines ft _ (-2) "" _ _ _ _ _ Hrun Hnone)
    as (idx & ln' & scn' & Hscan & Hscanerr & Hsame & Hother).
  assert (Hedit : IO.modifyRCConfLocal ft s (rcFile data)
                  = let '(err, file) := IO.WriteString ft text f1 in Done err file).
  { unfold IO.modifyRCConfLocal, bind. cbn [fdata rcFile]. fold (rcFile data).
    rewrite Hscan, Hscanerr. unfold text, Stringutil.WriteToBuilder.
    destruct (forallb blankLine ls).
    - rewrite (Hsame eq_refl). cbn [Z.eqb str_concat].
      rewrite !append_nil, !append_empty_r. reflexivity.
    - destruct (Hother eq_refl) as [Hinit Hzero].
      apply Z.eqb_neq in Hinit, Hzero. rewrite Hinit, Hzero. cbn [str_concat].
      rewrite !append_nil, !append_empty_r. reflexivity. }
  rewrite Hedit, Hf1.
  destruct (WriteString_appends ft text data) as [Hpart Hfull].
  split.
  - intros n e Hfault Hn. rewrite (Hpart n e Hfault Hn). reflexivity.
  - intros Hroom. rewrite (Hfull Hroom). reflexivity.
Qed.

Lemma modifyRCConfLocal_appends_new_list_witness :
  IO.modifyRCConfLocal (fullDisk 5) (serviceNamed "b") (rcFile ("ntpd_flags=-s" +:+ nl))
  = Done (Some (ErrPath "write" rcConfLocal (ErrErrno ENOSPC)))
         {| fname := rcConfLocal; fdata := "ntpd_flags=-s" +:+ nl +:+ nl +:+ "pkg_";
            foff := 19 |} /\
  IO.modifyRCConfLocal noFaults (serviceNamed "b") (rcFile (nl +:+ "  " +:+ nl))
  = Done None {| fname := rcConfLocal;
                 fdata := nl +:+ "  " +:+ nl +:+ "pkg_scripts=b" +:+ nl; foff := 18 |}.
Proof.
  split.
  - assert (Hlines : fileLines (fullDisk 5) ("ntpd_flags=-s" +:+ nl)
                     = Some (["ntpd_flags=-s"], None)) by (vm_compute; reflexivity).
    destruct (modifyRCConfLocal_appends_new_list (fullDisk 5) (serviceNamed "b")
                ("ntpd_flags=-s" +:+ nl) ["ntpd_flags=-s"] Hlines eq_refl) as [Hpart _].
    apply (Hpart 5 ENOSPC eq_refl). vm_compute. lia.
  - assert (Hlines : fileLines noFaults (nl +:+ "  " +:+ nl) = Some ([""; "  "], None))
      by (vm_compute; reflexivity).
    destruct (modifyRCConfLocal_appends_new_list noFaults (serviceNamed "b")
                (nl +:+ "  " +:+ nl) [""; "  "] Hlines eq_refl) as [_ Hfull].
    apply Hfull. intros n e Hfault. discriminate Hfault.
Defined.
